(** * Triton GEMM emitter of XLA:GPU ([xla/service/gpu/ir_emitter_triton.cc])

    A shallow embedding of the matmul-to-Triton lowering: the XLA to Triton type
    conversion, the cast helper, the operand and layout analysis of
    [MatMulImpl], its resource checks, its launch geometry, the tile program it
    emits through the MLIR builder, the index-width dispatch of [MatMul] and the
    orchestration of [TritonWrapper]. *)

From Stdlib Require Import ZArith List String Bool Lia DecimalString.
Import ListNotations.
Local Open Scope string_scope.
Local Open Scope Z_scope.
Set Warnings "-register-all".

(** ** Machine integers

    The C++ code computes with [int] (32 bits), [unsigned] (32 bits) and
    [int64_t]; values are kept in [Z] and every narrowing is written out.
    Signed overflow is taken as two's complement wrap-around. *)

Module MachineInt.

Definition wrap_signed (w z : Z) : Z := (z + 2 ^ (w - 1)) mod 2 ^ w - 2 ^ (w - 1).

Definition to_int (z : Z) : Z := wrap_signed 32 z.
Definition to_int64 (z : Z) : Z := wrap_signed 64 z.
Definition to_unsigned (z : Z) : Z := z mod 2 ^ 32.

Definition INT_MAX : Z := 2147483647.
Definition INT64_MAX : Z := 9223372036854775807.

(** C++ [/] and [%] truncate towards zero. *)
Definition cdiv (a b : Z) : Z := Z.quot a b.
Definition crem (a b : Z) : Z := Z.rem a b.

Definition in_int (z : Z) : Prop := - 2 ^ 31 <= z <= INT_MAX.
Definition in_int64 (z : Z) : Prop := - 2 ^ 63 <= z <= INT64_MAX.

End MachineInt.
Import MachineInt.

(** ** Outcomes

    [Ok] and [ResourceExhausted] are the two [StatusOr] values the code returns
    to its caller.  [Abort] is the termination of the process by a failed
    [CHECK] or by [LOG(FATAL)]: nothing is returned. *)

Inductive Outcome (A : Type) : Type :=
| Ok (a : A)
| ResourceExhausted (msg : string)
| Abort (msg : string).
Arguments Ok {A} a.
Arguments ResourceExhausted {A} msg.
Arguments Abort {A} msg.

Definition is_ResourceExhausted {A} (o : Outcome A) : bool :=
  match o with ResourceExhausted _ => true | _ => false end.

Definition is_Abort {A} (o : Outcome A) : bool :=
  match o with Abort _ => true | _ => false end.

Definition is_Ok {A} (o : Outcome A) : bool :=
  match o with Ok _ => true | _ => false end.

Module OutcomeMonad.

Definition ret {A} (a : A) : Outcome A := Ok a.

Definition bind {A B} (m : Outcome A) (f : A -> Outcome B) : Outcome B :=
  match m with
  | Ok a => f a
  | ResourceExhausted msg => ResourceExhausted msg
  | Abort msg => Abort msg
  end.

(** [CHECK(cond)]: continue when the condition holds, terminate otherwise. *)
Definition CHECK (cond : bool) (what : string) : Outcome unit :=
  if cond then Ok tt else Abort ("Check failed: " ++ what).

Definition CHECK_EQ (a b : Z) (what : string) : Outcome unit := CHECK (a =? b) what.
Definition CHECK_LE (a b : Z) (what : string) : Outcome unit := CHECK (a <=? b) what.
Definition CHECK_LT (a b : Z) (what : string) : Outcome unit := CHECK (a <? b) what.
Definition CHECK_GE (a b : Z) (what : string) : Outcome unit := CHECK (a >=? b) what.
Definition CHECK_GT (a b : Z) (what : string) : Outcome unit := CHECK (a >? b) what.

(** Element [i] of a vector or of a repeated field; an index outside the
    container terminates the process. *)
Definition at_ {A} (l : list A) (i : Z) (what : string) : Outcome A :=
  if i <? 0 then Abort ("index out of range: " ++ what)
  else match nth_error l (Z.to_nat i) with
       | Some a => Ok a
       | None => Abort ("index out of range: " ++ what)
       end.

End OutcomeMonad.
Import OutcomeMonad.

Declare Scope outcome_scope.
Delimit Scope outcome_scope with outcome.
Notation "x <- m ;; k" := (bind m (fun x => k))
  (at level 61, m at next level, right associativity) : outcome_scope.
Notation "m ;;; k" := (bind m (fun _ => k))
  (at level 61, right associativity) : outcome_scope.

(** [absl::StrFormat("%d", v)]. *)
Definition format_d (v : Z) : string := NilZero.string_of_int (Z.to_int v).

(** The text [needle] occurs in the message [msg]. *)
Fixpoint mentions (needle msg : string) : bool :=
  String.prefix needle msg
  || match msg with
     | EmptyString => false
     | String _ rest => mentions needle rest
     end.

(** ** XLA primitive types and MLIR types *)

Inductive PrimitiveType : Type :=
| PRED | S8 | S16 | S32 | S64
| U8 | U16 | U32 | U64
| F16 | F32 | F64 | BF16
| C64 | C128.

Inductive Ty : Type :=
| F64Type | F32Type | F16Type | BF16Type
| IntegerType (width : Z)
| PointerType (pointee : Ty)
| RankedTensorType (shape : list Z) (elem : Ty).

Definition I64Type := IntegerType 64.
Definition I32Type := IntegerType 32.
Definition I16Type := IntegerType 16.
Definition I8Type := IntegerType 8.
Definition I1Type := IntegerType 1.

Fixpoint shape_eqb (a b : list Z) : bool :=
  match a, b with
  | [], [] => true
  | x :: a', y :: b' => (x =? y) && shape_eqb a' b'
  | _, _ => false
  end.

Fixpoint Ty_eqb (a b : Ty) : bool :=
  match a, b with
  | F64Type, F64Type | F32Type, F32Type | F16Type, F16Type | BF16Type, BF16Type => true
  | IntegerType w, IntegerType w' => w =? w'
  | PointerType p, PointerType p' => Ty_eqb p p'
  | RankedTensorType s e, RankedTensorType s' e' => shape_eqb s s' && Ty_eqb e e'
  | _, _ => false
  end.

Definition isF64 (t : Ty) : bool := match t with F64Type => true | _ => false end.
Definition isF32 (t : Ty) : bool := match t with F32Type => true | _ => false end.
Definition isF16 (t : Ty) : bool := match t with F16Type => true | _ => false end.
Definition isBF16 (t : Ty) : bool := match t with BF16Type => true | _ => false end.

Definition isFloatType (t : Ty) : bool :=
  match t with F64Type | F32Type | F16Type | BF16Type => true | _ => false end.
Definition isIntegerType (t : Ty) : bool :=
  match t with IntegerType _ => true | _ => false end.

(** [FloatType::getFPMantissaWidth] (precision of the format, hidden bit
    included). *)
Definition getFPMantissaWidth (t : Ty) : Z :=
  match t with
  | F64Type => 53 | F32Type => 24 | F16Type => 11 | BF16Type => 8
  | _ => 0
  end.

Definition getIntOrFloatBitWidth (t : Ty) : Z :=
  match t with
  | F64Type => 64 | F32Type => 32 | F16Type => 16 | BF16Type => 16
  | IntegerType w => w
  | _ => 0
  end.

(** XLA -> Triton type conversions. *)
Definition TritonType (t : PrimitiveType) : Outcome Ty :=
  match t with
  | F64 => Ok F64Type
  | F32 => Ok F32Type
  | F16 => Ok F16Type
  | BF16 => Ok BF16Type
  | S64 => Ok I64Type
  | S32 => Ok I32Type
  | S16 => Ok I16Type
  | PRED => Ok I8Type
  | S8 => Ok I8Type
  | _ => Abort "This type is not supported yet"
  end.

(** ** The tile program

    An SSA value is identified with the operation that defines it, so a value
    is the tree of the operations it is computed from.  Block arguments and
    function arguments carry their type.  The operations of a block are kept in
    creation order. *)

Inductive ProgramIDDim : Type := ProgramIDDim_X | ProgramIDDim_Y | ProgramIDDim_Z.

Inductive CmpIPredicate : Type := eq_ | ne | slt | sle | sgt | sge.

Inductive Value : Type :=
| FuncArgument (n : Z) (ty : Ty)
| BlockArgument (n : nat) (ty : Ty)
| GetProgramIdOp (axis : ProgramIDDim)
| ConstantOp (ty : Ty) (value : Z)
| ConstantIntOp (value : Z) (width : Z)
| AddIOp (lhs rhs : Value)
| SubIOp (lhs rhs : Value)
| MulIOp (lhs rhs : Value)
| DivSIOp (lhs rhs : Value)
| RemSIOp (lhs rhs : Value)
| AndIOp (lhs rhs : Value)
| CmpIOp (pred : CmpIPredicate) (lhs rhs : Value)
| SelectOp (cond tv fv : Value)
| ExtSIOp (ty : Ty) (v : Value)
| TruncFOp (ty : Ty) (v : Value)
| ExtFOp (ty : Ty) (v : Value)
| SIToFPOp (ty : Ty) (v : Value)
| FPToSIOp (ty : Ty) (v : Value)
| SplatOp (ty : Ty) (v : Value)
| MakeRangeOp (ty : Ty) (start end_ : Z)
| BroadcastOp (ty : Ty) (v : Value)
| ExpandDimsOp (v : Value) (axis : Z)
| AddPtrOp (ty : Ty) (ptr offset : Value)
| LoadOp (ptr : Value) (mask other : option Value)
| DotOp (a b c : Value) (allowTF32 : bool)
| ForOpResult (lowerBound upperBound step : Value) (iterArgs : list Value)
              (body : list Operation) (i : nat)
with Operation : Type :=
| Def (v : Value)
| ForOp (lowerBound upperBound step : Value) (iterArgs : list Value)
        (body : list Operation)
| StoreOp (ptr value mask : Value)
| YieldOp (values : list Value)
| ReturnOp.

Definition getShape (t : Ty) : list Z :=
  match t with RankedTensorType s _ => s | _ => [] end.

Definition getElementType (t : Ty) : Ty :=
  match t with RankedTensorType _ e => e | _ => t end.

(** [ShapedType::clone(shape, elem)] on the type of a value: a tensor keeps its
    shape, a scalar stays a scalar. *)
Definition with_element_type (like : Ty) (elem : Ty) : Ty :=
  match like with
  | RankedTensorType s _ => RankedTensorType s elem
  | _ => elem
  end.

Definition getPointeeType (t : Ty) : Ty :=
  match t with PointerType p => p | _ => t end.

Fixpoint insert_dim (s : list Z) (axis : nat) : list Z :=
  match axis, s with
  | O, _ => 1 :: s
  | S a, x :: s' => x :: insert_dim s' a
  | S _, [] => [1]
  end.

(** Result type of the operation defining a value. *)
Fixpoint getType (v : Value) : Ty :=
  match v with
  | FuncArgument _ ty | BlockArgument _ ty => ty
  | GetProgramIdOp _ => I32Type
  | ConstantOp ty _ => ty
  | ConstantIntOp _ w => IntegerType w
  | AddIOp a _ | SubIOp a _ | MulIOp a _ | DivSIOp a _ | RemSIOp a _ | AndIOp a _ =>
      getType a
  | CmpIOp _ a _ => with_element_type (getType a) I1Type
  | SelectOp _ a _ => getType a
  | ExtSIOp ty _ | TruncFOp ty _ | ExtFOp ty _ | SIToFPOp ty _ | FPToSIOp ty _ => ty
  | SplatOp ty _ | MakeRangeOp ty _ _ | BroadcastOp ty _ => ty
  | ExpandDimsOp a axis =>
      RankedTensorType (insert_dim (getShape (getType a)) (Z.to_nat axis))
                       (getElementType (getType a))
  | AddPtrOp ty _ _ => ty
  | LoadOp p _ _ =>
      with_element_type (getType p) (getPointeeType (getElementType (getType p)))
  | DotOp _ _ c _ => getType c
  | ForOpResult _ _ _ inits _ i =>
      (fix nth_type (l : list Value) (n : nat) {struct l} : Ty :=
         match l, n with
         | [], _ => I32Type
         | x :: _, O => getType x
         | _ :: l', S n' => nth_type l' n'
         end) inits i
  end.

(** ** The builder

    [b.create<Op>(...)] appends the operation at the insertion point and
    returns its result.  The state is the list of operations of the block
    under construction; an outcome other than [Ok] leaves the block as it was
    when the failure happened.  Where an operation is created from operations
    created in its argument list, the arguments are taken from left to right
    (C++ leaves their order open; nothing below depends on it). *)

Definition Builder (A : Type) : Type := list Operation -> Outcome A * list Operation.

Module BuilderMonad.

Definition ret {A} (a : A) : Builder A := fun ops => (Ok a, ops).

Definition bind {A B} (m : Builder A) (f : A -> Builder B) : Builder B :=
  fun ops =>
    match m ops with
    | (Ok a, ops') => f a ops'
    | (ResourceExhausted msg, ops') => (ResourceExhausted msg, ops')
    | (Abort msg, ops') => (Abort msg, ops')
    end.

Definition lift {A} (o : Outcome A) : Builder A := fun ops => (o, ops).

Definition create (v : Value) : Builder Value := fun ops => (Ok v, (ops ++ [Def v])%list).

Definition emit (o : Operation) : Builder unit := fun ops => (Ok tt, (ops ++ [o])%list).

(** Build a region: run [m] at the start of a fresh block and give back the
    operations created there, the enclosing block being left untouched. *)
Definition in_new_block {A} (m : Builder A) : Builder (A * list Operation) :=
  fun ops =>
    match m [] with
    | (Ok a, body) => (Ok (a, body), ops)
    | (ResourceExhausted msg, _) => (ResourceExhausted msg, ops)
    | (Abort msg, _) => (Abort msg, ops)
    end.

End BuilderMonad.

Declare Scope builder_scope.
Delimit Scope builder_scope with builder.
Notation "x <- m ;; k" := (BuilderMonad.bind m (fun x => k))
  (at level 61, m at next level, right associativity) : builder_scope.
Notation "m ;;; k" := (BuilderMonad.bind m (fun _ => k))
  (at level 61, right associativity) : builder_scope.
Notation "'create!' v" := (BuilderMonad.create v) (at level 10, v at level 9) : builder_scope.

Section Helpers.
Import BuilderMonad.
Local Open Scope builder_scope.

(** Triton type conversions. *)
Definition Cast (value : Value) (dst_element_ty : Ty) : Builder Value :=
  let src_ty := getType value in
  let src_element_ty := getElementType src_ty in
  let fp32_ty := with_element_type src_ty F32Type in
  let dst_ty := with_element_type src_ty dst_element_ty in
  if Ty_eqb src_ty dst_ty then ret value
  else if isFloatType src_element_ty && isFloatType dst_element_ty then
    (* Float <=> float *)
    if (isF16 src_element_ty && isBF16 dst_element_ty)
       || (isBF16 src_element_ty && isF16 dst_element_ty)
    then ext <- create! (ExtFOp fp32_ty value) ;; create! (TruncFOp dst_ty ext)
    else if getFPMantissaWidth src_element_ty >? getFPMantissaWidth dst_element_ty
    then create! (TruncFOp dst_ty value)
    else create! (ExtFOp dst_ty value)
  else if isIntegerType src_element_ty && isFloatType dst_element_ty then
    (* int => float *)
    create! (SIToFPOp dst_ty value)
  else if isFloatType src_element_ty && isIntegerType dst_element_ty then
    (* float => int *)
    create! (FPToSIOp dst_ty value)
  else lift (Abort "Type conversion not supported").

(** Create a scalar constant. *)
Definition CreateConst (type : Ty) (value : Z) : Builder Value :=
  if isIntegerType type then create! (ConstantOp type value)
  else if isFloatType type then create! (ConstantOp type value)
  else lift (Abort "Constant type not supported").

(** Create a tensor constant. *)
Definition CreateConstTensor (type : Ty) (value : Z) (shape : list Z) : Builder Value :=
  let tensor_type := RankedTensorType shape type in
  if isIntegerType type then create! (ConstantOp tensor_type value)
  else if isFloatType type then create! (ConstantOp tensor_type value)
  else lift (Abort "Constant type not supported").

End Helpers.

(** ** The HLO side: shapes, dot dimension numbers, fusion analysis, tiling *)

Record Shape : Type := {
  element_type : PrimitiveType;
  dimensions : list Z;
  minor_to_major : list Z
}.

Definition rank (s : Shape) : Z := Z.of_nat (List.length (dimensions s)).

(** Modelled from the spec: [ShapeUtil::ElementsIn] (xla/shape_util.cc) is the
    element count of a shape, the product of its dimension sizes. *)
Definition ElementsIn (s : Shape) : Z := fold_right Z.mul 1 (dimensions s).

Record DotDimensionNumbers : Type := {
  lhs_contracting_dimensions : list Z;
  rhs_contracting_dimensions : list Z;
  lhs_batch_dimensions : list Z;
  rhs_batch_dimensions : list Z
}.

Record HloDotInstruction : Type := {
  operand0 : Shape;
  operand1 : Shape;
  shape : Shape;
  dot_dimension_numbers : DotDimensionNumbers
}.

Definition operand (d : HloDotInstruction) (i : Z) : Shape :=
  if i =? 0 then operand0 d else operand1 d.

(** One fragment of the iteration over a dimension of a fusion parameter. *)
Record IterationSpecFragment : Type := {
  stride : Z;
  count : Z
}.

Record HloParameter : Type := {
  parameter_shape : Shape;
  parameter_number : Z
}.

(** [DotFusionAnalysis] (xla/service/gpu/gemm_rewriter_triton.h) is built by
    code outside this file; its two accessors are taken as given. *)
Record DotFusionAnalysis : Type := {
  OperandToParameter : Z -> HloParameter;
  IterSpec : Z -> Z -> list IterationSpecFragment
}.

(** [AutotuneResult::TritonGemmKey] (xla/autotuning.proto): six 64-bit integer
    fields. *)
Record TritonGemmKey : Type := {
  block_m : Z;
  block_k : Z;
  block_n : Z;
  split_k : Z;
  num_stages : Z;
  num_warps : Z
}.

Record Dim3D : Type := { dim_x : Z; dim_y : Z; dim_z : Z }.

Record LaunchDimensions : Type := {
  block_counts : Dim3D;
  thread_counts_per_block : Dim3D;
  shared_mem_bytes : Z
}.

Definition SetSharedMemBytes (l : LaunchDimensions) (bytes : Z) : LaunchDimensions :=
  {| block_counts := block_counts l;
     thread_counts_per_block := thread_counts_per_block l;
     shared_mem_bytes := bytes |}.

(** Number of blocks of the launch grid along an axis of the program id. *)
Definition grid_extent (l : LaunchDimensions) (axis : ProgramIDDim) : Z :=
  match axis with
  | ProgramIDDim_X => dim_x (block_counts l)
  | ProgramIDDim_Y => dim_y (block_counts l)
  | ProgramIDDim_Z => dim_z (block_counts l)
  end.

(** Modelled from the spec: [GetNonContractingDims] (xla/service/gpu/matmul_utils.cc)
    lists, in increasing order, the dimensions of an operand that are neither
    batch nor contracting. *)
Definition GetNonContractingDims (s : Shape) (batch_dims contracting_dims : list Z)
  : list Z :=
  filter (fun d => negb (existsb (Z.eqb d) batch_dims)
                   && negb (existsb (Z.eqb d) contracting_dims))
         (map Z.of_nat (seq 0 (List.length (dimensions s)))).

Inductive IndexT : Type := int32_t | int64_t.

Definition to_IndexT (t : IndexT) (z : Z) : Z :=
  match t with int32_t => to_int z | int64_t => to_int64 z end.

Definition b2z (b : bool) : Z := if b then 1 else 0.

(** ** [MatMulImpl]: operand and layout analysis

    Variable naming: lhs [m, k] x rhs [k, n] -> out [m, n]. *)

(** Locals of [MatMulImpl] set before the output strides are computed. *)
Record OperandInfo : Type := {
  lhs_ty : Ty;
  rhs_ty : Ty;
  lhs_parameter_number : Z;
  rhs_parameter_number : Z;
  have_split_k : bool;
  have_batch : bool;
  rhs_nc_out_idx : Z;
  lhs_nc_out_idx : Z;
  split_k_out_idx : Z;
  batch_out_idx : Z;
  m_minor : Z;
  n : Z;
  k : Z;
  lhs_nc_split : bool;
  stride_lhs_m : Z;
  stride_lhs_k : Z;
  stride_rhs_k : Z;
  stride_rhs_n : Z;
  batch_size : Z;
  stride_batch_lhs : Z;
  stride_batch_rhs : Z;
  m_full : Z
}.

Record OutStrides : Type := {
  stride_out_m : Z;
  stride_out_n : Z;
  stride_out_split_k : Z;
  stride_out_batch : Z;
  out_stride_size_accumulator : Z
}.

(** A range-based [for] whose body can terminate the process. *)
Fixpoint for_each {A S : Type} (l : list A) (body : S -> A -> Outcome S) (s : S)
  : Outcome S :=
  match l with
  | [] => Ok s
  | x :: l' => bind (body s x) (for_each l' body)
  end.

Definition group_m : Z := 8.
Definition kBlockCountYZLimit : Z := 65536.
Definition kComplexityHeuristicLimit : Z := 9000.

(** [ceil(1.0 * a / b)] converted to [int].  Both operands are 32-bit integers,
    so the double quotient is either exact or strictly between two integers,
    and the result is the integer ceiling of the rational [a / b]. *)
Definition ceil_div (a b : Z) : Z := to_int (- ((- a) / b)).

Section Analysis.
Local Open Scope outcome_scope.

Variable T : IndexT.
Variable dot_instr : HloDotInstruction.
Variable analysis : DotFusionAnalysis.
Variable config : TritonGemmKey.

Definition first_fragment (operand_idx dim : Z) : Outcome IterationSpecFragment :=
  at_ (IterSpec analysis operand_idx dim) 0 "IterSpec[0]".

(** Lines 339-449 of the source: element types, dimension roles, lengths and
    operand strides. *)
Definition operand_info : Outcome OperandInfo :=
  let dims := dot_dimension_numbers dot_instr in
  let hlo_lhs_param := OperandToParameter analysis 0 in
  let hlo_rhs_param := OperandToParameter analysis 1 in
  lhs_ty <- TritonType (element_type (parameter_shape hlo_lhs_param)) ;;
  rhs_ty <- TritonType (element_type (parameter_shape hlo_rhs_param)) ;;
  (* Rely on dot decomposer: there is just one contracting and one
     non-contracting dimension on each side + batch ones optionally. *)
  CHECK_EQ (Z.of_nat (List.length (lhs_contracting_dimensions dims))) 1
           "lhs_contracting_dimensions_size() == 1" ;;;
  CHECK_EQ (Z.of_nat (List.length (rhs_contracting_dimensions dims))) 1
           "rhs_contracting_dimensions_size() == 1" ;;;
  lhs_contracting <- at_ (lhs_contracting_dimensions dims) 0 "lhs_contracting_dimensions(0)" ;;
  rhs_contracting <- at_ (rhs_contracting_dimensions dims) 0 "rhs_contracting_dimensions(0)" ;;
  let have_split_k := split_k config >? 1 in
  (if have_split_k then
     (* Split-K dimension has to be the first batch one and have an index
        just before the contracting one.  Size of this dimension has to match
        the split_k value. *)
     lhs_batch0 <- at_ (lhs_batch_dimensions dims) 0 "lhs_batch_dimensions(0)" ;;
     CHECK_EQ lhs_batch0 (lhs_contracting - 1) "lhs split-K index" ;;;
     rhs_batch0 <- at_ (rhs_batch_dimensions dims) 0 "rhs_batch_dimensions(0)" ;;
     CHECK_EQ rhs_batch0 (rhs_contracting - 1) "rhs split-K index" ;;;
     lhs_split_size <- at_ (dimensions (operand dot_instr 0)) (lhs_contracting - 1)
                           "lhs split-K size" ;;
     CHECK_EQ (split_k config) lhs_split_size "lhs split-K size" ;;;
     rhs_split_size <- at_ (dimensions (operand dot_instr 1)) (rhs_contracting - 1)
                           "rhs split-K size" ;;
     CHECK_EQ (split_k config) rhs_split_size "rhs split-K size"
   else Ok tt) ;;;
  let lhs_batch_dimensions_size := Z.of_nat (List.length (lhs_batch_dimensions dims)) in
  CHECK_LE lhs_batch_dimensions_size (1 + b2z have_split_k)
           "lhs_batch_dimensions_size() <= 1 + have_split_k" ;;;
  let have_batch := negb (to_int (lhs_batch_dimensions_size - b2z have_split_k) =? 0) in
  CHECK_EQ (rank (operand dot_instr 0)) (2 + b2z have_split_k + b2z have_batch)
           "lhs rank == 2 + have_split_k + have_batch" ;;;
  lhs_noncontracting_dim_idx <-
    at_ (GetNonContractingDims (operand dot_instr 0) (lhs_batch_dimensions dims)
                               (lhs_contracting_dimensions dims))
        0 "lhs non-contracting" ;;
  rhs_noncontracting_dim_idx <-
    at_ (GetNonContractingDims (operand dot_instr 1) (rhs_batch_dimensions dims)
                               (rhs_contracting_dimensions dims))
        0 "rhs non-contracting" ;;
  (* Logical output dimensions are always ordered as:
       split-K, batch, non-contracting LHS, non-contracting RHS,
     where split-K and batch are optional. *)
  let rhs_nc_out_idx := to_int (rank (shape dot_instr) - 1) in
  let lhs_nc_out_idx := to_int (rank (shape dot_instr) - 2) in
  let split_k_out_idx := if have_split_k then 0 else -1 in
  let batch_out_idx := if have_batch then (if have_split_k then 1 else 0) else -1 in
  (* Non-contracting dimension lengths.
     Just the fastest-varying part of it if the dimension is split. *)
  lhs_nc0 <- first_fragment 0 lhs_noncontracting_dim_idx ;;
  let m_minor := to_int (count lhs_nc0) in
  rhs_nc0 <- first_fragment 1 rhs_noncontracting_dim_idx ;;
  let n := to_int (count rhs_nc0) in
  (* Contracting dimension length. *)
  lhs_contracting_size <- at_ (dimensions (operand dot_instr 0)) lhs_contracting
                              "lhs contracting size" ;;
  let k := to_int (to_int64 (lhs_contracting_size * split_k config)) in
  (* LHS non-contracting can be split into two. *)
  let lhs_nc_spec := IterSpec analysis 0 lhs_noncontracting_dim_idx in
  let lhs_nc_split := Z.of_nat (List.length lhs_nc_spec) >? 1 in
  CHECK_EQ (Z.of_nat (List.length lhs_nc_spec)) (1 + b2z lhs_nc_split)
           "lhs non-contracting fragments == 1 + lhs_nc_split" ;;;
  (* For now split non-contracting and batch are not supported simultaneously
     because they are implemented via same mechanism. *)
  CHECK_LE (b2z have_batch + b2z lhs_nc_split) 1 "have_batch + lhs_nc_split <= 1" ;;;
  (* Splitting of the other ones is not supported yet. *)
  CHECK_EQ (Z.of_nat (List.length (IterSpec analysis 1 rhs_noncontracting_dim_idx))) 1
           "rhs non-contracting fragments == 1" ;;;
  CHECK_EQ (Z.of_nat (List.length (IterSpec analysis 0 lhs_contracting))) 1
           "lhs contracting fragments == 1" ;;;
  let stride_lhs_m := to_IndexT T (stride lhs_nc0) in
  lhs_k0 <- first_fragment 0 lhs_contracting ;;
  let stride_lhs_k := to_IndexT T (stride lhs_k0) in
  rhs_k0 <- first_fragment 1 rhs_contracting ;;
  let stride_rhs_k := to_IndexT T (stride rhs_k0) in
  let stride_rhs_n := to_IndexT T (stride rhs_nc0) in
  (* Either batch size or upper part of the length of a split nc dimension. *)
  batch <-
    (if lhs_nc_split then
       lhs_nc1 <- at_ lhs_nc_spec 1 "IterSpec[1]" ;;
       let batch_size := to_int (count lhs_nc1) in
       Ok (batch_size, to_IndexT T (stride lhs_nc1), 0, to_int (m_minor * batch_size))
     else if have_batch then
       (* Batch dimension should have same length left and right. *)
       let batch_dim_idx := if have_split_k then 1 else 0 in
       lhs_batch_dim <- at_ (lhs_batch_dimensions dims) batch_dim_idx "lhs batch" ;;
       rhs_batch_dim <- at_ (rhs_batch_dimensions dims) batch_dim_idx "rhs batch" ;;
       lhs_b0 <- first_fragment 0 lhs_batch_dim ;;
       rhs_b0 <- first_fragment 1 rhs_batch_dim ;;
       CHECK_EQ (count lhs_b0) (count rhs_b0) "batch sizes match" ;;;
       Ok (to_int (count lhs_b0), to_IndexT T (stride lhs_b0),
           to_IndexT T (stride rhs_b0), m_minor)
     else Ok (1, 0, 0, m_minor)) ;;
  let '(batch_size, stride_batch_lhs, stride_batch_rhs, m_full) := batch in
  Ok {| lhs_ty := lhs_ty; rhs_ty := rhs_ty;
        lhs_parameter_number := parameter_number hlo_lhs_param;
        rhs_parameter_number := parameter_number hlo_rhs_param;
        have_split_k := have_split_k; have_batch := have_batch;
        rhs_nc_out_idx := rhs_nc_out_idx; lhs_nc_out_idx := lhs_nc_out_idx;
        split_k_out_idx := split_k_out_idx; batch_out_idx := batch_out_idx;
        m_minor := m_minor; n := n; k := k; lhs_nc_split := lhs_nc_split;
        stride_lhs_m := stride_lhs_m; stride_lhs_k := stride_lhs_k;
        stride_rhs_k := stride_rhs_k; stride_rhs_n := stride_rhs_n;
        batch_size := batch_size; stride_batch_lhs := stride_batch_lhs;
        stride_batch_rhs := stride_batch_rhs; m_full := m_full |}.

End Analysis.

(** ** [MatMulImpl]: output strides (lines 453-496) *)

Section OutputStrides.
Local Open Scope outcome_scope.

Variable T : IndexT.
Variable out_shape : Shape.
Variable config : TritonGemmKey.
Variable info : OperandInfo.

Definition init_out_strides : OutStrides :=
  {| stride_out_m := 0; stride_out_n := 0; stride_out_split_k := 0;
     stride_out_batch := 0; out_stride_size_accumulator := 1 |}.

(** Body of the loop over the output's physical dimensions, starting from the
    fastest varying one: detect the type of the dimension and populate the
    stride accordingly. *)
Definition out_stride_body (s : OutStrides) (logical_idx : Z) : Outcome OutStrides :=
  dim_size <- at_ (dimensions out_shape) logical_idx "output dimension" ;;
  let acc := out_stride_size_accumulator s in
  s' <-
    (if logical_idx =? rhs_nc_out_idx info then
       CHECK_EQ dim_size (n info) "dim_size == n" ;;;
       Ok {| stride_out_m := stride_out_m s;
             stride_out_n := to_IndexT T acc;
             stride_out_split_k := stride_out_split_k s;
             stride_out_batch := stride_out_batch s;
             out_stride_size_accumulator := acc |}
     else if logical_idx =? lhs_nc_out_idx info then
       CHECK_EQ dim_size (m_full info) "dim_size == m_full" ;;;
       Ok {| stride_out_m := to_IndexT T acc;
             stride_out_n := stride_out_n s;
             stride_out_split_k := stride_out_split_k s;
             stride_out_batch :=
               (* Dimension of the output produced by the non-contracting LHS
                  one is physically contiguous even if the producing LHS one
                  is split.  Because the major part of the split is
                  implemented using the batch logic stride_out_batch is
                  populated here as the stride of the minor part times its
                  size. *)
               if lhs_nc_split info
               then to_IndexT T (to_int64 (acc * m_minor info))
               else stride_out_batch s;
             out_stride_size_accumulator := acc |}
     else if logical_idx =? split_k_out_idx info then
       CHECK_EQ dim_size (split_k config) "dim_size == split_k" ;;;
       Ok {| stride_out_m := stride_out_m s;
             stride_out_n := stride_out_n s;
             stride_out_split_k := to_IndexT T acc;
             stride_out_batch := stride_out_batch s;
             out_stride_size_accumulator := acc |}
     else if logical_idx =? batch_out_idx info then
       CHECK_EQ dim_size (batch_size info) "dim_size == batch_size" ;;;
       Ok {| stride_out_m := stride_out_m s;
             stride_out_n := stride_out_n s;
             stride_out_split_k := stride_out_split_k s;
             stride_out_batch := to_IndexT T acc;
             out_stride_size_accumulator := acc |}
     else Abort "Check failed: false Unexpected dimension") ;;
  Ok {| stride_out_m := stride_out_m s';
        stride_out_n := stride_out_n s';
        stride_out_split_k := stride_out_split_k s';
        stride_out_batch := stride_out_batch s';
        out_stride_size_accumulator := to_int64 (acc * dim_size) |}.

Definition out_stride_loop : Outcome OutStrides :=
  for_each (minor_to_major out_shape) out_stride_body init_out_strides.

(** The loop followed by the checks on its result (lines 488-496). *)
Definition output_strides : Outcome OutStrides :=
  s <- out_stride_loop ;;
  CHECK_GE (stride_out_m s) 1 "stride_out_m >= 1" ;;;
  CHECK_GE (stride_out_n s) 1 "stride_out_n >= 1" ;;;
  (* The next two should never be minor-most, so stride > 1. *)
  (if have_split_k info
   then CHECK_GT (stride_out_split_k s) 1 "stride_out_split_k > 1" else Ok tt) ;;;
  (if have_batch info || lhs_nc_split info
   then CHECK_GT (stride_out_batch s) 1 "stride_out_batch > 1" else Ok tt) ;;;
  Ok s.

End OutputStrides.

(** ** [MatMulImpl]: tiling, dot and accumulator types, shared memory (lines 498-535) *)

Record Tiling : Type := {
  t_block_m : Z;
  t_block_k : Z;
  t_block_n : Z;
  grid_m : Z;
  grid_n : Z;
  width : Z
}.

Section TilingAndTypes.
Local Open Scope outcome_scope.

Variable config : TritonGemmKey.
Variable info : OperandInfo.

Definition tiling : Outcome Tiling :=
  let block_m := to_int (block_m config) in
  let block_k := to_int (block_k config) in
  let block_n := to_int (block_n config) in
  CHECK_GE block_m 16 "block_m >= 16" ;;;
  CHECK_GE block_k 16 "block_k >= 16" ;;;
  CHECK_GE block_n 16 "block_n >= 16" ;;;
  let grid_m := ceil_div (m_minor info) block_m in
  let grid_n := ceil_div (n info) block_n in
  let width := to_int (group_m * grid_n) in
  Ok {| t_block_m := block_m; t_block_k := block_k; t_block_n := block_n;
        grid_m := grid_m; grid_n := grid_n; width := width |}.

(** Data type to which dot() inputs are converted. *)
Definition dot_ty (lhs_ty rhs_ty : Ty) : Ty :=
  if isF32 lhs_ty || isF32 rhs_ty then F32Type
  else if isBF16 lhs_ty || isBF16 rhs_ty then BF16Type
  else if isF16 lhs_ty || isF16 rhs_ty then F16Type
  else F32Type.

(** The narrowest float category: the two 16-bit formats. *)
Definition is_narrow_float (t : Ty) : bool := isF16 t || isBF16 t.

(** Otherwise only f64 x f64 -> f64 uses f64 accumulator. *)
Definition acc_ty (root_ty dot_ty : Ty) : Ty :=
  if isF64 root_ty && isF64 dot_ty then F64Type else F32Type.

Definition required_shmem_size (t : Tiling) : Z :=
  to_int
    (cdiv
       (to_int64
          (to_unsigned
             (to_unsigned
                (to_unsigned (t_block_m t * getIntOrFloatBitWidth (lhs_ty info))
                 + to_unsigned (t_block_n t * getIntOrFloatBitWidth (rhs_ty info)))
              * t_block_k t)
           * num_stages config))
       8).

Definition check_shmem (t : Tiling) (shmem_budget : Z) : Outcome unit :=
  if required_shmem_size t >? shmem_budget
  then ResourceExhausted
         ("Requires too much shared memory: " ++ format_d (required_shmem_size t)
          ++ " > " ++ format_d shmem_budget)
  else Ok tt.

End TilingAndTypes.

(** ** [MatMulImpl]: launch geometry and the emitted tile program (lines 536-778) *)

Section Emission.
Import BuilderMonad.
Local Open Scope builder_scope.

Variable T : IndexT.
(** [WarpSize()] (xla/service/gpu/ir_emission_utils.h). *)
Variable WarpSize : Z.
(** [tsl::tensor_float_32_execution_enabled()]. *)
Variable tensor_float_32_execution_enabled : bool.
(** Argument types of the kernel function [fn]. *)
Variable fn : list Ty.
Variable config : TritonGemmKey.
Variable info : OperandInfo.
Variable strides : OutStrides.
Variable tile : Tiling.
Variable root_ty : Ty.

Definition i32_ty : Ty := I32Type.
Definition int_ty : Ty := match T with int64_t => I64Type | int32_t => I32Type end.

Definition getArgument (i : Z) : Builder Value :=
  lift (OutcomeMonad.bind (at_ fn i "fn.getArgument") (fun ty => Ok (FuncArgument i ty))).

Definition build_splat (value : Value) (shape : list Z) : Builder Value :=
  create! (SplatOp (RankedTensorType shape (getType value)) value).

Definition build_range (limit : Z) : Builder Value :=
  create! (MakeRangeOp (RankedTensorType [limit] I32Type) 0 limit).

Definition build_bcast (value : Value) (shape : list Z) : Builder Value :=
  create! (BroadcastOp (RankedTensorType shape (getElementType (getType value))) value).

Definition build_addptr (ptr offset : Value) : Builder Value :=
  create! (AddPtrOp (getType ptr) ptr offset).

(** Extend int32 indexes to int64, if necessary. *)
Definition convert_scalar (value : Value) : Builder Value :=
  match T with
  | int64_t => create! (ExtSIOp int_ty value)
  | int32_t => ret value
  end.

Definition convert_range (value : Value) : Builder Value :=
  match T with
  | int64_t => create! (ExtSIOp (RankedTensorType (getShape (getType value)) int_ty) value)
  | int32_t => ret value
  end.

(** X block size is 32-bit, Y and Z are 16-bit. Use X for large dimensions. *)
Definition large_batch : bool := batch_size info >=? kBlockCountYZLimit.

Record ProgramIds : Type := { pid_batch : Value; pid_nc : Value; pid_k : Value }.

(** Lines 543-547. *)
Definition program_ids : Builder ProgramIds :=
  pid_batch <- create! (GetProgramIdOp
                          (if large_batch then ProgramIDDim_X else ProgramIDDim_Y)) ;;
  pid_nc <- create! (GetProgramIdOp
                       (if large_batch then ProgramIDDim_Y else ProgramIDDim_X)) ;;
  pid_k <- create! (GetProgramIdOp ProgramIDDim_Z) ;;
  ret {| pid_batch := pid_batch; pid_nc := pid_nc; pid_k := pid_k |}.

(** In the imaginary situation where both batch size and grid_m * grid_n are
    over 65535 we have to give up.  The left operand is an [int] product. *)
Definition grid_guard_value : Z :=
  to_int (to_int (batch_size info * grid_m tile) * grid_n tile).

Definition grid_guard : Outcome unit :=
  CHECK_LT grid_guard_value (kBlockCountYZLimit * kBlockCountYZLimit)
           "batch_size * grid_m * grid_n < kBlockCountYZLimit * kBlockCountYZLimit".

Definition launch_dimensions : LaunchDimensions :=
  {| block_counts :=
       {| dim_x := if large_batch then batch_size info
                   else to_int (grid_m tile * grid_n tile);
          dim_y := if large_batch then to_int (grid_m tile * grid_n tile)
                   else batch_size info;
          dim_z := split_k config |};
     thread_counts_per_block :=
       {| dim_x := to_int64 (num_warps config * WarpSize); dim_y := 1; dim_z := 1 |};
     shared_mem_bytes := 0 |}.

Record Swizzle : Type := {
  first_pid_m : Value;
  group_size : Value;
  pid_m : Value;
  range_m : Value;
  pid_n : Value;
  range_n : Value;
  range_k : Value
}.

(** Lines 560-566 and 608-627: the group of the program instance along m, its
    size, the coordinates [pid_m] and [pid_n], and the three ranges. *)
Definition swizzle (ids : ProgramIds) : Builder Swizzle :=
  width_op <- CreateConst i32_ty (width tile) ;;
  group_id <- create! (DivSIOp (pid_nc ids) width_op) ;;
  group_m_op <- CreateConst i32_ty group_m ;;
  first_pid_m <- create! (MulIOp group_id group_m_op) ;;
  grid_m_op <- CreateConst i32_ty (grid_m tile) ;;
  sub0 <- create! (SubIOp grid_m_op first_pid_m) ;;
  cmp <- create! (CmpIOp slt sub0 group_m_op) ;;
  group_size <- create! (SelectOp cmp sub0 group_m_op) ;;
  rem <- create! (RemSIOp (pid_nc ids) group_size) ;;
  pid_m <- create! (AddIOp first_pid_m rem) ;;
  block_m_op <- CreateConst i32_ty (t_block_m tile) ;;
  pid_m_stride <- create! (MulIOp pid_m block_m_op) ;;
  splat_m <- build_splat pid_m_stride [t_block_m tile] ;;
  iota_m <- build_range (t_block_m tile) ;;
  range_m <- create! (AddIOp splat_m iota_m) ;;
  width_op' <- CreateConst i32_ty (width tile) ;;
  rem_w <- create! (RemSIOp (pid_nc ids) width_op') ;;
  pid_n <- create! (DivSIOp rem_w group_size) ;;
  block_n_op <- CreateConst i32_ty (t_block_n tile) ;;
  pid_n_stride <- create! (MulIOp pid_n block_n_op) ;;
  splat_n <- build_splat pid_n_stride [t_block_n tile] ;;
  iota_n <- build_range (t_block_n tile) ;;
  range_n <- create! (AddIOp splat_n iota_n) ;;
  block_k_op <- CreateConst i32_ty (t_block_k tile) ;;
  pid_k_stride <- create! (MulIOp (pid_k ids) block_k_op) ;;
  splat_k <- build_splat pid_k_stride [t_block_k tile] ;;
  iota_k <- build_range (t_block_k tile) ;;
  range_k <- create! (AddIOp splat_k iota_k) ;;
  ret {| first_pid_m := first_pid_m; group_size := group_size; pid_m := pid_m;
         range_m := range_m; pid_n := pid_n; range_n := range_n; range_k := range_k |}.

Definition shape_m_1 : list Z := [t_block_m tile; 1].
Definition shape_1_k : list Z := [1; t_block_k tile].
Definition shape_m_k : list Z := [t_block_m tile; t_block_k tile].
Definition shape_k_1 : list Z := [t_block_k tile; 1].
Definition shape_1_n : list Z := [1; t_block_n tile].
Definition shape_k_n : list Z := [t_block_k tile; t_block_n tile].
Definition shape_m_n : list Z := [t_block_m tile; t_block_n tile].

(** Lines 629-648: the address tile of the LHS operand. *)
Definition lhs_pointers (lhs : Value) (ids : ProgramIds) (sw : Swizzle) : Builder Value :=
  m_minor_op <- CreateConstTensor i32_ty (m_minor info) [t_block_m tile] ;;
  rem_m <- create! (RemSIOp (range_m sw) m_minor_op) ;;
  range_lhs_m <- convert_range rem_m ;;
  exp_m <- create! (ExpandDimsOp range_lhs_m 1) ;;
  stride_m_op <- CreateConstTensor int_ty (stride_lhs_m info) shape_m_1 ;;
  lhs_offset_m <- create! (MulIOp exp_m stride_m_op) ;;
  conv_k <- convert_range (range_k sw) ;;
  exp_k <- create! (ExpandDimsOp conv_k 0) ;;
  stride_k_op <- CreateConstTensor int_ty (stride_lhs_k info) shape_1_k ;;
  lhs_offset_k <- create! (MulIOp exp_k stride_k_op) ;;
  bcast_m <- build_bcast lhs_offset_m shape_m_k ;;
  bcast_k <- build_bcast lhs_offset_k shape_m_k ;;
  lhs_offset <- create! (AddIOp bcast_m bcast_k) ;;
  conv_batch <- convert_scalar (pid_batch ids) ;;
  stride_batch_op <- CreateConst int_ty (stride_batch_lhs info) ;;
  lhs_offset_batch <- create! (MulIOp conv_batch stride_batch_op) ;;
  base <- build_addptr lhs lhs_offset_batch ;;
  base_splat <- build_splat base shape_m_k ;;
  build_addptr base_splat lhs_offset.

(** Lines 650-669: the address tile of the RHS operand. *)
Definition rhs_pointers (rhs : Value) (ids : ProgramIds) (sw : Swizzle) : Builder Value :=
  conv_k <- convert_range (range_k sw) ;;
  exp_k <- create! (ExpandDimsOp conv_k 1) ;;
  stride_k_op <- CreateConstTensor int_ty (stride_rhs_k info) shape_k_1 ;;
  rhs_off_k <- create! (MulIOp exp_k stride_k_op) ;;
  n_op <- CreateConstTensor i32_ty (n info) [t_block_n tile] ;;
  rem_n <- create! (RemSIOp (range_n sw) n_op) ;;
  range_rhs_n <- convert_range rem_n ;;
  exp_n <- create! (ExpandDimsOp range_rhs_n 0) ;;
  stride_n_op <- CreateConstTensor int_ty (stride_rhs_n info) shape_1_n ;;
  rhs_offset_n <- create! (MulIOp exp_n stride_n_op) ;;
  bcast_k <- build_bcast rhs_off_k shape_k_n ;;
  bcast_n <- build_bcast rhs_offset_n shape_k_n ;;
  rhs_offset <- create! (AddIOp bcast_k bcast_n) ;;
  conv_batch <- convert_scalar (pid_batch ids) ;;
  stride_batch_op <- CreateConst int_ty (stride_batch_rhs info) ;;
  rhs_offset_batch <- create! (MulIOp conv_batch stride_batch_op) ;;
  base <- build_addptr rhs rhs_offset_batch ;;
  base_splat <- build_splat base shape_k_n ;;
  build_addptr base_splat rhs_offset.

(** The step of the reduction loop, [block_k * config.split_k()]. *)
Definition loop_step : Z := to_int64 (t_block_k tile * split_k config).

(** Whether the loads of the loop body are masked. *)
Definition needs_mask : bool := crem (k info) loop_step >? 0.

Record LoadGuards : Type := {
  lhs_mask : option Value;
  rhs_mask : option Value;
  zeros_like_lhs : option Value;
  zeros_like_rhs : option Value
}.

(** Lines 678-703: masks and fill values of the two loads of the loop body.
    The remainder [k % (block_k * split_k)] by a step of zero terminates the
    process. *)
Definition load_guards (range_k ki : Value) : Builder LoadGuards :=
  if loop_step =? 0 then lift (Abort "integer division by zero") else
  if needs_mask then
    zeros_like_lhs <- CreateConstTensor (lhs_ty info) 0 shape_m_k ;;
    zeros_like_rhs <- CreateConstTensor (rhs_ty info) 0 shape_k_n ;;
    k_op <- CreateConst i32_ty (k info) ;;
    elements_in_tile <- create! (SubIOp k_op ki) ;;
    exp0 <- create! (ExpandDimsOp range_k 0) ;;
    splat0 <- build_splat elements_in_tile shape_1_k ;;
    cmp0 <- create! (CmpIOp slt exp0 splat0) ;;
    lhs_mask <- build_bcast cmp0 shape_m_k ;;
    exp1 <- create! (ExpandDimsOp range_k 1) ;;
    splat1 <- build_splat elements_in_tile shape_k_1 ;;
    cmp1 <- create! (CmpIOp slt exp1 splat1) ;;
    rhs_mask <- build_bcast cmp1 shape_k_n ;;
    ret {| lhs_mask := Some lhs_mask; rhs_mask := Some rhs_mask;
           zeros_like_lhs := Some zeros_like_lhs; zeros_like_rhs := Some zeros_like_rhs |}
  else
    ret {| lhs_mask := None; rhs_mask := None;
           zeros_like_lhs := None; zeros_like_rhs := None |}.

(** Lines 673-730: the body of the reduction loop. *)
Definition body_builder (range_k ki : Value) (iterArgs : list Value) : Builder unit :=
  lhs_ptrs <- lift (at_ iterArgs 0 "iterArgs[0]") ;;
  rhs_ptrs <- lift (at_ iterArgs 1 "iterArgs[1]") ;;
  acc <- lift (at_ iterArgs 2 "iterArgs[2]") ;;
  g <- load_guards range_k ki ;;
  lhs_tile <- create! (LoadOp lhs_ptrs (lhs_mask g) (zeros_like_lhs g)) ;;
  rhs_tile <- create! (LoadOp rhs_ptrs (rhs_mask g) (zeros_like_rhs g)) ;;
  let dot_ty := dot_ty (lhs_ty info) (rhs_ty info) in
  casted_lhs_tile <- Cast lhs_tile dot_ty ;;
  casted_rhs_tile <- Cast rhs_tile dot_ty ;;
  acc_next <- create! (DotOp casted_lhs_tile casted_rhs_tile acc
                             tensor_float_32_execution_enabled) ;;
  lhs_inc <- CreateConstTensor int_ty (to_int64 (loop_step * stride_lhs_k info)) shape_m_k ;;
  lhs_ptrs_inc <- build_addptr lhs_ptrs lhs_inc ;;
  rhs_inc <- CreateConstTensor int_ty (to_int64 (loop_step * stride_rhs_k info)) shape_k_n ;;
  rhs_ptrs_inc <- build_addptr rhs_ptrs rhs_inc ;;
  emit (YieldOp [lhs_ptrs_inc; rhs_ptrs_inc; acc_next]).

(** Block arguments of the loop body: the induction variable, then one
    argument per loop-carried value, of the type of its initial value. *)
Definition body_arguments (lowerBound : Value) (inits : list Value) : Value * list Value :=
  (BlockArgument 0 (getType lowerBound),
   map (fun '(i, v) => BlockArgument (S i) (getType v))
       (combine (seq 0 (List.length inits)) inits)).

(** Lines 731-741: the [scf.for] over the contracting dimension; its third
    result is the final accumulator. *)
Definition reduction_loop (lhs_ptrs_base rhs_ptrs_base acc_init : Value) (sw : Swizzle)
  : Builder Value :=
  lowerBound <- create! (ConstantIntOp 0 32) ;;
  upperBound <- create! (ConstantIntOp (k info) 32) ;;
  step <- create! (ConstantIntOp loop_step 32) ;;
  let inits := [lhs_ptrs_base; rhs_ptrs_base; acc_init] in
  let '(ki, iterArgs) := body_arguments lowerBound inits in
  r <- in_new_block (body_builder (range_k sw) ki iterArgs) ;;
  emit (ForOp lowerBound upperBound step inits (snd r)) ;;;
  ret (ForOpResult lowerBound upperBound step inits (snd r) 2).

(** Lines 743-777: addresses, mask and store of the output tile. *)
Definition output_store (out acc_final : Value) (ids : ProgramIds) (sw : Swizzle)
  : Builder unit :=
  (* Output tile offsets. *)
  conv_batch <- convert_scalar (pid_batch ids) ;;
  stride_batch_op <- CreateConst int_ty (stride_out_batch strides) ;;
  out_offset_batch <- create! (MulIOp conv_batch stride_batch_op) ;;
  conv_k <- convert_scalar (pid_k ids) ;;
  stride_split_op <- CreateConst int_ty (stride_out_split_k strides) ;;
  out_offset_split_k <- create! (MulIOp conv_k stride_split_op) ;;
  conv_m <- convert_range (range_m sw) ;;
  exp_m <- create! (ExpandDimsOp conv_m 1) ;;
  stride_m_op <- CreateConstTensor int_ty (stride_out_m strides) shape_m_1 ;;
  out_offset_m <- create! (MulIOp exp_m stride_m_op) ;;
  out_batch <- build_addptr out out_offset_batch ;;
  out_split <- build_addptr out_batch out_offset_split_k ;;
  out_splat <- build_splat out_split shape_m_1 ;;
  out_ptrs_m <- build_addptr out_splat out_offset_m ;;
  conv_n <- convert_range (range_n sw) ;;
  exp_n <- create! (ExpandDimsOp conv_n 0) ;;
  stride_n_op <- CreateConstTensor int_ty (stride_out_n strides) shape_1_n ;;
  out_offset_n <- create! (MulIOp exp_n stride_n_op) ;;
  bcast_ptrs <- build_bcast out_ptrs_m shape_m_n ;;
  bcast_n <- build_bcast out_offset_n shape_m_n ;;
  out_ptrs <- build_addptr bcast_ptrs bcast_n ;;
  (* Output tile store mask: check that the indices are within [M, N]. *)
  exp_rm <- create! (ExpandDimsOp (range_m sw) 1) ;;
  m_op <- CreateConstTensor i32_ty (m_minor info) shape_m_1 ;;
  rm_cmp <- create! (CmpIOp slt exp_rm m_op) ;;
  exp_rn <- create! (ExpandDimsOp (range_n sw) 0) ;;
  n_op <- CreateConstTensor i32_ty (n info) shape_1_n ;;
  rn_cmp <- create! (CmpIOp slt exp_rn n_op) ;;
  bcast_rm <- build_bcast rm_cmp shape_m_n ;;
  bcast_rn <- build_bcast rn_cmp shape_m_n ;;
  mask <- create! (AndIOp bcast_rm bcast_rn) ;;
  casted <- Cast acc_final root_ty ;;
  emit (StoreOp out_ptrs casted mask).

(** Lines 536-778. *)
Definition emit_kernel : Builder LaunchDimensions :=
  let acc_ty := acc_ty root_ty (dot_ty (lhs_ty info) (rhs_ty info)) in
  lhs <- getArgument (lhs_parameter_number info) ;;
  rhs <- getArgument (rhs_parameter_number info) ;;
  out <- getArgument (Z.of_nat (List.length fn) - 1) ;;
  ids <- program_ids ;;
  lift grid_guard ;;;
  sw <- swizzle ids ;;
  lhs_ptrs_base <- lhs_pointers lhs ids sw ;;
  rhs_ptrs_base <- rhs_pointers rhs ids sw ;;
  acc_init <- CreateConstTensor acc_ty 0 shape_m_n ;;
  acc_final <- reduction_loop lhs_ptrs_base rhs_ptrs_base acc_init sw ;;
  output_store out acc_final ids sw ;;;
  ret launch_dimensions.

End Emission.

(** ** [MatMulImpl], [MatMul] and [TritonWrapper] *)

Section Lowering.
Import BuilderMonad.
Local Open Scope builder_scope.

(** Constructor of [DotFusionAnalysis] from the dot and [config.split_k()]
    (xla/service/gpu/gemm_rewriter_triton.cc). *)
Variable analyze : HloDotInstruction -> Z -> DotFusionAnalysis.
Variable WarpSize : Z.
Variable tensor_float_32_execution_enabled : bool.

(** Everything [MatMulImpl] computes before its first resource check (lines
    339-513): no operation is created there. *)
Record Preamble : Type := {
  p_info : OperandInfo;
  p_strides : OutStrides;
  p_tile : Tiling;
  p_root_ty : Ty
}.

Definition preamble (T : IndexT) (dot_instr : HloDotInstruction) (config : TritonGemmKey)
  : Outcome Preamble :=
  let analysis := analyze dot_instr (split_k config) in
  OutcomeMonad.bind (operand_info T dot_instr analysis config) (fun info =>
  OutcomeMonad.bind (output_strides T (shape dot_instr) config info) (fun strides =>
  OutcomeMonad.bind (tiling config info) (fun tile =>
  OutcomeMonad.bind (TritonType (element_type (shape dot_instr))) (fun root_ty =>
  Ok {| p_info := info; p_strides := strides; p_tile := tile; p_root_ty := root_ty |})))).

Definition MatMulImpl (T : IndexT) (dot_instr : HloDotInstruction) (fn : list Ty)
    (config : TritonGemmKey) (shmem_budget : Z) : Builder LaunchDimensions :=
  p <- lift (preamble T dot_instr config) ;;
  lift (check_shmem config (p_info p) (p_tile p) shmem_budget) ;;;
  emit_kernel T WarpSize tensor_float_32_execution_enabled fn config (p_info p)
              (p_strides p) (p_tile p) (p_root_ty p).

(** Use 32-bit indexing if addressing any of the inputs or the output (which
    could grow if split_k is set) does not cross the INT_MAX boundary.
    Otherwise, fall back to 64-bit indexing, which is slower. *)
Definition use_64bit_indexing (dot_instr : HloDotInstruction) (config : TritonGemmKey)
  : bool :=
  (ElementsIn (operand dot_instr 0) >? INT_MAX)
  || (ElementsIn (operand dot_instr 1) >? INT_MAX)
  || (to_int64 (ElementsIn (shape dot_instr) * split_k config) >? INT_MAX).

Definition index_type (dot_instr : HloDotInstruction) (config : TritonGemmKey) : IndexT :=
  if use_64bit_indexing dot_instr config then int64_t else int32_t.

Definition MatMul (dot_instr : HloDotInstruction) (fn : list Ty)
    (config : TritonGemmKey) (shmem_budget : Z) : Builder LaunchDimensions :=
  if use_64bit_indexing dot_instr config
  then MatMulImpl int64_t dot_instr fn config shmem_budget
  else MatMulImpl int32_t dot_instr fn config shmem_budget.

Inductive HloOpcode : Type := kDot | kBitcast | kOtherOpcode.

Inductive HloInstruction : Type :=
| HloDot (d : HloDotInstruction)
| HloBitcast (s : Shape) (operand0 : HloInstruction)
| HloOther (s : Shape).

Definition opcode (i : HloInstruction) : HloOpcode :=
  match i with HloDot _ => kDot | HloBitcast _ _ => kBitcast | HloOther _ => kOtherOpcode end.

Definition instruction_shape (i : HloInstruction) : Shape :=
  match i with HloDot d => shape d | HloBitcast s _ => s | HloOther s => s end.

Record HloComputation : Type := {
  root_instruction : HloInstruction;
  parameter_instructions : list HloParameter
}.

Record GpuDeviceInfo : Type := { shared_memory_per_block_optin : Z }.

(** The Triton function built by [TritonWrapper]: argument types, the
    [tt.divisibility] attribute of each argument, and the entry block. *)
Record KernelProgram : Type := {
  fn_arg_types : list Ty;
  tt_divisibility : list Z;
  fn_body : list Operation
}.

(** The MLIR verifier, the Triton pass pipeline and the LLVM linker are
    external; running the pipeline gives the [triton_gpu.shared] attribute of
    the compiled module, and [link_modules] tells whether the compiled module
    is translated to LLVM IR, verified and linked into XLA's LLVM module
    (lines 942-951). *)
Record TritonPipeline : Type := {
  verify : KernelProgram -> bool;
  run_pipeline : KernelProgram -> Z -> Z -> option Z;
  link_modules : KernelProgram -> bool
}.

Definition LaunchDimensionsGenerator : Type :=
  HloDotInstruction -> list Ty -> TritonGemmKey -> Z -> Builder LaunchDimensions.

(** Lines 829-833.  The quotient is by [num_warps]: for num_warps = 0 the
    integer division of the code is a fault that terminates the process, and
    the value given here is 0. *)
Definition complexity_heuristic_value (config : TritonGemmKey) : Z :=
  cdiv (to_int64 (to_int64 (block_m config * block_n config)
                  + to_int64 (to_int64 (block_m config + block_n config) * block_k config)))
       (num_warps config).

Fixpoint parameter_types (ps : list HloParameter) : Outcome (list Ty) :=
  match ps with
  | [] => Ok []
  | p :: ps' =>
      OutcomeMonad.bind (TritonType (element_type (parameter_shape p))) (fun t =>
      OutcomeMonad.bind (parameter_types ps') (fun ts => Ok (PointerType t :: ts)))
  end.

(** The instruction lowered by [TritonWrapper]: the root of the computation,
    or its operand when the root is a bitcast. *)
Definition kernel_root (c : HloComputation) : HloInstruction :=
  match root_instruction c with
  | HloBitcast _ operand0 => operand0
  | r => r
  end.

Definition TritonWrapper (hlo_computation : HloComputation) (device_info : GpuDeviceInfo)
    (config : TritonGemmKey) (generator : LaunchDimensionsGenerator)
    (pipeline : TritonPipeline) : Builder (LaunchDimensions * KernelProgram) :=
  (* This is a heuristic that serves as a proxy for register usage and code
     size. *)
  if complexity_heuristic_value config >? kComplexityHeuristicLimit then
    lift (ResourceExhausted
            ("Tiling complexity heuristic exceeded: "
             ++ format_d (complexity_heuristic_value config) ++ " > "
             ++ format_d kComplexityHeuristicLimit))
  else
    match kernel_root hlo_computation with
    | HloDot dot =>
        (* Build Triton kernel. *)
        root_ty <- lift (TritonType (element_type
                           (instruction_shape (root_instruction hlo_computation)))) ;;
        param_tys <- lift (parameter_types (parameter_instructions hlo_computation)) ;;
        let fn_arg_types := (param_tys ++ [PointerType root_ty])%list in
        let divisibility := map (fun _ => 16) fn_arg_types in
        launch_dimensions <-
          generator dot fn_arg_types config (shared_memory_per_block_optin device_info) ;;
        emit ReturnOp ;;;
        (fun ops =>
           let program := {| fn_arg_types := fn_arg_types;
                             tt_divisibility := divisibility;
                             fn_body := ops |} in
           if verify pipeline program then
             (* Compile Triton kernel to LLVM. *)
             match run_pipeline pipeline program (num_warps config) (num_stages config) with
             | Some shared => 
                 (* Integrate LLVM matmul kernel into XLA's LLVM module. *)
                 let shared_mem_bytes := to_int shared in
                 if shared_mem_bytes >? shared_memory_per_block_optin device_info
                 then (ResourceExhausted "Shared memory size limit exceeded.", ops)
                 else if link_modules pipeline program
                 then (Ok (SetSharedMemBytes launch_dimensions shared_mem_bytes, program),
                       ops)
                 else (Abort "Check failed: !llvm::Linker::linkModules", ops)
             | None => (Abort "Check failed: mlir::succeeded(pm.run(triton_module))", ops)
             end
           else (Abort "Check failed: mlir::succeeded(mlir::verify(triton_module))", ops))
    | _ => lift (Abort "Check failed: root->opcode() == HloOpcode::kDot")
    end.

End Lowering.

(** ** Meaning of the integer operations of the tile program

    The index computations of the kernel are integer operations of the [arith]
    dialect and shape operations of Triton.  A value is evaluated for one
    program instance, at a position of its tensor (the empty position for a
    scalar).  A signed division or remainder by zero, or overflowing, has no
    value. *)

Record Instance : Type := {
  program_id : ProgramIDDim -> Z;
  block_argument : nat -> Z
}.

Definition int_width (t : Ty) : Z := getIntOrFloatBitWidth (getElementType t).

Fixpoint broadcast_index (idx src_shape : list Z) : list Z :=
  match idx, src_shape with
  | i :: idx', d :: s' => (if d =? 1 then 0 else i) :: broadcast_index idx' s'
  | _, _ => []
  end.

Fixpoint remove_nth {A : Type} (n : nat) (l : list A) : list A :=
  match n, l with
  | O, _ :: t => t
  | S n', x :: t => x :: remove_nth n' t
  | _, [] => []
  end.

Definition cmpi (p : CmpIPredicate) (x y : Z) : bool :=
  match p with
  | eq_ => x =? y
  | ne => negb (x =? y)
  | slt => x <? y
  | sle => x <=? y
  | sgt => x >? y
  | sge => x >=? y
  end.

Definition option_bind {A B : Type} (o : option A) (f : A -> option B) : option B :=
  match o with Some a => f a | None => None end.

Definition divsi (w x y : Z) : option Z :=
  if y =? 0 then None
  else if (x =? - 2 ^ (w - 1)) && (y =? -1) then None
  else Some (Z.quot x y).

Definition remsi (w x y : Z) : option Z :=
  if y =? 0 then None
  else if (x =? - 2 ^ (w - 1)) && (y =? -1) then None
  else Some (Z.rem x y).

Fixpoint eval_at (e : Instance) (v : Value) (idx : list Z) : option Z :=
  let w := int_width (getType v) in
  match v with
  | GetProgramIdOp axis => Some (program_id e axis)
  | BlockArgument n _ => Some (block_argument e n)
  | ConstantOp _ value => Some (wrap_signed w value)
  | ConstantIntOp value _ => Some (wrap_signed w value)
  | AddIOp a b =>
      option_bind (eval_at e a idx) (fun x =>
      option_bind (eval_at e b idx) (fun y => Some (wrap_signed w (x + y))))
  | SubIOp a b =>
      option_bind (eval_at e a idx) (fun x =>
      option_bind (eval_at e b idx) (fun y => Some (wrap_signed w (x - y))))
  | MulIOp a b =>
      option_bind (eval_at e a idx) (fun x =>
      option_bind (eval_at e b idx) (fun y => Some (wrap_signed w (x * y))))
  | DivSIOp a b =>
      option_bind (eval_at e a idx) (fun x =>
      option_bind (eval_at e b idx) (fun y => divsi w x y))
  | RemSIOp a b =>
      option_bind (eval_at e a idx) (fun x =>
      option_bind (eval_at e b idx) (fun y => remsi w x y))
  | AndIOp a b =>
      option_bind (eval_at e a idx) (fun x =>
      option_bind (eval_at e b idx) (fun y => Some (Z.land x y)))
  | CmpIOp p a b =>
      option_bind (eval_at e a idx) (fun x =>
      option_bind (eval_at e b idx) (fun y => Some (b2z (cmpi p x y))))
  | SelectOp c a b =>
      option_bind (eval_at e c idx) (fun t =>
      if t =? 0 then eval_at e b idx else eval_at e a idx)
  | ExtSIOp _ a => eval_at e a idx
  | SplatOp _ a => eval_at e a []
  | MakeRangeOp _ start end_ =>
      match idx with
      | [i] => if (0 <=? i) && (start + i <? end_) then Some (start + i) else None
      | _ => None
      end
  | BroadcastOp _ a => eval_at e a (broadcast_index idx (getShape (getType a)))
  | ExpandDimsOp a axis => eval_at e a (remove_nth (Z.to_nat axis) idx)
  | _ => None
  end.

Definition eval (e : Instance) (v : Value) : option Z := eval_at e v [].

(** ** Vocabulary for the output strides

    The role the loop over the output layout gives to a logical dimension, in
    the order of its tests, and the extent of the dimensions laid out before
    a position of the layout. *)

Inductive Axis : Type := AxisN | AxisM | AxisSplitK | AxisBatch.

Definition classify (info : OperandInfo) (logical_idx : Z) : option Axis :=
  if logical_idx =? rhs_nc_out_idx info then Some AxisN
  else if logical_idx =? lhs_nc_out_idx info then Some AxisM
  else if logical_idx =? split_k_out_idx info then Some AxisSplitK
  else if logical_idx =? batch_out_idx info then Some AxisBatch
  else None.

(** Whether the iteration on dimension [d] writes the stride of axis [a]: the
    iteration on the m dimension also writes the batch stride when the LHS
    non-contracting dimension is split. *)
Definition writes (info : OperandInfo) (a : Axis) (d : Z) : Prop :=
  classify info d = Some a
  \/ (a = AxisBatch /\ classify info d = Some AxisM /\ lhs_nc_split info = true).

Definition axis_stride (a : Axis) (s : OutStrides) : Z :=
  match a with
  | AxisN => stride_out_n s
  | AxisM => stride_out_m s
  | AxisSplitK => stride_out_split_k s
  | AxisBatch => stride_out_batch s
  end.

Definition dim_size_of (s : Shape) (logical_idx : Z) : Z :=
  nth (Z.to_nat logical_idx) (dimensions s) 0.

(** Product of the sizes of the dimensions [l]. *)
Definition extent_of (s : Shape) (l : list Z) : Z :=
  fold_right Z.mul 1 (map (dim_size_of s) l).

(** Product of the sizes of the output dimensions that are strictly more minor
    than position [i] of the layout. *)
Definition minor_extent (s : Shape) (i : nat) : Z :=
  extent_of s (firstn i (minor_to_major s)).

Definition IndexT_max (T : IndexT) : Z :=
  match T with int32_t => INT_MAX | int64_t => INT64_MAX end.

(** ** Vocabulary for the emitted operations *)




(** A builder that, when it succeeds, has appended operations satisfying [P]
    and returns a result satisfying [R]. *)
Definition emits {A : Type} (P : Operation -> Prop) (m : Builder A) (R : A -> Prop) : Prop :=
  forall ops a ops',
    m ops = (Ok a, ops') ->
    exists new, ops' = (ops ++ new)%list /\ Forall P new /\ R a.

(** A builder that never reports ResourceExhausted. *)
Definition quiet {A : Type} (m : Builder A) : Prop :=
  forall ops, is_ResourceExhausted (fst (m ops)) = false.

(** ** Concrete inputs

    Shapes, dots and tilings on which the definitions above are evaluated. *)

Module Examples.

Definition make_shape (t : PrimitiveType) (dims layout : list Z) : Shape :=
  {| element_type := t; dimensions := dims; minor_to_major := layout |}.

Definition make_dot (lhs rhs out : Shape) (lhs_c rhs_c : Z) (lhs_b rhs_b : list Z)
  : HloDotInstruction :=
  {| operand0 := lhs; operand1 := rhs; shape := out;
     dot_dimension_numbers :=
       {| lhs_contracting_dimensions := [lhs_c];
          rhs_contracting_dimensions := [rhs_c];
          lhs_batch_dimensions := lhs_b;
          rhs_batch_dimensions := rhs_b |} |}.

(** A fusion analysis for dense row-major operands that are the parameters of
    the fusion themselves: every dimension is iterated in one fragment. *)
Definition dense_analysis (d : HloDotInstruction) (split_k : Z) : DotFusionAnalysis :=
  {| OperandToParameter := fun i =>
       {| parameter_shape := operand d i; parameter_number := i |};
     IterSpec := fun o dim =>
       [ {| stride := fold_right Z.mul 1 (skipn (S (Z.to_nat dim)) (dimensions (operand d o)));
            count := nth (Z.to_nat dim) (dimensions (operand d o)) 0 |} ] |}.

Definition make_config (bm bk bn sk stages warps : Z) : TritonGemmKey :=
  {| block_m := bm; block_k := bk; block_n := bn; split_k := sk;
     num_stages := stages; num_warps := warps |}.

(** f16[100,70] x f16[70,50] -> f16[100,50]. *)
Definition dot_100x70x50 : HloDotInstruction :=
  make_dot (make_shape F16 [100; 70] [1; 0]) (make_shape F16 [70; 50] [1; 0])
           (make_shape F16 [100; 50] [1; 0]) 1 0 [] [].

Definition fn_f16 : list Ty := [PointerType F16Type; PointerType F16Type; PointerType F16Type].

Definition config_32 : TritonGemmKey := make_config 32 32 32 1 1 4.

(** The tiling of the rejection example. *)
Definition config_256_256_64 : TritonGemmKey := make_config 256 64 256 1 1 4.

Definition computation_100x70x50 : HloComputation :=
  {| root_instruction := HloDot dot_100x70x50;
     parameter_instructions :=
       [ {| parameter_shape := operand0 dot_100x70x50; parameter_number := 0 |};
         {| parameter_shape := operand1 dot_100x70x50; parameter_number := 1 |} ] |}.

Definition device_96k : GpuDeviceInfo := {| shared_memory_per_block_optin := 98304 |}.

(** A pipeline that accepts and links every module and reports a fixed
    footprint. *)
Definition pipeline_reporting (shared : Z) : TritonPipeline :=
  {| verify := fun _ => true; run_pipeline := fun _ _ _ => Some shared;
     link_modules := fun _ => true |}.

(** Batched dots [B,M,K] x [B,K,N] -> [B,M,N], row-major. *)
Definition batched_dot (t : PrimitiveType) (B M K N : Z) : HloDotInstruction :=
  make_dot (make_shape t [B; M; K] [2; 1; 0]) (make_shape t [B; K; N] [2; 1; 0])
           (make_shape t [B; M; N] [2; 1; 0]) 2 1 [0] [0].

Definition config_16 : TritonGemmKey := make_config 16 16 16 1 1 4.

(** grid_m = 5, grid_n = 3, batch_size = 70000. *)
Definition dot_batch_70000 : HloDotInstruction := batched_dot F16 70000 80 16 48.

(** grid_m = 5, grid_n = 1, batch_size = 10. *)
Definition dot_batch_10 : HloDotInstruction := batched_dot F16 10 80 16 16.

(** grid_m = grid_n = 256, batch_size = 65536. *)
Definition dot_batch_65536 : HloDotInstruction := batched_dot F16 65536 4096 16 4096.



(** The tiling of [dot_100x70x50] under [config_32], the program ids of a
    small batch, and the program instance 7 of the first grid axis. *)
Definition tile_4x2 : Tiling :=
  {| t_block_m := 32; t_block_k := 32; t_block_n := 32;
     grid_m := 4; grid_n := 2; width := 16 |}.

Definition ids_small_batch : ProgramIds :=
  {| pid_batch := GetProgramIdOp ProgramIDDim_Y;
     pid_nc := GetProgramIdOp ProgramIDDim_X;
     pid_k := GetProgramIdOp ProgramIDDim_Z |}.

Definition instance_7 : Instance :=
  {| program_id := fun axis =>
       match axis with ProgramIDDim_X => 7 | _ => 0 end;
     block_argument := fun _ => 0 |}.

(** A dot whose output has a leading dimension that no operand accounts for. *)
Definition dot_extra_output_dim : HloDotInstruction :=
  make_dot (make_shape F16 [100; 70] [1; 0]) (make_shape F16 [70; 50] [1; 0])
           (make_shape F16 [4; 100; 50] [2; 1; 0]) 1 0 [] [].


End Examples.

(** ** Vocabulary for the conversions, the tiles and the addresses *)

(** The element types a tile can have: the scalar float and integer types. *)
Definition is_scalar_type (t : Ty) : bool := isFloatType t || isIntegerType t.

(** A well-formed conversion: [truncf] goes to a strictly narrower float type,
    [extf] to a strictly wider one, [sitofp] from integers to floats,
    [fptosi] from floats to integers, each keeping the shape. *)
Definition is_valid_conversion (o : Operation) : bool :=
  match o with
  | Def (TruncFOp ty v) =>
      shape_eqb (getShape ty) (getShape (getType v))
      && isFloatType (getElementType (getType v)) && isFloatType (getElementType ty)
      && (getIntOrFloatBitWidth (getElementType ty)
          <? getIntOrFloatBitWidth (getElementType (getType v)))
  | Def (ExtFOp ty v) =>
      shape_eqb (getShape ty) (getShape (getType v))
      && isFloatType (getElementType (getType v)) && isFloatType (getElementType ty)
      && (getIntOrFloatBitWidth (getElementType (getType v))
          <? getIntOrFloatBitWidth (getElementType ty))
  | Def (SIToFPOp ty v) =>
      shape_eqb (getShape ty) (getShape (getType v))
      && isIntegerType (getElementType (getType v)) && isFloatType (getElementType ty)
  | Def (FPToSIOp ty v) =>
      shape_eqb (getShape ty) (getShape (getType v))
      && isFloatType (getElementType (getType v)) && isIntegerType (getElementType ty)
  | _ => false
  end.

(** The tile coordinates that the emitted decoding gives to the program id
    [pid] on a grid of [gm] x [gn] tiles. *)
Definition tile_group_size (gm gn pid : Z) : Z := Z.min (gm - 8 * (pid / (8 * gn))) 8.

Definition tile_m (gm gn pid : Z) : Z :=
  8 * (pid / (8 * gn)) + pid mod tile_group_size gm gn pid.

Definition tile_n (gm gn pid : Z) : Z := pid mod (8 * gn) / tile_group_size gm gn pid.

(** Result of [convert_scalar] and of [convert_range]. *)
Definition extended_scalar (T : IndexT) (v : Value) : Value :=
  match T with
  | int64_t => ExtSIOp (int_ty T) v
  | int32_t => v
  end.

Definition extended_range (T : IndexT) (v : Value) : Value :=
  match T with
  | int64_t => ExtSIOp (RankedTensorType (getShape (getType v)) (int_ty T)) v
  | int32_t => v
  end.

(** The values created by [build_splat], [build_bcast] and [build_addptr]. *)
Definition splat_of (value : Value) (shape : list Z) : Value :=
  SplatOp (RankedTensorType shape (getType value)) value.

Definition bcast_of (value : Value) (shape : list Z) : Value :=
  BroadcastOp (RankedTensorType shape (getElementType (getType value))) value.

Definition addptr_of (ptr offset : Value) : Value := AddPtrOp (getType ptr) ptr offset.

(** The tile of pointers and the mask of the store of the output tile
    (lines 743-774). *)
Definition store_pointers (T : IndexT) (strides : OutStrides) (tile : Tiling)
    (out : Value) (ids : ProgramIds) (sw : Swizzle) : Value :=
  let out_offset_batch :=
    MulIOp (extended_scalar T (pid_batch ids))
           (ConstantOp (int_ty T) (stride_out_batch strides)) in
  let out_offset_split_k :=
    MulIOp (extended_scalar T (pid_k ids))
           (ConstantOp (int_ty T) (stride_out_split_k strides)) in
  let out_offset_m :=
    MulIOp (ExpandDimsOp (extended_range T (range_m sw)) 1)
           (ConstantOp (RankedTensorType (shape_m_1 tile) (int_ty T))
                       (stride_out_m strides)) in
  let out_ptrs_m :=
    addptr_of (splat_of (addptr_of (addptr_of out out_offset_batch) out_offset_split_k)
                        (shape_m_1 tile))
              out_offset_m in
  let out_offset_n :=
    MulIOp (ExpandDimsOp (extended_range T (range_n sw)) 0)
           (ConstantOp (RankedTensorType (shape_1_n tile) (int_ty T))
                       (stride_out_n strides)) in
  addptr_of (bcast_of out_ptrs_m (shape_m_n tile)) (bcast_of out_offset_n (shape_m_n tile)).

Definition store_mask (info : OperandInfo) (tile : Tiling) (sw : Swizzle) : Value :=
  let rm_cmp :=
    CmpIOp slt (ExpandDimsOp (range_m sw) 1)
           (ConstantOp (RankedTensorType (shape_m_1 tile) I32Type) (m_minor info)) in
  let rn_cmp :=
    CmpIOp slt (ExpandDimsOp (range_n sw) 0)
           (ConstantOp (RankedTensorType (shape_1_n tile) I32Type) (n info)) in
  AndIOp (bcast_of rm_cmp (shape_m_n tile)) (bcast_of rn_cmp (shape_m_n tile)).

(** The offsets of the elements of the first LHS tile and of the first RHS
    tile from the start of the operand of the batch (lines 629-644 and
    650-665). *)
Definition lhs_tile_offset (T : IndexT) (info : OperandInfo) (tile : Tiling)
    (sw : Swizzle) : Value :=
  let range_lhs_m :=
    extended_range T
      (RemSIOp (range_m sw)
               (ConstantOp (RankedTensorType [t_block_m tile] I32Type) (m_minor info))) in
  let lhs_offset_m :=
    MulIOp (ExpandDimsOp range_lhs_m 1)
           (ConstantOp (RankedTensorType (shape_m_1 tile) (int_ty T)) (stride_lhs_m info)) in
  let lhs_offset_k :=
    MulIOp (ExpandDimsOp (extended_range T (range_k sw)) 0)
           (ConstantOp (RankedTensorType (shape_1_k tile) (int_ty T)) (stride_lhs_k info)) in
  AddIOp (bcast_of lhs_offset_m (shape_m_k tile)) (bcast_of lhs_offset_k (shape_m_k tile)).

Definition rhs_tile_offset (T : IndexT) (info : OperandInfo) (tile : Tiling)
    (sw : Swizzle) : Value :=
  let rhs_off_k :=
    MulIOp (ExpandDimsOp (extended_range T (range_k sw)) 1)
           (ConstantOp (RankedTensorType (shape_k_1 tile) (int_ty T)) (stride_rhs_k info)) in
  let range_rhs_n :=
    extended_range T
      (RemSIOp (range_n sw)
               (ConstantOp (RankedTensorType [t_block_n tile] I32Type) (n info))) in
  let rhs_offset_n :=
    MulIOp (ExpandDimsOp range_rhs_n 0)
           (ConstantOp (RankedTensorType (shape_1_n tile) (int_ty T)) (stride_rhs_n info)) in
  AddIOp (bcast_of rhs_off_k (shape_k_n tile)) (bcast_of rhs_offset_n (shape_k_n tile)).

(** The offset of the operand of the batch of the program instance. *)
Definition batch_offset (T : IndexT) (ids : ProgramIds) (stride_batch : Z) : Value :=
  MulIOp (extended_scalar T (pid_batch ids)) (ConstantOp (int_ty T) stride_batch).




(** ** Builders that succeed *)

(** A builder that succeeds from every block, with a result satisfying [R]. *)
Definition succeeds {A : Type} (m : Builder A) (R : A -> Prop) : Prop :=
  forall ops, exists a ops', m ops = (Ok a, ops') /\ R a.

(** ** The kernel signature pass (lines 241-318)

    The pass runs on the module lowered to the LLVM dialect.  A function of
    that dialect is modelled by what the pass reads and writes: its attributes,
    the registered ones being those that the builder of [LLVMFuncOp] sets from
    its arguments, its type, and its body as a function of the values that
    stand for the arguments of its entry block, so that merging a block into
    another with replacement values is an application.  The functions modelled
    are those with argument attributes and a body, both of which
    [StripParameterAddressSpaces] reads without a test. *)

Inductive LLVMType : Type :=
| LLVMPointerType (elementType : LLVMType) (addressSpace : Z)
| LLVMOtherType (name : string).

(** [mn::kGlobalMemorySpace] (NVVM dialect). *)
Definition kGlobalMemorySpace : Z := 1.

Fixpoint LLVMType_eqb (a b : LLVMType) : bool :=
  match a, b with
  | LLVMPointerType e s, LLVMPointerType e' s' => LLVMType_eqb e e' && (s =? s')
  | LLVMOtherType n, LLVMOtherType n' => String.eqb n n'
  | _, _ => false
  end.

Inductive Attribute : Type :=
| UnitAttr
| StringAttr (value : string)
| IntegerAttr (value : Z)
| TypeAttr (params results : list LLVMType)
| ArrayAttr (elements : list Attribute)
| DictionaryAttr (entries : list (string * Attribute)).

Definition NamedAttribute : Type := (string * Attribute)%type.

Inductive LLVMValue : Type :=
| LLVMBlockArgument (index : nat) (type : LLVMType)
| AddrSpaceCastOp (type : LLVMType) (arg : LLVMValue).

Definition LLVMValue_type (v : LLVMValue) : LLVMType :=
  match v with
  | LLVMBlockArgument _ type => type
  | AddrSpaceCastOp type _ => type
  end.

Inductive LLVMOperation : Type :=
| LLVMDef (v : LLVMValue)
| LLVMOtherOp (name : string) (operands : list LLVMValue).

Record LLVMFuncOp : Type := {
  SymName : string;
  FunctionType_params : list LLVMType;
  FunctionType_results : list LLVMType;
  Linkage : Z;
  DsoLocal : bool;
  CConv : Z;
  ArgAttrs : list Attribute;
  FunctionEntryCount : option Z;
  (** the attributes that are not passed to the builder directly *)
  ExtraAttrs : list NamedAttribute;
  (** the entry block and the blocks after it, for given arguments of the
      entry block *)
  Body : list LLVMValue -> list LLVMOperation * list (list LLVMOperation)
}.

(** The names of the attributes of [LLVMFuncOp] that its accessors give, and
    the name of the attribute that marks a kernel. *)
Record AttrNames : Type := {
  SymNameAttrName : string;
  FunctionTypeAttrName : string;
  LinkageAttrName : string;
  DsoLocalAttrName : string;
  CConvAttrName : string;
  ArgAttrsAttrName : string;
  FunctionEntryCountAttrName : string;
  KernelFuncAttrName : string
}.

(** [llvm::StringSet<>::contains]. *)
Definition contains (set : list string) (name : string) : bool :=
  existsb (String.eqb name) set.

Section KernelSignature.

Variable names : AttrNames.

(** [func->getAttrs()]: the attributes of the operation, registered ones
    included. *)
Definition getAttrs (func : LLVMFuncOp) : list NamedAttribute :=
  ([ (SymNameAttrName names, StringAttr (SymName func));
     (FunctionTypeAttrName names,
      TypeAttr (FunctionType_params func) (FunctionType_results func));
     (LinkageAttrName names, IntegerAttr (Linkage func));
     (CConvAttrName names, IntegerAttr (CConv func)) ]
   ++ (if DsoLocal func then [(DsoLocalAttrName names, UnitAttr)] else [])
   ++ match FunctionEntryCount func with
      | Some c => [(FunctionEntryCountAttrName names, IntegerAttr c)]
      | None => []
      end
   ++ [ (ArgAttrsAttrName names, ArrayAttr (ArgAttrs func)) ]
   ++ ExtraAttrs func)%list.

Definition hasAttr (func : LLVMFuncOp) (name : string) : bool :=
  existsb (fun attr => String.eqb (fst attr) name) (getAttrs func).

Definition registered_attr_names : list string :=
  [ SymNameAttrName names; FunctionTypeAttrName names; LinkageAttrName names;
    DsoLocalAttrName names; CConvAttrName names; ArgAttrsAttrName names;
    FunctionEntryCountAttrName names ].

(** Extract additional attributes from an LLVM function that are not passed
    to the builder directly. *)
Definition GetExtraAttrs (func : LLVMFuncOp) : list NamedAttribute :=
  filter (fun attr => negb (contains registered_attr_names (fst attr)))
         (getAttrs func).

(** The type of a parameter in the new signature. *)
Definition generic_param (type : LLVMType) : LLVMType :=
  match type with
  | LLVMPointerType elementType addressSpace =>
      if negb (addressSpace =? kGlobalMemorySpace) then type
      else LLVMPointerType elementType 0
  | _ => type
  end.

(** The value given to the body for an argument of the new function:
    convert generic address spaces back to original ones within the function
    body. *)
Definition converted_arg (arg : LLVMValue) (type : LLVMType) : LLVMValue :=
  if negb (LLVMType_eqb (LLVMValue_type arg) type) then AddrSpaceCastOp type arg
  else arg.

Definition converted_args (args : list LLVMValue) (params : list LLVMType)
  : list LLVMValue :=
  map (fun '(arg, type) => converted_arg arg type) (combine args params).

(** The casts created in the entry block of the new function. *)
Definition created_casts (args : list LLVMValue) (params : list LLVMType)
  : list LLVMOperation :=
  flat_map (fun '(arg, type) =>
              if negb (LLVMType_eqb (LLVMValue_type arg) type)
              then [LLVMDef (AddrSpaceCastOp type arg)] else [])
           (combine args params).

(** Strip address spaces from function parameters. *)
Definition StripParameterAddressSpaces (func : LLVMFuncOp) : LLVMFuncOp :=
  (* Figure out what the new signature should be. *)
  let generic_func_params := map generic_param (FunctionType_params func) in
  (* Create a function with the new signature. *)
  {| SymName := SymName func;
     FunctionType_params := generic_func_params;
     FunctionType_results := FunctionType_results func;
     Linkage := Linkage func;
     DsoLocal := DsoLocal func;
     CConv := CConv func;
     ArgAttrs := ArgAttrs func;
     FunctionEntryCount := FunctionEntryCount func;
     ExtraAttrs := GetExtraAttrs func;
     Body := fun args =>
       let casts := created_casts args (FunctionType_params func) in
       (* Move the rest of function body from the original function. *)
       let '(entry, blocks) :=
         Body func (converted_args args (FunctionType_params func)) in
       ((casts ++ entry)%list, blocks) |}.

(** The arguments of the entry block of a function. *)
Definition getArguments (func : LLVMFuncOp) : list LLVMValue :=
  map (fun '(i, type) => LLVMBlockArgument i type)
      (combine (seq 0 (List.length (FunctionType_params func))) (FunctionType_params func)).

(** Rewrite signatures of kernel functions to use generic data pointers and
    cast them to global ones within the kernel. *)
Definition runOnOperation (module : list LLVMFuncOp) : list LLVMFuncOp :=
  map (fun func =>
         if negb (hasAttr func (KernelFuncAttrName names)) then func
         else StripParameterAddressSpaces func)
      module.

End KernelSignature.

(** ** More concrete inputs *)

Module MoreExamples.
Import Examples.

(** A dot with two contracting dimensions on the LHS. *)
Definition dot_two_contracting : HloDotInstruction :=
  {| operand0 := make_shape F16 [100; 7; 10] [2; 1; 0];
     operand1 := make_shape F16 [70; 50] [1; 0];
     shape := make_shape F16 [100; 50] [1; 0];
     dot_dimension_numbers :=
       {| lhs_contracting_dimensions := [1; 2];
          rhs_contracting_dimensions := [0];
          lhs_batch_dimensions := [];
          rhs_batch_dimensions := [] |} |}.

(** A tile of 8 rows. *)
Definition config_8 : TritonGemmKey := make_config 8 32 32 1 1 4.

(** A split-K dot: f16[64,2,32] x f16[2,32,48] -> f16[2,64,48], the dimension
    of size 2 being the split-K one. *)
Definition dot_split_k : HloDotInstruction :=
  make_dot (make_shape F16 [64; 2; 32] [2; 1; 0]) (make_shape F16 [2; 32; 48] [2; 1; 0])
           (make_shape F16 [2; 64; 48] [2; 1; 0]) 2 1 [1] [0].

Definition config_split_2 : TritonGemmKey := make_config 16 16 16 2 1 4.

(** f16[16,2^31] x f16[2^31,16] -> f16[16,16]: a contracting dimension of 2^31
    elements. *)
Definition dot_k_2e31 : HloDotInstruction :=
  make_dot (make_shape F16 [16; 2147483648] [1; 0]) (make_shape F16 [2147483648; 16] [1; 0])
           (make_shape F16 [16; 16] [1; 0]) 1 0 [] [].

End MoreExamples.

(** A module of the LLVM dialect: a kernel and a function that is not one. *)

Module SignatureExamples.

Definition nvvm_names : AttrNames :=
  {| SymNameAttrName := "sym_name";
     FunctionTypeAttrName := "function_type";
     LinkageAttrName := "linkage";
     DsoLocalAttrName := "dso_local";
     CConvAttrName := "CConv";
     ArgAttrsAttrName := "arg_attrs";
     FunctionEntryCountAttrName := "function_entry_count";
     KernelFuncAttrName := "nvvm.kernel" |}.

Definition f16 : LLVMType := LLVMOtherType "f16".

Definition void : LLVMType := LLVMOtherType "void".

(** A kernel with a global pointer, a shared-memory pointer and an integer. *)
Definition kernel_example : LLVMFuncOp :=
  {| SymName := "gemm_fusion";
     FunctionType_params :=
       [LLVMPointerType f16 1; LLVMPointerType f16 3; LLVMOtherType "i32"];
     FunctionType_results := [void];
     Linkage := 0;
     DsoLocal := false;
     CConv := 0;
     ArgAttrs := [DictionaryAttr []; DictionaryAttr []; DictionaryAttr []];
     FunctionEntryCount := None;
     ExtraAttrs := [("nvvm.kernel", IntegerAttr 1); ("nvvm.maxntid", IntegerAttr 128)];
     Body := fun args => ([LLVMOtherOp "llvm.store" args; LLVMOtherOp "llvm.return" []],
                          []) |}.

(** A function that is not a kernel. *)
Definition helper_example : LLVMFuncOp :=
  {| SymName := "helper";
     FunctionType_params := [LLVMPointerType f16 1];
     FunctionType_results := [void];
     Linkage := 0;
     DsoLocal := false;
     CConv := 0;
     ArgAttrs := [DictionaryAttr []];
     FunctionEntryCount := None;
     ExtraAttrs := [];
     Body := fun args => ([LLVMOtherOp "llvm.return" []], []) |}.

End SignatureExamples.

(** * Properties *)

(** ** Machine integers *)

Lemma wrap_signed_small (w z : Z) :
  0 < w -> - 2 ^ (w - 1) <= z < 2 ^ (w - 1) -> wrap_signed w z = z.
Proof.
  intros Hw Hz. unfold wrap_signed.
  assert (E : 2 ^ w = 2 * 2 ^ (w - 1)).
  { replace w with (Z.succ (w - 1)) at 1 by lia. apply Z.pow_succ_r. lia. }
  rewrite Z.mod_small; lia.
Qed.

Lemma wrap_signed_range (w z : Z) :
  0 < w -> - 2 ^ (w - 1) <= wrap_signed w z < 2 ^ (w - 1).
Proof.
  intros Hw. unfold wrap_signed.
  assert (E : 2 ^ w = 2 * 2 ^ (w - 1)).
  { replace w with (Z.succ (w - 1)) at 1 by lia. apply Z.pow_succ_r. lia. }
  assert (P : 0 < 2 ^ (w - 1)) by (apply Z.pow_pos_nonneg; lia).
  pose proof (Z.mod_pos_bound (z + 2 ^ (w - 1)) (2 ^ w)). lia.
Qed.

Lemma to_int_id (z : Z) : in_int z -> to_int z = z.
Proof.
  unfold in_int, INT_MAX, to_int. intros H. apply wrap_signed_small; [lia|].
  change (2 ^ (32 - 1)) with 2147483648. change (2 ^ 31) with 2147483648 in H. lia.
Qed.

Lemma to_int64_id (z : Z) : in_int64 z -> to_int64 z = z.
Proof.
  unfold in_int64, INT64_MAX, to_int64. intros H. apply wrap_signed_small; [lia|].
  change (2 ^ (64 - 1)) with 9223372036854775808.
  change (2 ^ 63) with 9223372036854775808 in H. lia.
Qed.

Lemma to_int_range (z : Z) : in_int (to_int z).
Proof.
  unfold in_int, INT_MAX, to_int.
  pose proof (wrap_signed_range 32 z ltac:(lia)) as H.
  change (2 ^ (32 - 1)) with 2147483648 in H. change (2 ^ 31) with 2147483648. lia.
Qed.


Lemma to_unsigned_id (z : Z) : 0 <= z < 2 ^ 32 -> to_unsigned z = z.
Proof. intros H. unfold to_unsigned. apply Z.mod_small. exact H. Qed.


Lemma cdiv_nonneg (a b : Z) : 0 <= a -> 0 < b -> cdiv a b = a / b.
Proof. intros Ha Hb. unfold cdiv. apply Z.quot_div_nonneg; lia. Qed.

(** ** The builder *)

Lemma bind_Ok {A B : Type} (m : Builder A) (f : A -> Builder B) ops b ops' :
  BuilderMonad.bind m f ops = (Ok b, ops') ->
  exists a ops1, m ops = (Ok a, ops1) /\ f a ops1 = (Ok b, ops').
Proof.
  unfold BuilderMonad.bind. destruct (m ops) as [[a | msg | msg] ops1]; intros H.
  - exists a, ops1. split; [reflexivity | exact H].
  - discriminate.
  - discriminate.
Qed.

Lemma bind_ResourceExhausted {A B : Type} (m : Builder A) (f : A -> Builder B) ops msg ops' :
  BuilderMonad.bind m f ops = (ResourceExhausted msg, ops') ->
  m ops = (ResourceExhausted msg, ops')
  \/ exists a ops1, m ops = (Ok a, ops1) /\ f a ops1 = (ResourceExhausted msg, ops').
Proof.
  unfold BuilderMonad.bind. destruct (m ops) as [[a | msg' | msg'] ops1]; intros H.
  - right. exists a, ops1. split; [reflexivity | exact H].
  - left. inversion H. reflexivity.
  - discriminate.
Qed.

Lemma lift_Ok {A : Type} (o : Outcome A) ops a ops' :
  BuilderMonad.lift o ops = (Ok a, ops') -> o = Ok a /\ ops' = ops.
Proof. unfold BuilderMonad.lift. intros H. inversion H. split; reflexivity. Qed.

Lemma outcome_bind_Ok {A B : Type} (m : Outcome A) (f : A -> Outcome B) b :
  OutcomeMonad.bind m f = Ok b -> exists a, m = Ok a /\ f a = Ok b.
Proof.
  destruct m as [a | msg | msg]; simpl; intros H; try discriminate.
  exists a. split; [reflexivity | exact H].
Qed.

Ltac bind_step H a E :=
  let ops1 := fresh "ops" in
  apply bind_Ok in H; destruct H as (a & ops1 & E & H).

Ltac bind_step_at H a ops1 E :=
  apply bind_Ok in H; destruct H as (a & ops1 & E & H).

Ltac bind_inv H :=
  repeat (let a := fresh "a" in let ops1 := fresh "ops" in let E := fresh "E" in
          apply bind_Ok in H; destruct H as (a & ops1 & E & H)).

(** ** The complexity heuristic of [TritonWrapper] *)

Section Complexity.

Lemma complexity_heuristic_exact (config : TritonGemmKey) :
  0 <= block_m config -> 0 <= block_n config -> 0 < block_k config ->
  0 < num_warps config ->
  block_m config * block_n config
    + (block_m config + block_n config) * block_k config <= INT64_MAX ->
  complexity_heuristic_value config
  = (block_m config * block_n config
     + (block_m config + block_n config) * block_k config) / num_warps config.
Proof.
  intros Hm Hn Hk Hw Hfit. unfold complexity_heuristic_value.
  unfold INT64_MAX in Hfit.
  assert (P1 : 0 <= block_m config * block_n config) by nia.
  assert (P2 : 0 <= (block_m config + block_n config) * block_k config) by nia.
  assert (R : forall z, 0 <= z <= INT64_MAX -> to_int64 z = z).
  { intros z Hz. apply to_int64_id. unfold in_int64. split; [|lia].
    change (2 ^ 63) with 9223372036854775808. lia. }
  unfold INT64_MAX in R.
  rewrite (R (block_m config * block_n config)) by lia.
  rewrite (R (block_m config + block_n config)) by nia.
  rewrite (R ((block_m config + block_n config) * block_k config)) by lia.
  rewrite R by lia.
  apply cdiv_nonneg; lia.
Qed.

(** C7 (as amended).  Every tiling whose heuristic value
    (block_m*block_n + (block_m+block_n)*block_k) / num_warps exceeds 9000 is
    rejected by [TritonWrapper] with a ResourceExhausted result, the block
    under construction being left exactly as it was (no operation has been
    created and no program is returned).  For block_m = block_n = 256,
    block_k = 64 and num_warps = 4 the heuristic value is 24576. *)
Theorem C7_complexity_rejected :
  (forall hlo_computation device_info config generator pipeline ops,
      0 <= block_m config -> 0 <= block_n config -> 0 < block_k config ->
      0 < num_warps config ->
      block_m config * block_n config
        + (block_m config + block_n config) * block_k config <= INT64_MAX ->
      (block_m config * block_n config
        + (block_m config + block_n config) * block_k config) / num_warps config
        > kComplexityHeuristicLimit ->
      TritonWrapper hlo_computation device_info config generator pipeline ops
      = (ResourceExhausted
           ("Tiling complexity heuristic exceeded: "
            ++ format_d ((block_m config * block_n config
                          + (block_m config + block_n config) * block_k config)
                         / num_warps config)
            ++ " > " ++ format_d kComplexityHeuristicLimit), ops))
  /\ complexity_heuristic_value Examples.config_256_256_64 = 24576
  /\ 24576 > kComplexityHeuristicLimit.
Proof.
  split; [| split; reflexivity].
  intros hlo dev config gen pipe ops Hm Hn Hk Hw Hfit Hgt.
  unfold TritonWrapper.
  rewrite (complexity_heuristic_exact config Hm Hn Hk Hw Hfit).
  destruct (Z.gtb_spec
              ((block_m config * block_n config
                + (block_m config + block_n config) * block_k config)
               / num_warps config) kComplexityHeuristicLimit) as [G | G].
  - reflexivity.
  - lia.
Qed.

Lemma C7_complexity_rejected_witness :
  TritonWrapper Examples.computation_100x70x50 Examples.device_96k
                Examples.config_256_256_64
                (fun _ _ _ _ => BuilderMonad.lift (Abort "unused"))
                (Examples.pipeline_reporting 0) []
  = (ResourceExhausted "Tiling complexity heuristic exceeded: 24576 > 9000", []).
Proof.
  exact (proj1 C7_complexity_rejected Examples.computation_100x70x50 Examples.device_96k
               Examples.config_256_256_64
               (fun _ _ _ _ => BuilderMonad.lift (Abort "unused"))
               (Examples.pipeline_reporting 0) []
               ltac:(vm_compute; discriminate) ltac:(vm_compute; discriminate)
               ltac:(reflexivity) ltac:(reflexivity)
               ltac:(vm_compute; discriminate) ltac:(reflexivity)).
Defined.

(** C7 as stated gives 24832 for the heuristic value of the example tiling;
    the code computes another value. *)
Lemma C7_counterexample :
  complexity_heuristic_value Examples.config_256_256_64 <> 24832.
Proof. vm_compute. discriminate. Qed.

End Complexity.

(** ** Types of the dot inputs and of the accumulator *)

Section AccumulationPolicy.

Lemma dot_ty_choices (lhs_ty rhs_ty : Ty) :
  dot_ty lhs_ty rhs_ty = F32Type
  \/ dot_ty lhs_ty rhs_ty = BF16Type
  \/ dot_ty lhs_ty rhs_ty = F16Type.
Proof.
  unfold dot_ty.
  destruct (isF32 lhs_ty || isF32 rhs_ty); [now left|].
  destruct (isBF16 lhs_ty || isBF16 rhs_ty); [now (right; left)|].
  destruct (isF16 lhs_ty || isF16 rhs_ty); [now (right; right) | now left].
Qed.

Lemma dot_ty_not_F64 (lhs_ty rhs_ty : Ty) : isF64 (dot_ty lhs_ty rhs_ty) = false.
Proof.
  destruct (dot_ty_choices lhs_ty rhs_ty) as [E | [E | E]]; rewrite E; reflexivity.
Qed.


(** C2 (as amended).  The type to which both loaded tiles are cast is fixed
    by the operand types alone: f32 as soon as one operand is f32, otherwise
    bf16 as soon as one operand is bf16, otherwise f16 as soon as one operand
    is f16, otherwise f32; so two 16-bit float operands are multiplied in a
    16-bit float format, and an operand pair without 16- or 32-bit floats in
    f32.  Unless both operands and the output are f64, the accumulator is
    f32 whatever the output type: narrow operands accumulate at the
    intermediate width with a narrow output as with a wide one. *)
Theorem C2_accumulation_policy (lhs_ty rhs_ty root_ty : Ty) :
  (isF32 lhs_ty || isF32 rhs_ty = true -> dot_ty lhs_ty rhs_ty = F32Type)
  /\ (isF32 lhs_ty || isF32 rhs_ty = false -> isBF16 lhs_ty || isBF16 rhs_ty = true ->
      dot_ty lhs_ty rhs_ty = BF16Type)
  /\ (isF32 lhs_ty || isF32 rhs_ty = false -> isBF16 lhs_ty || isBF16 rhs_ty = false ->
      isF16 lhs_ty || isF16 rhs_ty = true -> dot_ty lhs_ty rhs_ty = F16Type)
  /\ (is_narrow_float lhs_ty || is_narrow_float rhs_ty || isF32 lhs_ty || isF32 rhs_ty
      = false -> dot_ty lhs_ty rhs_ty = F32Type)
  /\ (is_narrow_float lhs_ty = true -> is_narrow_float rhs_ty = true ->
      is_narrow_float (dot_ty lhs_ty rhs_ty) = true
      /\ acc_ty root_ty (dot_ty lhs_ty rhs_ty) = F32Type)
  /\ (~ (lhs_ty = F64Type /\ rhs_ty = F64Type /\ root_ty = F64Type) ->
      acc_ty root_ty (dot_ty lhs_ty rhs_ty) = F32Type).
Proof.
  assert (A : acc_ty root_ty (dot_ty lhs_ty rhs_ty) = F32Type).
  { unfold acc_ty. rewrite dot_ty_not_F64, andb_false_r. reflexivity. }
  split; [| split; [| split; [| split; [| split]]]].
  - unfold dot_ty. intros ->. reflexivity.
  - unfold dot_ty. intros -> ->. reflexivity.
  - unfold dot_ty. intros -> -> ->. reflexivity.
  - unfold dot_ty, is_narrow_float.
    destruct lhs_ty, rhs_ty; simpl; intros; try discriminate; reflexivity.
  - intros Hl Hr. split; [| exact A]. unfold dot_ty, is_narrow_float in *.
    destruct lhs_ty, rhs_ty; simpl in *; try discriminate; reflexivity.
  - intros _. exact A.
Qed.

Lemma C2_accumulation_policy_witness :
  dot_ty BF16Type F16Type = BF16Type
  /\ dot_ty F16Type F16Type = F16Type
  /\ acc_ty F16Type (dot_ty F16Type F16Type) = F32Type
  /\ acc_ty F64Type (dot_ty F16Type F16Type) = F32Type.
Proof.
  pose proof (C2_accumulation_policy BF16Type F16Type F16Type) as (_ & B & _).
  pose proof (C2_accumulation_policy F16Type F16Type F16Type) as (_ & _ & C & _ & D & _).
  pose proof (C2_accumulation_policy F16Type F16Type F64Type) as (_ & _ & _ & _ & _ & E).
  split; [| split; [| split]].
  - apply B; reflexivity.
  - apply C; reflexivity.
  - apply (proj2 (D eq_refl eq_refl)).
  - apply E. intros (F & _). discriminate F.
Defined.

(** C2 as stated has narrow operands with a narrow output accumulate in the
    narrow category, and leaves the cast type at f32 unless both operands are
    narrow.  For f16 x f16 -> f16 the accumulator is f32, and for bf16 x s8
    the tiles are cast to bf16. *)
Lemma C2_counterexample :
  is_narrow_float (acc_ty F16Type (dot_ty F16Type F16Type)) <> true
  /\ dot_ty BF16Type I8Type <> F32Type.
Proof. split; vm_compute; discriminate. Qed.

End AccumulationPolicy.

(** ** Which steps can report ResourceExhausted *)

Section NeverResourceExhausted.

Lemma not_RE_bind {A B : Type} (m : Outcome A) (f : A -> Outcome B) :
  is_ResourceExhausted m = false ->
  (forall a, is_ResourceExhausted (f a) = false) ->
  is_ResourceExhausted (OutcomeMonad.bind m f) = false.
Proof. destruct m; simpl; intros Hm Hf; [apply Hf | discriminate | reflexivity]. Qed.

Lemma not_RE_CHECK (c : bool) (what : string) : is_ResourceExhausted (CHECK c what) = false.
Proof. destruct c; reflexivity. Qed.

Lemma not_RE_at {A : Type} (l : list A) (i : Z) (what : string) :
  is_ResourceExhausted (at_ l i what) = false.
Proof.
  unfold at_. destruct (i <? 0); [reflexivity|].
  destruct (nth_error l (Z.to_nat i)); reflexivity.
Qed.

Lemma not_RE_TritonType (t : PrimitiveType) : is_ResourceExhausted (TritonType t) = false.
Proof. destruct t; reflexivity. Qed.

Lemma not_RE_for_each {A S : Type} (l : list A) (body : S -> A -> Outcome S) :
  (forall s x, is_ResourceExhausted (body s x) = false) ->
  forall s, is_ResourceExhausted (for_each l body s) = false.
Proof.
  intros Hb. induction l as [| x l IH]; intros s; simpl.
  - reflexivity.
  - apply not_RE_bind; [apply Hb | apply IH].
Qed.

End NeverResourceExhausted.

Ltac not_RE_step :=
  first
    [ apply not_RE_bind; [| intros ]
    | apply not_RE_CHECK
    | apply not_RE_at
    | apply not_RE_TritonType
    | match goal with
      | |- is_ResourceExhausted (if ?c then _ else _) = false => destruct c
      | |- is_ResourceExhausted (let '(_, _) := ?p in _) = false => destruct p
      end
    | reflexivity ].

Lemma not_RE_operand_info T dot_instr analysis config :
  is_ResourceExhausted (operand_info T dot_instr analysis config) = false.
Proof.
  unfold operand_info, first_fragment, CHECK_EQ, CHECK_LE. repeat not_RE_step.
Qed.

Lemma not_RE_out_stride_body T out_shape config info s x :
  is_ResourceExhausted (out_stride_body T out_shape config info s x) = false.
Proof.
  unfold out_stride_body, CHECK_EQ. repeat not_RE_step.
Qed.

Lemma not_RE_output_strides T out_shape config info :
  is_ResourceExhausted (output_strides T out_shape config info) = false.
Proof.
  unfold output_strides, out_stride_loop, CHECK_GE, CHECK_GT.
  apply not_RE_bind.
  - apply not_RE_for_each. intros. apply not_RE_out_stride_body.
  - intros. repeat not_RE_step.
Qed.

Lemma not_RE_tiling config info : is_ResourceExhausted (tiling config info) = false.
Proof. unfold tiling, CHECK_GE. repeat not_RE_step. Qed.

Lemma not_RE_preamble analyze T dot_instr config :
  is_ResourceExhausted (preamble analyze T dot_instr config) = false.
Proof.
  unfold preamble.
  apply not_RE_bind; [apply not_RE_operand_info | intros].
  apply not_RE_bind; [apply not_RE_output_strides | intros].
  apply not_RE_bind; [apply not_RE_tiling | intros].
  apply not_RE_bind; [apply not_RE_TritonType | intros]. reflexivity.
Qed.

Section Quiet.
Import BuilderMonad.

Lemma quiet_ret {A : Type} (a : A) : quiet (ret a).
Proof. intros ops. reflexivity. Qed.

Lemma quiet_create (v : Value) : quiet (create v).
Proof. intros ops. reflexivity. Qed.

Lemma quiet_emit (o : Operation) : quiet (emit o).
Proof. intros ops. reflexivity. Qed.

Lemma quiet_lift {A : Type} (o : Outcome A) : is_ResourceExhausted o = false -> quiet (lift o).
Proof. intros H ops. exact H. Qed.

Lemma quiet_bind {A B : Type} (m : Builder A) (f : A -> Builder B) :
  quiet m -> (forall a, quiet (f a)) -> quiet (bind m f).
Proof.
  intros Hm Hf ops. unfold bind. specialize (Hm ops).
  destruct (m ops) as [[a | msg | msg] ops1]; simpl in *.
  - apply Hf.
  - discriminate.
  - reflexivity.
Qed.

Lemma quiet_in_new_block {A : Type} (m : Builder A) : quiet m -> quiet (in_new_block m).
Proof.
  intros Hm ops. unfold in_new_block. specialize (Hm []).
  destruct (m []) as [[a | msg | msg] body]; simpl in *;
    [reflexivity | discriminate | reflexivity].
Qed.

Lemma quiet_CreateConst ty v : quiet (CreateConst ty v).
Proof.
  unfold CreateConst. destruct (isIntegerType ty); [apply quiet_create|].
  destruct (isFloatType ty); [apply quiet_create | apply quiet_lift; reflexivity].
Qed.

Lemma quiet_CreateConstTensor ty v s : quiet (CreateConstTensor ty v s).
Proof.
  unfold CreateConstTensor. destruct (isIntegerType ty); [apply quiet_create|].
  destruct (isFloatType ty); [apply quiet_create | apply quiet_lift; reflexivity].
Qed.

Lemma quiet_Cast v ty : quiet (Cast v ty).
Proof.
  unfold Cast.
  repeat match goal with
         | |- quiet (if ?c then _ else _) => destruct c
         | |- quiet (bind _ _) => apply quiet_bind; [| intros]
         | |- quiet (create _) => apply quiet_create
         | |- quiet (ret _) => apply quiet_ret
         | |- quiet (lift _) => apply quiet_lift; reflexivity
         end.
Qed.

Lemma quiet_convert_scalar T v : quiet (convert_scalar T v).
Proof. destruct T; [apply quiet_ret | apply quiet_create]. Qed.

Lemma quiet_convert_range T v : quiet (convert_range T v).
Proof. destruct T; [apply quiet_ret | apply quiet_create]. Qed.

End Quiet.

Ltac quiet_step :=
  match goal with
  | |- quiet (BuilderMonad.bind _ _) => apply quiet_bind; [| intros]
  | |- quiet (BuilderMonad.create _) => apply quiet_create
  | |- quiet (BuilderMonad.emit _) => apply quiet_emit
  | |- quiet (BuilderMonad.ret _) => apply quiet_ret
  | |- quiet (CreateConst _ _) => apply quiet_CreateConst
  | |- quiet (CreateConstTensor _ _ _) => apply quiet_CreateConstTensor
  | |- quiet (Cast _ _) => apply quiet_Cast
  | |- quiet (convert_scalar _ _) => apply quiet_convert_scalar
  | |- quiet (convert_range _ _) => apply quiet_convert_range
  | |- quiet (build_splat _ _) => apply quiet_create
  | |- quiet (build_range _) => apply quiet_create
  | |- quiet (build_bcast _ _) => apply quiet_create
  | |- quiet (build_addptr _ _) => apply quiet_create
  | |- quiet (BuilderMonad.lift (at_ _ _ _)) => apply quiet_lift; apply not_RE_at
  | |- quiet (BuilderMonad.lift (Abort _)) => apply quiet_lift; reflexivity
  | |- quiet (BuilderMonad.in_new_block _) => apply quiet_in_new_block
  | |- quiet (body_builder _ _ _ _ _ _ _ _) => unfold body_builder
  | |- quiet (load_guards _ _ _ _ _) => unfold load_guards
  | |- quiet (if ?c then _ else _) => destruct c
  | |- quiet (let '(_, _) := ?p in _) => destruct p
  end.

Lemma quiet_emit_kernel T W tf fn config info strides tile root_ty :
  quiet (emit_kernel T W tf fn config info strides tile root_ty).
Proof.
  unfold emit_kernel.
  assert (G : forall i, quiet (getArgument fn i)).
  { intros i. apply quiet_lift. unfold getArgument.
    apply not_RE_bind; [apply not_RE_at | reflexivity]. }
  apply quiet_bind; [apply G | intros].
  apply quiet_bind; [apply G | intros].
  apply quiet_bind; [apply G | intros].
  apply quiet_bind; [unfold program_ids; repeat quiet_step | intros].
  apply quiet_bind; [apply quiet_lift; apply not_RE_CHECK | intros].
  apply quiet_bind; [unfold swizzle; repeat quiet_step | intros].
  apply quiet_bind; [unfold lhs_pointers; repeat quiet_step | intros].
  apply quiet_bind; [unfold rhs_pointers; repeat quiet_step | intros].
  apply quiet_bind; [apply quiet_CreateConstTensor | intros].
  apply quiet_bind.
  - unfold reduction_loop. repeat quiet_step.
  - intros. apply quiet_bind; [| intros; apply quiet_ret].
    unfold output_store. repeat quiet_step.
Qed.

(** ** What a successful or a rejected lowering went through *)

Lemma emit_kernel_Ok T W tf fn config info strides tile root_ty ops ld ops' :
  emit_kernel T W tf fn config info strides tile root_ty ops = (Ok ld, ops') ->
  grid_guard info tile = Ok tt /\ ld = launch_dimensions W config info tile.
Proof.
  unfold emit_kernel. intros H.
  bind_step H lhs El. bind_step H rhs Er. bind_step H out Eo. bind_step H ids Ei.
  bind_step H u G. apply lift_Ok in G. destruct G as [G _]. destruct u.
  bind_inv H.
  unfold BuilderMonad.ret in H. inversion H. split; [exact G | reflexivity].
Qed.

Lemma check_shmem_cases config info tile budget :
  (required_shmem_size config info tile <= budget
   /\ check_shmem config info tile budget = Ok tt)
  \/ (required_shmem_size config info tile > budget
      /\ check_shmem config info tile budget
         = ResourceExhausted
             ("Requires too much shared memory: "
              ++ format_d (required_shmem_size config info tile)
              ++ " > " ++ format_d budget)).
Proof.
  unfold check_shmem.
  destruct (Z.gtb_spec (required_shmem_size config info tile) budget) as [G | G].
  - right. split; [lia | reflexivity].
  - left. split; [lia | reflexivity].
Qed.

Lemma MatMulImpl_Ok analyze W tf T dot_instr fn config budget ops ld ops' :
  MatMulImpl analyze W tf T dot_instr fn config budget ops = (Ok ld, ops') ->
  exists p,
    preamble analyze T dot_instr config = Ok p
    /\ required_shmem_size config (p_info p) (p_tile p) <= budget
    /\ grid_guard (p_info p) (p_tile p) = Ok tt
    /\ ld = launch_dimensions W config (p_info p) (p_tile p).
Proof.
  unfold MatMulImpl. intros H.
  bind_step H a E. bind_step H u E0.
  apply lift_Ok in E. destruct E as [E ->].
  apply lift_Ok in E0. destruct E0 as [E0 ->].
  apply emit_kernel_Ok in H. destruct H as [G L].
  exists a. repeat split; try assumption.
  destruct (check_shmem_cases config (p_info a) (p_tile a) budget) as [[C _] | [_ C]].
  - exact C.
  - rewrite C in E0. discriminate.
Qed.

Lemma MatMulImpl_ResourceExhausted analyze W tf T dot_instr fn config budget ops msg ops' :
  MatMulImpl analyze W tf T dot_instr fn config budget ops = (ResourceExhausted msg, ops') ->
  exists p,
    preamble analyze T dot_instr config = Ok p
    /\ required_shmem_size config (p_info p) (p_tile p) > budget
    /\ msg = "Requires too much shared memory: "
             ++ format_d (required_shmem_size config (p_info p) (p_tile p))
             ++ " > " ++ format_d budget
    /\ ops' = ops.
Proof.
  unfold MatMulImpl. intros H.
  apply bind_ResourceExhausted in H. destruct H as [H | (p & ops1 & E & H)].
  - pose proof (not_RE_preamble analyze T dot_instr config) as N.
    unfold BuilderMonad.lift in H. inversion H as [[H1 H2]]. rewrite H1 in N. discriminate.
  - apply lift_Ok in E. destruct E as [E ->]. exists p. split; [exact E|].
    apply bind_ResourceExhausted in H. destruct H as [H | (u & ops2 & E2 & H)].
    + unfold BuilderMonad.lift in H. inversion H as [[H1 H2]].
      destruct (check_shmem_cases config (p_info p) (p_tile p) budget) as [[_ C] | [G C]].
      * rewrite C in H1. discriminate.
      * rewrite C in H1. inversion H1. repeat split. exact G.
    + pose proof (quiet_emit_kernel T W tf fn config (p_info p) (p_strides p) (p_tile p)
                                    (p_root_ty p) ops2) as Q.
      rewrite H in Q. discriminate.
Qed.

Lemma MatMul_unfold analyze W tf dot_instr fn config budget :
  MatMul analyze W tf dot_instr fn config budget
  = MatMulImpl analyze W tf (index_type dot_instr config) dot_instr fn config budget.
Proof.
  unfold MatMul, index_type.
  destruct (use_64bit_indexing dot_instr config); reflexivity.
Qed.

Lemma TritonWrapper_Ok hlo device_info config generator pipeline ops ld program ops' :
  TritonWrapper hlo device_info config generator pipeline ops = (Ok (ld, program), ops') ->
  exists dot ld0 ops1 shared,
    generator dot (fn_arg_types program) config (shared_memory_per_block_optin device_info) ops
    = (Ok ld0, ops1)
    /\ run_pipeline pipeline program (num_warps config) (num_stages config) = Some shared
    /\ to_int shared <= shared_memory_per_block_optin device_info
    /\ ld = SetSharedMemBytes ld0 (to_int shared)
    /\ fn_body program = (ops1 ++ [ReturnOp])%list
    /\ ops' = fn_body program.
Proof.
  unfold TritonWrapper. intros H.
  destruct (complexity_heuristic_value config >? kComplexityHeuristicLimit);
    [discriminate|].
  destruct (kernel_root hlo) as [dot | |]; try discriminate.
  bind_step H root_ty E. bind_step H param_tys E0. bind_step H a1 E1.
  bind_step H u E2.
  apply lift_Ok in E. destruct E as [_ ->].
  apply lift_Ok in E0. destruct E0 as [_ ->].
  unfold BuilderMonad.emit in E2. inversion E2; subst. clear E2.
  match type of H with
  | (if verify pipeline ?p then _ else _) = _ => set (prog := p) in *
  end.
  destruct (verify pipeline prog); [| discriminate].
  destruct (run_pipeline pipeline prog (num_warps config) (num_stages config))
    as [shared |] eqn:R; [| discriminate].
  destruct (Z.gtb_spec (to_int shared) (shared_memory_per_block_optin device_info));
    [discriminate|].
  destruct (link_modules pipeline prog); [| discriminate].
  inversion H; subst. eexists dot, a1, _, shared.
  repeat split; try assumption; try reflexivity.
Qed.

(** ** Launch geometry *)

Section Geometry.

Variable analyze : HloDotInstruction -> Z -> DotFusionAnalysis.
Variable W : Z.
Variable tf : bool.

(** C10.  Every successful lowering, of [MatMulImpl] as of [TritonWrapper]
    around [MatMul], returns the thread-block shape (num_warps * WarpSize, 1, 1);
    two successful lowerings with the same num_warps therefore have the same
    thread-block shape, whatever the dots, the tile sizes and split_k. *)
Theorem C10_block_dimensions :
  (forall T dot_instr fn config budget ops ld ops',
      in_int64 (num_warps config * W) ->
      MatMulImpl analyze W tf T dot_instr fn config budget ops = (Ok ld, ops') ->
      thread_counts_per_block ld
      = {| dim_x := num_warps config * W; dim_y := 1; dim_z := 1 |})
  /\ (forall hlo device_info config pipeline ops ld program ops',
         in_int64 (num_warps config * W) ->
         TritonWrapper hlo device_info config (MatMul analyze W tf) pipeline ops
         = (Ok (ld, program), ops') ->
         thread_counts_per_block ld
         = {| dim_x := num_warps config * W; dim_y := 1; dim_z := 1 |})
  /\ (forall hlo1 hlo2 dev1 dev2 config1 config2 pipe1 pipe2 ops1 ops2 r1 r2 ops1' ops2',
         num_warps config1 = num_warps config2 ->
         TritonWrapper hlo1 dev1 config1 (MatMul analyze W tf) pipe1 ops1 = (Ok r1, ops1') ->
         TritonWrapper hlo2 dev2 config2 (MatMul analyze W tf) pipe2 ops2 = (Ok r2, ops2') ->
         thread_counts_per_block (fst r1) = thread_counts_per_block (fst r2)).
Proof.
  assert (A : forall T dot_instr fn config budget ops ld ops',
             MatMulImpl analyze W tf T dot_instr fn config budget ops = (Ok ld, ops') ->
             thread_counts_per_block ld
             = {| dim_x := to_int64 (num_warps config * W); dim_y := 1; dim_z := 1 |}).
  { intros T dot_instr fn config budget ops ld ops' H.
    apply MatMulImpl_Ok in H. destruct H as (p & _ & _ & _ & ->). reflexivity. }
  assert (B : forall hlo device_info config pipeline ops ld program ops',
             TritonWrapper hlo device_info config (MatMul analyze W tf) pipeline ops
             = (Ok (ld, program), ops') ->
             thread_counts_per_block ld
             = {| dim_x := to_int64 (num_warps config * W); dim_y := 1; dim_z := 1 |}).
  { intros hlo dev config pipe ops ld prog ops' H.
    apply TritonWrapper_Ok in H. destruct H as (dot & ld0 & ops1 & sh & G & _ & _ & -> & _).
    rewrite MatMul_unfold in G. apply A in G. exact G. }
  split; [| split].
  - intros T dot_instr fn config budget ops ld ops' R H.
    rewrite (A _ _ _ _ _ _ _ _ H), (to_int64_id _ R). reflexivity.
  - intros hlo dev config pipe ops ld prog ops' R H.
    rewrite (B _ _ _ _ _ _ _ _ H), (to_int64_id _ R). reflexivity.
  - intros hlo1 hlo2 dev1 dev2 c1 c2 p1 p2 o1 o2 [ld1 pr1] [ld2 pr2] o1' o2' E H1 H2.
    simpl. rewrite (B _ _ _ _ _ _ _ _ H1), (B _ _ _ _ _ _ _ _ H2), E. reflexivity.
Qed.

End Geometry.

Lemma C10_block_dimensions_witness :
  match fst (TritonWrapper Examples.computation_100x70x50 Examples.device_96k
                           Examples.config_32 (MatMul Examples.dense_analysis 32 true)
                           (Examples.pipeline_reporting 4096) []) with
  | Ok (ld, _) => thread_counts_per_block ld = {| dim_x := 128; dim_y := 1; dim_z := 1 |}
  | _ => False
  end.
Proof.
  destruct (TritonWrapper Examples.computation_100x70x50 Examples.device_96k
                          Examples.config_32 (MatMul Examples.dense_analysis 32 true)
                          (Examples.pipeline_reporting 4096) [])
    as [[[ld program] | msg | msg] ops'] eqn:E; simpl.
  - refine (proj1 (proj2 (C10_block_dimensions Examples.dense_analysis 32 true))
                  _ _ _ _ _ _ _ _ _ E).
    vm_compute. split; discriminate.
  - vm_compute in E. discriminate E.
  - vm_compute in E. discriminate E.
Defined.

Section GridAxes.

Variable analyze : HloDotInstruction -> Z -> DotFusionAnalysis.
Variable W : Z.
Variable tf : bool.

Lemma launch_grid_cases (config : TritonGemmKey) (info : OperandInfo) (tile : Tiling) :
  let ld := launch_dimensions W config info tile in
  let b := batch_size info in
  let g := grid_m tile * grid_n tile in
  dim_z (block_counts ld) = split_k config
  /\ (kBlockCountYZLimit <= b ->
      dim_x (block_counts ld) = b /\ dim_y (block_counts ld) = to_int g)
  /\ (b < kBlockCountYZLimit ->
      dim_x (block_counts ld) = to_int g /\ dim_y (block_counts ld) = b).
Proof.
  simpl. unfold large_batch.
  destruct (Z.geb_spec (batch_size info) kBlockCountYZLimit) as [G | G].
  - split; [reflexivity|]. split; intros; [split; reflexivity | lia].
  - split; [reflexivity|]. split; intros; [lia | split; reflexivity].
Qed.

(** Each program id is read from the axis on which the launch grid has the
    matching extent. *)
Lemma program_ids_match_grid (config : TritonGemmKey) (info : OperandInfo)
    (tile : Tiling) ops ids ops' :
  program_ids info ops = (Ok ids, ops') ->
  let ld := launch_dimensions W config info tile in
  exists axis_batch axis_nc,
    pid_batch ids = GetProgramIdOp axis_batch
    /\ pid_nc ids = GetProgramIdOp axis_nc
    /\ pid_k ids = GetProgramIdOp ProgramIDDim_Z
    /\ grid_extent ld axis_batch = batch_size info
    /\ grid_extent ld axis_nc = to_int (grid_m tile * grid_n tile)
    /\ grid_extent ld ProgramIDDim_Z = split_k config.
Proof.
  unfold program_ids, BuilderMonad.bind, BuilderMonad.create, BuilderMonad.ret.
  intros H. injection H as <- _. cbv zeta. unfold launch_dimensions, grid_extent, large_batch.
  simpl.
  destruct (batch_size info >=? kBlockCountYZLimit).
  - exists ProgramIDDim_X, ProgramIDDim_Y. repeat split.
  - exists ProgramIDDim_Y, ProgramIDDim_X. repeat split.
Qed.

(** C4 (as amended).  A successful lowering puts batch_size on the first
    (unbound) grid axis exactly when batch_size >= 65536, and grid_m*grid_n
    there otherwise; the other of the two goes on the second axis and split_k
    on the third.  Hence whenever one of the two reaches the ceiling 65536
    while their product stays below 65536^2, the larger is on the unbound axis
    and the smaller, which is below 65536, on the bound one; for grid_m = 5,
    grid_n = 3 and batch_size = 70000 the grid is (70000, 15, split_k). *)
Theorem C4_launch_grid dot_instr fn config budget ops ld ops' :
  MatMul analyze W tf dot_instr fn config budget ops = (Ok ld, ops') ->
  exists p,
    preamble analyze (index_type dot_instr config) dot_instr config = Ok p
    /\ let b := batch_size (p_info p) in
       let g := grid_m (p_tile p) * grid_n (p_tile p) in
       let grid := block_counts ld in
       dim_z grid = split_k config
       /\ (kBlockCountYZLimit <= b -> dim_x grid = b /\ dim_y grid = to_int g)
       /\ (b < kBlockCountYZLimit -> dim_x grid = to_int g /\ dim_y grid = b)
       /\ (0 <= b -> 0 <= g <= INT_MAX ->
           kBlockCountYZLimit <= b \/ kBlockCountYZLimit <= g ->
           b * g < kBlockCountYZLimit * kBlockCountYZLimit ->
           dim_x grid = Z.max b g /\ dim_y grid = Z.min b g
           /\ dim_y grid < kBlockCountYZLimit)
       /\ (grid_m (p_tile p) = 5 -> grid_n (p_tile p) = 3 -> b = 70000 ->
           dim_x grid = 70000 /\ dim_y grid = 15).
Proof.
  intros H. rewrite MatMul_unfold in H. apply MatMulImpl_Ok in H.
  destruct H as (p & P & _ & _ & ->). exists p. split; [exact P|].
  destruct (launch_grid_cases config (p_info p) (p_tile p)) as (Z3 & Big & Small).
  cbv zeta in *. unfold kBlockCountYZLimit in *.
  split; [exact Z3|]. split; [exact Big|]. split; [exact Small|]. split.
  - intros Hb Hg Hone Hprod.
    assert (Rg : to_int (grid_m (p_tile p) * grid_n (p_tile p))
                 = grid_m (p_tile p) * grid_n (p_tile p)).
    { apply to_int_id. unfold in_int. change (2 ^ 31) with 2147483648. lia. }
    destruct (Z_lt_le_dec (batch_size (p_info p)) 65536) as [L | L].
    + destruct (Small L) as [-> ->]. rewrite Rg. nia.
    + destruct (Big L) as [-> ->]. rewrite Rg. nia.
  - intros Gm Gn Hb. destruct Big as [-> ->]; [lia|].
    rewrite Gm, Gn, Hb. split; reflexivity.
Qed.

End GridAxes.

Lemma C4_launch_grid_witness :
  match fst (MatMul Examples.dense_analysis 32 true Examples.dot_batch_70000
                    Examples.fn_f16 Examples.config_16 98304 []) with
  | Ok ld => block_counts ld = {| dim_x := 70000; dim_y := 15; dim_z := 1 |}
  | _ => False
  end.
Proof.
  destruct (MatMul Examples.dense_analysis 32 true Examples.dot_batch_70000
                   Examples.fn_f16 Examples.config_16 98304 [])
    as [[ld | msg | msg] ops'] eqn:E; simpl.
  - destruct (C4_launch_grid Examples.dense_analysis 32 true _ _ _ _ _ _ _ E)
      as (p & P & Z3 & _ & _ & _ & Ex).
    vm_compute in P. inversion P as [P']. rewrite <- P' in Ex. clear P P'.
    destruct (Ex eq_refl eq_refl eq_refl) as [X Y].
    destruct ld as [[x y z] t s]. simpl in *. subst. reflexivity.
  - vm_compute in E. discriminate E.
  - vm_compute in E. discriminate E.
Defined.

(** C4 as stated puts the larger of batch_size and grid_m*grid_n on the first
    axis.  For batch_size = 10 and grid_m*grid_n = 5 the code puts 5 there and
    10 on the bound axis. *)
Lemma C4_counterexample :
  exists p ld ops',
    preamble Examples.dense_analysis
             (index_type Examples.dot_batch_10 Examples.config_16)
             Examples.dot_batch_10 Examples.config_16 = Ok p
    /\ batch_size (p_info p) = 10
    /\ grid_m (p_tile p) * grid_n (p_tile p) = 5
    /\ MatMul Examples.dense_analysis 32 true Examples.dot_batch_10
              Examples.fn_f16 Examples.config_16 98304 [] = (Ok ld, ops')
    /\ dim_x (block_counts ld) = 5 /\ dim_y (block_counts ld) = 10
    /\ dim_x (block_counts ld) <> Z.max 10 5.
Proof.
  eexists. eexists. eexists.
  split; [vm_compute; reflexivity |].
  split; [reflexivity |]. split; [reflexivity |].
  split; [vm_compute; reflexivity |].
  simpl. repeat split. discriminate.
Qed.

(** ** The guard on the grid size *)

(** C3.  For a batch of 65536 dots f16[4096,16] x f16[16,4096] and tiles of
    16 x 16, batch_size = 65536 and grid_m = grid_n = 256: the product
    batch_size * grid_m * grid_n is 65536^2, and batch_size and grid_m * grid_n
    are both above 65535, the situation in which, by the comment of lines
    549-551, the lowering has to give up.  The guard compares the [int]
    product, which has wrapped around to 0, with 65536^2: it passes, and the
    lowering emits the kernel and returns a grid of 65536 x 65536 x 1 blocks;
    it neither fails with ResourceExhausted nor terminates the process. *)
Theorem C3_grid_guard_wraps :
  exists p ld emitted,
    preamble Examples.dense_analysis
             (index_type Examples.dot_batch_65536 Examples.config_16)
             Examples.dot_batch_65536 Examples.config_16 = Ok p
    /\ batch_size (p_info p) = 65536
    /\ grid_m (p_tile p) * grid_n (p_tile p) = 65536
    /\ batch_size (p_info p) * grid_m (p_tile p) * grid_n (p_tile p)
       = kBlockCountYZLimit * kBlockCountYZLimit
    /\ grid_guard_value (p_info p) (p_tile p) = 0
    /\ grid_guard (p_info p) (p_tile p) = Ok tt
    /\ MatMul Examples.dense_analysis 32 true Examples.dot_batch_65536
              Examples.fn_f16 Examples.config_16 98304 [] = (Ok ld, emitted)
    /\ emitted <> []
    /\ block_counts ld = {| dim_x := 65536; dim_y := 65536; dim_z := 1 |}.
Proof.
  eexists. eexists. eexists. split; [vm_compute; reflexivity |].
  split; [reflexivity |]. split; [reflexivity |]. split; [reflexivity |].
  split; [reflexivity |]. split; [reflexivity |].
  split; [vm_compute; reflexivity |].
  split; [discriminate | reflexivity].
Qed.

(** ** Index width *)


(** ** Shared-memory budget *)

Section SharedMemory.

Variable analyze : HloDotInstruction -> Z -> DotFusionAnalysis.
Variable W : Z.
Variable tf : bool.

Lemma TritonType_bits (t : PrimitiveType) (ty : Ty) :
  TritonType t = Ok ty -> 8 <= getIntOrFloatBitWidth ty <= 64.
Proof. destruct t; simpl; intros H; inversion H; simpl; lia. Qed.

Lemma operand_info_types T dot_instr analysis config info :
  operand_info T dot_instr analysis config = Ok info ->
  TritonType (element_type (parameter_shape (OperandToParameter analysis 0))) = Ok (lhs_ty info)
  /\ TritonType (element_type (parameter_shape (OperandToParameter analysis 1)))
     = Ok (rhs_ty info).
Proof.
  unfold operand_info. intros H.
  apply outcome_bind_Ok in H. destruct H as (lt & El & H).
  apply outcome_bind_Ok in H. destruct H as (rt & Er & H).
  repeat (apply outcome_bind_Ok in H; destruct H as (? & _ & H)).
  match type of H with
  | (let '(_, _) := ?b in _) = _ => destruct b as [[[? ?] ?] ?]
  end.
  inversion H. simpl. split; assumption.
Qed.

Lemma tiling_Ok config info tile :
  tiling config info = Ok tile ->
  t_block_m tile = to_int (block_m config)
  /\ t_block_k tile = to_int (block_k config)
  /\ t_block_n tile = to_int (block_n config)
  /\ 16 <= t_block_m tile /\ 16 <= t_block_k tile /\ 16 <= t_block_n tile
  /\ grid_m tile = ceil_div (m_minor info) (t_block_m tile)
  /\ grid_n tile = ceil_div (n info) (t_block_n tile)
  /\ width tile = to_int (group_m * grid_n tile).
Proof.
  unfold tiling, CHECK_GE, CHECK. intros H.
  destruct (Z.geb_spec (to_int (block_m config)) 16); [| discriminate].
  destruct (Z.geb_spec (to_int (block_k config)) 16); [| discriminate].
  destruct (Z.geb_spec (to_int (block_n config)) 16); [| discriminate].
  simpl in H. inversion H. simpl. repeat split; assumption.
Qed.

Lemma preamble_Ok T dot_instr config p :
  preamble analyze T dot_instr config = Ok p ->
  operand_info T dot_instr (analyze dot_instr (split_k config)) config = Ok (p_info p)
  /\ output_strides T (shape dot_instr) config (p_info p) = Ok (p_strides p)
  /\ tiling config (p_info p) = Ok (p_tile p)
  /\ TritonType (element_type (shape dot_instr)) = Ok (p_root_ty p).
Proof.
  unfold preamble. intros H.
  apply outcome_bind_Ok in H. destruct H as (info & Ei & H).
  apply outcome_bind_Ok in H. destruct H as (st & Es & H).
  apply outcome_bind_Ok in H. destruct H as (tl & Et & H).
  apply outcome_bind_Ok in H. destruct H as (rt & Er & H).
  inversion H. simpl. repeat split; assumption.
Qed.

(** The shared-memory estimate as a formula over the integers. *)
Lemma required_shmem_exact config info tile :
  8 <= getIntOrFloatBitWidth (lhs_ty info) ->
  8 <= getIntOrFloatBitWidth (rhs_ty info) ->
  16 <= t_block_m tile -> 16 <= t_block_k tile -> 16 <= t_block_n tile ->
  0 <= num_stages config ->
  (t_block_m tile * getIntOrFloatBitWidth (lhs_ty info)
   + t_block_n tile * getIntOrFloatBitWidth (rhs_ty info)) * t_block_k tile < 2 ^ 32 ->
  (t_block_m tile * getIntOrFloatBitWidth (lhs_ty info)
   + t_block_n tile * getIntOrFloatBitWidth (rhs_ty info)) * t_block_k tile
   * num_stages config / 8 <= INT_MAX ->
  required_shmem_size config info tile
  = (t_block_m tile * getIntOrFloatBitWidth (lhs_ty info)
     + t_block_n tile * getIntOrFloatBitWidth (rhs_ty info)) * t_block_k tile
    * num_stages config / 8.
Proof.
  intros Hl Hr Hm Hk Hn Hs Hu Hi. unfold required_shmem_size.
  set (lb := getIntOrFloatBitWidth (lhs_ty info)) in *.
  set (rb := getIntOrFloatBitWidth (rhs_ty info)) in *.
  set (bm := t_block_m tile) in *. set (bn := t_block_n tile) in *.
  set (bk := t_block_k tile) in *. set (st := num_stages config) in *.
  change (2 ^ 32) with 4294967296 in Hu. unfold INT_MAX in Hi.
  assert (P1 : 0 <= bm * lb) by nia. assert (P2 : 0 <= bn * rb) by nia.
  assert (P3 : bm * lb + bn * rb <= (bm * lb + bn * rb) * bk) by nia.
  assert (U : forall z, 0 <= z < 4294967296 -> to_unsigned z = z).
  { intros z Hz. apply to_unsigned_id. change (2 ^ 32) with 4294967296. exact Hz. }
  rewrite (U (bm * lb)) by lia. rewrite (U (bn * rb)) by lia.
  rewrite (U (bm * lb + bn * rb)) by lia.
  rewrite (U ((bm * lb + bn * rb) * bk)) by lia.
  set (A := (bm * lb + bn * rb) * bk) in *.
  assert (PA : 0 <= A * st) by nia.
  assert (Q : A * st / 8 <= 2147483647) by exact Hi.
  assert (B : A * st < 8 * 2147483648).
  { pose proof (Z.mul_div_le (A * st) 8 ltac:(lia)).
    pose proof (Z.mod_pos_bound (A * st) 8 ltac:(lia)).
    pose proof (Z.div_mod (A * st) 8 ltac:(lia)). lia. }
  rewrite to_int64_id.
  2:{ unfold in_int64, INT64_MAX. change (2 ^ 63) with 9223372036854775808. lia. }
  rewrite cdiv_nonneg by lia.
  apply to_int_id. unfold in_int, INT_MAX. change (2 ^ 31) with 2147483648.
  split; [| lia]. pose proof (Z.div_pos (A * st) 8 PA ltac:(lia)). lia.
Qed.

Lemma prefix_append (s t : string) : String.prefix s (s ++ t) = true.
Proof.
  induction s as [| c s IH]; simpl.
  - destruct t; reflexivity.
  - destruct (Ascii.ascii_dec c c) as [_ | N]; [exact IH | now elim N].
Qed.

Lemma mentions_prefix (s t : string) : String.prefix s t = true -> mentions s t = true.
Proof. destruct t; simpl; intros ->; reflexivity. Qed.

Lemma mentions_here (s t : string) : mentions s (s ++ t) = true.
Proof. apply mentions_prefix, prefix_append. Qed.

Lemma mentions_self (s : string) : mentions s s = true.
Proof.
  apply mentions_prefix. induction s as [| c s IH]; simpl; [reflexivity|].
  destruct (Ascii.ascii_dec c c) as [_ | N]; [exact IH | now elim N].
Qed.

Lemma mentions_later (s p t : string) : mentions s t = true -> mentions s (p ++ t) = true.
Proof.
  intros H. induction p as [| c p IH]; simpl; [exact H|].
  rewrite IH. apply orb_true_r.
Qed.

(** C6 (as amended).  When the estimate (block_m*bits(lhs) + block_n*bits(rhs))
    * block_k * num_stages / 8, for a tiling on which its computation does not
    wrap around (the product before num_stages below 2^32, the estimate at
    most INT_MAX), exceeds the budget, [MatMulImpl] returns ResourceExhausted
    with a message giving the metric and both values, and the block is as it
    was: no operation has been created.  After emission, [TritonWrapper]
    compares the footprint measured by the pipeline with the same budget and,
    when it is exceeded, returns ResourceExhausted with the fixed message
    of line 937, which gives neither the footprint nor the limit. *)
Theorem C6_shared_memory_budget :
  (forall T dot_instr fn config budget ops p,
      preamble analyze T dot_instr config = Ok p ->
      let bits_lhs := getIntOrFloatBitWidth (lhs_ty (p_info p)) in
      let bits_rhs := getIntOrFloatBitWidth (rhs_ty (p_info p)) in
      let bm := t_block_m (p_tile p) in
      let bn := t_block_n (p_tile p) in
      let bk := t_block_k (p_tile p) in
      0 <= num_stages config ->
      (bm * bits_lhs + bn * bits_rhs) * bk < 2 ^ 32 ->
      (bm * bits_lhs + bn * bits_rhs) * bk * num_stages config / 8 <= INT_MAX ->
      (bm * bits_lhs + bn * bits_rhs) * bk * num_stages config / 8 > budget ->
      let estimate := (bm * bits_lhs + bn * bits_rhs) * bk * num_stages config / 8 in
      let msg := "Requires too much shared memory: "
                 ++ format_d estimate ++ " > " ++ format_d budget in
      MatMulImpl analyze W tf T dot_instr fn config budget ops
      = (ResourceExhausted msg, ops)
      /\ mentions "shared memory" msg = true
      /\ mentions (format_d estimate) msg = true
      /\ mentions (format_d budget) msg = true)
  /\ (forall hlo device_info config generator pipeline ops dot root_ty param_tys
             ld ops1 shared,
         complexity_heuristic_value config <= kComplexityHeuristicLimit ->
         kernel_root hlo = HloDot dot ->
         TritonType (element_type (instruction_shape (root_instruction hlo))) = Ok root_ty ->
         parameter_types (parameter_instructions hlo) = Ok param_tys ->
         generator dot (param_tys ++ [PointerType root_ty])%list config
                   (shared_memory_per_block_optin device_info) ops = (Ok ld, ops1) ->
         let program := {| fn_arg_types := (param_tys ++ [PointerType root_ty])%list;
                           tt_divisibility :=
                             map (fun _ => 16) (param_tys ++ [PointerType root_ty])%list;
                           fn_body := (ops1 ++ [ReturnOp])%list |} in
         verify pipeline program = true ->
         run_pipeline pipeline program (num_warps config) (num_stages config)
         = Some shared ->
         to_int shared > shared_memory_per_block_optin device_info ->
         TritonWrapper hlo device_info config generator pipeline ops
         = (ResourceExhausted "Shared memory size limit exceeded.",
            (ops1 ++ [ReturnOp])%list)).
Proof.
  split.
  - intros T dot_instr fn config budget ops p P bl br bm bn bk Hs Hu Hi Hgt.
    destruct (preamble_Ok _ _ _ _ P) as (Ei & _ & Et & _).
    destruct (operand_info_types _ _ _ _ _ Ei) as (Tl & Tr).
    apply TritonType_bits in Tl, Tr.
    destruct (tiling_Ok _ _ _ Et) as (_ & _ & _ & Hm & Hk & Hn & _).
    pose proof (required_shmem_exact config (p_info p) (p_tile p)
                  ltac:(lia) ltac:(lia) Hm Hk Hn Hs Hu Hi) as R.
    fold bl br bm bn bk in R.
    unfold MatMulImpl, BuilderMonad.bind, BuilderMonad.lift. rewrite P.
    destruct (check_shmem_cases config (p_info p) (p_tile p) budget) as [[C _] | [_ C]].
    + rewrite R in C. lia.
    + split; [rewrite C, R; reflexivity|].
      split; [reflexivity|]. split.
      * apply (mentions_later _ "Requires too much shared memory: "). apply mentions_here.
      * apply (mentions_later _ "Requires too much shared memory: ").
        apply mentions_later. apply (mentions_later _ " > "). apply mentions_self.
  - intros hlo dev config gen pipe ops dot root_ty param_tys ld ops1 shared
           Hc Hroot Hty Hp Hgen program Hv Hrun Hgt.
    unfold TritonWrapper.
    destruct (Z.gtb_spec (complexity_heuristic_value config) kComplexityHeuristicLimit);
      [lia|].
    rewrite Hroot. unfold BuilderMonad.bind, BuilderMonad.lift, BuilderMonad.emit.
    rewrite Hty, Hp, Hgen. fold program. rewrite Hv, Hrun.
    destruct (Z.gtb_spec (to_int shared) (shared_memory_per_block_optin dev)); [| lia].
    reflexivity.
Qed.

End SharedMemory.

Lemma C6_shared_memory_budget_witness :
  MatMulImpl Examples.dense_analysis 32 true int32_t Examples.dot_100x70x50
             Examples.fn_f16 Examples.config_32 1024 []
  = (ResourceExhausted "Requires too much shared memory: 4096 > 1024", [])
  /\ exists emitted,
       TritonWrapper Examples.computation_100x70x50 Examples.device_96k
                     Examples.config_32 (MatMul Examples.dense_analysis 32 true)
                     (Examples.pipeline_reporting 200000) []
       = (ResourceExhausted "Shared memory size limit exceeded.", emitted).
Proof.
  split.
  - destruct (preamble Examples.dense_analysis int32_t Examples.dot_100x70x50
                       Examples.config_32) as [p | msg | msg] eqn:P.
    + pose proof (proj1 (C6_shared_memory_budget Examples.dense_analysis 32 true)
                        int32_t Examples.dot_100x70x50 Examples.fn_f16
                        Examples.config_32 1024 [] p P) as H.
      vm_compute in P. inversion P as [P']. rewrite <- P' in H. clear P P'.
      refine (proj1 (H _ _ _ _)).
      * vm_compute. discriminate.
      * vm_compute. reflexivity.
      * vm_compute. discriminate.
      * vm_compute. reflexivity.
    + vm_compute in P. discriminate P.
    + vm_compute in P. discriminate P.
  - eexists.
    refine (proj2 (C6_shared_memory_budget Examples.dense_analysis 32 true)
                  Examples.computation_100x70x50 Examples.device_96k Examples.config_32
                  (MatMul Examples.dense_analysis 32 true)
                  (Examples.pipeline_reporting 200000) [] Examples.dot_100x70x50
                  F16Type [PointerType F16Type; PointerType F16Type] _ _ 200000
                  _ _ _ _ _ _ _ _).
    + vm_compute. discriminate.
    + reflexivity.
    + reflexivity.
    + reflexivity.
    + vm_compute. reflexivity.
    + reflexivity.
    + reflexivity.
    + vm_compute. reflexivity.
Defined.

(** C6 as stated has the message of the check after emission name the limit.
    With a limit of 98304 bytes and a measured footprint of 200000 bytes the
    result is ResourceExhausted, and its message contains neither number. *)
Lemma C6_counterexample :
  exists msg,
    fst (TritonWrapper Examples.computation_100x70x50 Examples.device_96k
                       Examples.config_32 (MatMul Examples.dense_analysis 32 true)
                       (Examples.pipeline_reporting 200000) [])
    = ResourceExhausted msg
    /\ mentions (format_d (shared_memory_per_block_optin Examples.device_96k)) msg = false
    /\ mentions (format_d 200000) msg = false.
Proof.
  eexists. split; [vm_compute; reflexivity|]. split; vm_compute; reflexivity.
Qed.

(** The estimate as the code computes it, on a tiling outside the range of
    C6: with blocks of 64 and 2^20 stages the formula gives 2^34 bytes, the
    [int] that holds the estimate is 0, and the lowering goes on. *)
Lemma required_shmem_size_narrows :
  let config := Examples.make_config 64 64 64 1 1048576 4 in
  exists p,
    preamble Examples.dense_analysis int32_t Examples.dot_100x70x50 config = Ok p
    /\ (t_block_m (p_tile p) * getIntOrFloatBitWidth (lhs_ty (p_info p))
        + t_block_n (p_tile p) * getIntOrFloatBitWidth (rhs_ty (p_info p)))
       * t_block_k (p_tile p) * num_stages config / 8 = 2 ^ 34
    /\ required_shmem_size config (p_info p) (p_tile p) = 0
    /\ is_Ok (fst (MatMulImpl Examples.dense_analysis 32 true int32_t
                              Examples.dot_100x70x50 Examples.fn_f16 config 98304 []))
       = true.
Proof.
  cbv zeta. eexists. split; [vm_compute; reflexivity|].
  split; [reflexivity|]. split; [reflexivity|]. vm_compute. reflexivity.
Qed.

(** ** The swizzled decoding of the program id *)

Section EvalI32.

Variable e : Instance.

Lemma wrap32_id (z : Z) : in_int z -> wrap_signed 32 z = z.
Proof. exact (to_int_id z). Qed.

Lemma eval_at_const ty v idx :
  int_width ty = 32 -> in_int v -> eval_at e (ConstantOp ty v) idx = Some v.
Proof. intros Hw Hv. simpl. rewrite Hw, wrap32_id by exact Hv. reflexivity. Qed.

Lemma eval_at_add a b idx x y :
  int_width (getType a) = 32 ->
  eval_at e a idx = Some x -> eval_at e b idx = Some y -> in_int (x + y) ->
  eval_at e (AddIOp a b) idx = Some (x + y).
Proof.
  intros Hw Ha Hb Hr. simpl. rewrite Ha, Hb. simpl. rewrite Hw, wrap32_id by exact Hr.
  reflexivity.
Qed.

Lemma eval_at_sub a b idx x y :
  int_width (getType a) = 32 ->
  eval_at e a idx = Some x -> eval_at e b idx = Some y -> in_int (x - y) ->
  eval_at e (SubIOp a b) idx = Some (x - y).
Proof.
  intros Hw Ha Hb Hr. simpl. rewrite Ha, Hb. simpl. rewrite Hw, wrap32_id by exact Hr.
  reflexivity.
Qed.

Lemma eval_at_mul a b idx x y :
  int_width (getType a) = 32 ->
  eval_at e a idx = Some x -> eval_at e b idx = Some y -> in_int (x * y) ->
  eval_at e (MulIOp a b) idx = Some (x * y).
Proof.
  intros Hw Ha Hb Hr. simpl. rewrite Ha, Hb. simpl. rewrite Hw, wrap32_id by exact Hr.
  reflexivity.
Qed.

Lemma eval_at_div a b idx x y :
  eval_at e a idx = Some x -> eval_at e b idx = Some y -> 0 <= x -> 0 < y ->
  eval_at e (DivSIOp a b) idx = Some (x / y).
Proof.
  intros Ha Hb Hx Hy. simpl. rewrite Ha, Hb. simpl. unfold divsi.
  destruct (Z.eqb_spec y 0); [lia|].
  destruct (Z.eqb_spec y (-1)); [lia|]. rewrite andb_false_r.
  rewrite Z.quot_div_nonneg by lia. reflexivity.
Qed.

Lemma eval_at_rem a b idx x y :
  eval_at e a idx = Some x -> eval_at e b idx = Some y -> 0 <= x -> 0 < y ->
  eval_at e (RemSIOp a b) idx = Some (x mod y).
Proof.
  intros Ha Hb Hx Hy. simpl. rewrite Ha, Hb. simpl. unfold remsi.
  destruct (Z.eqb_spec y 0); [lia|].
  destruct (Z.eqb_spec y (-1)); [lia|]. rewrite andb_false_r.
  rewrite Z.rem_mod_nonneg by lia. reflexivity.
Qed.

Lemma eval_at_slt a b idx x y :
  eval_at e a idx = Some x -> eval_at e b idx = Some y ->
  eval_at e (CmpIOp slt a b) idx = Some (b2z (x <? y)).
Proof. intros Ha Hb. simpl. rewrite Ha, Hb. reflexivity. Qed.

Lemma eval_at_select_min a b idx x y :
  eval_at e a idx = Some x -> eval_at e b idx = Some y ->
  eval_at e (SelectOp (CmpIOp slt a b) a b) idx = Some (Z.min x y).
Proof.
  intros Ha Hb. simpl. rewrite Ha, Hb. simpl.
  destruct (Z.ltb_spec x y); simpl; f_equal; lia.
Qed.

End EvalI32.

Lemma swizzle_arith (gm gn pid : Z) :
  0 < gm -> 0 < gn -> 0 <= pid < gm * gn ->
  let first := pid / (8 * gn) * 8 in
  let gs := Z.min (gm - first) 8 in
  0 <= pid / (8 * gn) /\ 0 <= first < gm /\ 1 <= gs <= 8
  /\ 0 <= pid mod gs /\ first + pid mod gs < gm
  /\ 0 <= pid mod (8 * gn) / gs < gn.
Proof.
  intros Hm Hn Hp. cbv zeta.
  set (gid := pid / (8 * gn)).
  assert (Hg : 0 <= gid) by (apply Z.div_pos; lia).
  pose proof (Z.div_mod pid (8 * gn) ltac:(lia)) as DM. fold gid in DM.
  pose proof (Z.mod_pos_bound pid (8 * gn) ltac:(lia)) as MB.
  assert (Hf : gid * 8 < gm) by nia.
  set (gs := Z.min (gm - gid * 8) 8).
  assert (Hgs : 1 <= gs <= 8) by (unfold gs; lia).
  pose proof (Z.mod_pos_bound pid gs ltac:(lia)) as MG.
  assert (Hr : pid mod (8 * gn) < gs * gn).
  { unfold gs. destruct (Z.min_spec (gm - gid * 8) 8) as [[_ ->] | [_ ->]]; nia. }
  repeat split; try lia.
  - apply Z.div_pos; lia.
  - apply Z.div_lt_upper_bound; lia.
Qed.

(** C9.  For a program id pid_nc in [0, grid_m * grid_n) the emitted decoding
    has a value: the group size evaluates to
    min(grid_m - 8 * (pid_nc / (8 * grid_n)), 8), which is at least 1, so
    neither the remainder nor the division by it is a division by zero, and
    the decoded coordinates satisfy 0 <= pid_m < grid_m and
    0 <= pid_n < grid_n. *)
Theorem C9_swizzle_in_range (tile : Tiling) (ids : ProgramIds) (ops : list Operation)
    (e : Instance) (pid : Z) :
  getType (pid_nc ids) = I32Type ->
  eval e (pid_nc ids) = Some pid ->
  0 < grid_m tile <= INT_MAX -> 0 < grid_n tile ->
  width tile = group_m * grid_n tile -> width tile <= INT_MAX ->
  0 <= pid < grid_m tile * grid_n tile ->
  exists sw ops' gs pm pn,
    swizzle tile ids ops = (Ok sw, ops')
    /\ eval e (group_size sw) = Some gs
    /\ gs = Z.min (grid_m tile - 8 * (pid / (8 * grid_n tile))) 8
    /\ 1 <= gs
    /\ eval e (pid_m sw) = Some pm
    /\ pm = 8 * (pid / (8 * grid_n tile)) + pid mod gs
    /\ 0 <= pm < grid_m tile
    /\ eval e (pid_n sw) = Some pn
    /\ pn = pid mod (8 * grid_n tile) / gs
    /\ 0 <= pn < grid_n tile.
Proof.
  intros Hty Hpid Hgm Hgn Hw Hwmax Hrange.
  destruct (swizzle_arith (grid_m tile) (grid_n tile) pid ltac:(lia) Hgn Hrange)
    as (Hgid & Hfirst & Hgs & Hrem & Hpm & Hpn).
  unfold group_m in Hw. unfold INT_MAX in *.
  set (gm := grid_m tile) in *. set (gn := grid_n tile) in *.
  set (gid := pid / (8 * gn)) in *.
  set (gs := Z.min (gm - gid * 8) 8) in *.
  assert (I : forall z, 0 <= z <= 2147483647 -> in_int z).
  { intros z Hz. unfold in_int, INT_MAX. change (2 ^ 31) with 2147483648. lia. }
  assert (W32 : int_width (getType (pid_nc ids)) = 32) by (rewrite Hty; reflexivity).
  unfold eval in *.
  (* the operations of the decoding, in the order of their creation *)
  pose (width_op := ConstantOp I32Type (width tile)).
  pose (group_id := DivSIOp (pid_nc ids) width_op).
  pose (group_m_op := ConstantOp I32Type group_m).
  pose (first_pid := MulIOp group_id group_m_op).
  pose (grid_m_op := ConstantOp I32Type gm).
  pose (sub0 := SubIOp grid_m_op first_pid).
  pose (gsize := SelectOp (CmpIOp slt sub0 group_m_op) sub0 group_m_op).
  pose (pm := AddIOp first_pid (RemSIOp (pid_nc ids) gsize)).
  pose (pn := DivSIOp (RemSIOp (pid_nc ids) width_op) gsize).
  assert (Ew : eval_at e width_op [] = Some (8 * gn)).
  { unfold width_op. rewrite Hw. apply eval_at_const; [reflexivity | apply I; lia]. }
  assert (Egid : eval_at e group_id [] = Some gid).
  { apply (eval_at_div e _ _ _ _ _ Hpid Ew); lia. }
  assert (E8 : eval_at e group_m_op [] = Some 8).
  { apply eval_at_const; [reflexivity | apply I; lia]. }
  assert (Efirst : eval_at e first_pid [] = Some (gid * 8)).
  { apply (eval_at_mul e group_id group_m_op [] _ _ W32 Egid E8). apply I. lia. }
  assert (Egm : eval_at e grid_m_op [] = Some gm).
  { apply eval_at_const; [reflexivity | apply I; lia]. }
  assert (Esub0 : eval_at e sub0 [] = Some (gm - gid * 8)).
  { apply (eval_at_sub e grid_m_op first_pid [] _ _ eq_refl Egm Efirst). apply I. lia. }
  assert (Egs : eval_at e gsize [] = Some gs).
  { apply (eval_at_select_min e _ _ _ _ _ Esub0 E8). }
  assert (Erem : eval_at e (RemSIOp (pid_nc ids) gsize) [] = Some (pid mod gs)).
  { apply (eval_at_rem e _ _ _ _ _ Hpid Egs); lia. }
  assert (Epm : eval_at e pm [] = Some (gid * 8 + pid mod gs)).
  { apply (eval_at_add e first_pid _ [] _ _ W32 Efirst Erem). apply I. lia. }
  assert (Eremw : eval_at e (RemSIOp (pid_nc ids) width_op) [] = Some (pid mod (8 * gn))).
  { apply (eval_at_rem e _ _ _ _ _ Hpid Ew); lia. }
  assert (Epn : eval_at e pn [] = Some (pid mod (8 * gn) / gs)).
  { apply (eval_at_div e _ _ _ _ _ Eremw Egs); [| lia].
    apply Z.mod_pos_bound. lia. }
  eexists. eexists. exists gs, (gid * 8 + pid mod gs), (pid mod (8 * gn) / gs).
  split; [reflexivity|].
  split; [exact Egs|]. split; [unfold gs; f_equal; lia|]. split; [lia|].
  split; [exact Epm|]. split; [lia|]. split; [lia|].
  split; [exact Epn|]. split; [reflexivity|]. exact Hpn.
Qed.

Lemma C9_swizzle_in_range_witness :
  exists sw ops',
    swizzle Examples.tile_4x2 Examples.ids_small_batch [] = (Ok sw, ops')
    /\ eval Examples.instance_7 (group_size sw) = Some 4
    /\ eval Examples.instance_7 (pid_m sw) = Some 3
    /\ eval Examples.instance_7 (pid_n sw) = Some 1.
Proof.
  destruct (C9_swizzle_in_range Examples.tile_4x2 Examples.ids_small_batch []
              Examples.instance_7 7 eq_refl eq_refl
              ltac:(vm_compute; split; [reflexivity | discriminate])
              ltac:(reflexivity) ltac:(reflexivity) ltac:(vm_compute; discriminate)
              ltac:(vm_compute; split; [discriminate | reflexivity]))
    as (sw & ops' & gs & pm & pn & S & Egs & Hgs & _ & Epm & Hpm & _ & Epn & Hpn & _).
  exists sw, ops'. rewrite Egs, Epm, Epn, Hpm, Hpn, Hgs.
  split; [exact S|]. split; [reflexivity|]. split; reflexivity.
Defined.

(** ** Output strides *)

Lemma for_each_app {A S : Type} (l1 l2 : list A) (body : S -> A -> Outcome S) (s : S) :
  for_each (l1 ++ l2)%list body s = OutcomeMonad.bind (for_each l1 body s) (for_each l2 body).
Proof.
  revert s. induction l1 as [| x l1 IH]; intros s; simpl.
  - reflexivity.
  - destruct (body s x); simpl; [apply IH | reflexivity | reflexivity].
Qed.

Lemma at_Ok {A : Type} (l : list A) (i : Z) (what : string) (a : A) :
  at_ l i what = Ok a -> 0 <= i /\ nth_error l (Z.to_nat i) = Some a.
Proof.
  unfold at_. destruct (Z.ltb_spec i 0) as [Hneg | Hpos]; [discriminate|].
  destruct (nth_error l (Z.to_nat i)) eqn:E; [| discriminate].
  intros Heq. inversion Heq. subst. split; [lia | reflexivity].
Qed.

Lemma CHECK_Ok (c : bool) (what : string) (u : unit) : CHECK c what = Ok u -> c = true.
Proof. destruct c; [reflexivity | discriminate]. Qed.

Lemma to_IndexT_id (T : IndexT) (z : Z) : 0 <= z <= IndexT_max T -> to_IndexT T z = z.
Proof.
  destruct T; simpl; intros H.
  - apply to_int_id. unfold in_int. change (2 ^ 31) with 2147483648. unfold INT_MAX in *. lia.
  - apply to_int64_id. unfold in_int64. change (2 ^ 63) with 9223372036854775808.
    unfold INT64_MAX in *. lia.
Qed.

Lemma IndexT_max_int64 (T : IndexT) : IndexT_max T <= INT64_MAX.
Proof. destruct T; unfold IndexT_max, INT_MAX, INT64_MAX; lia. Qed.

Section OutputStridesProperties.

Variable T : IndexT.
Variable out_shape : Shape.
Variable config : TritonGemmKey.
Variable info : OperandInfo.

Let body := out_stride_body T out_shape config info.

(** What a successful iteration did. *)
Lemma out_stride_body_Ok (s s' : OutStrides) (d : Z) :
  body s d = Ok s' ->
  let acc := out_stride_size_accumulator s in
  0 <= d
  /\ out_stride_size_accumulator s' = to_int64 (acc * dim_size_of out_shape d)
  /\ match classify info d with
     | Some AxisN =>
         stride_out_n s' = to_IndexT T acc /\ stride_out_m s' = stride_out_m s
         /\ stride_out_split_k s' = stride_out_split_k s
         /\ stride_out_batch s' = stride_out_batch s
         /\ dim_size_of out_shape d = n info
     | Some AxisM =>
         stride_out_m s' = to_IndexT T acc /\ stride_out_n s' = stride_out_n s
         /\ stride_out_split_k s' = stride_out_split_k s
         /\ stride_out_batch s'
            = (if lhs_nc_split info then to_IndexT T (to_int64 (acc * m_minor info))
               else stride_out_batch s)
         /\ dim_size_of out_shape d = m_full info
     | Some AxisSplitK =>
         stride_out_split_k s' = to_IndexT T acc /\ stride_out_m s' = stride_out_m s
         /\ stride_out_n s' = stride_out_n s
         /\ stride_out_batch s' = stride_out_batch s
     | Some AxisBatch =>
         stride_out_batch s' = to_IndexT T acc /\ stride_out_m s' = stride_out_m s
         /\ stride_out_n s' = stride_out_n s
         /\ stride_out_split_k s' = stride_out_split_k s
     | None => False
     end.
Proof.
  unfold body, out_stride_body, classify. intros H.
  apply outcome_bind_Ok in H. destruct H as (dim_size & Eat & H).
  apply at_Ok in Eat. destruct Eat as [Hd Enth].
  assert (Esize : dim_size_of out_shape d = dim_size).
  { unfold dim_size_of. apply nth_error_nth. exact Enth. }
  apply outcome_bind_Ok in H. destruct H as (s1 & E1 & H).
  inversion H; subst s'; clear H. simpl. rewrite Esize.
  split; [exact Hd|]. split; [reflexivity|].
  destruct (d =? rhs_nc_out_idx info).
  { apply outcome_bind_Ok in E1. destruct E1 as (u & C & E1). inversion E1; subst s1.
    apply CHECK_Ok, Z.eqb_eq in C. simpl. repeat split; try reflexivity. exact C. }
  destruct (d =? lhs_nc_out_idx info).
  { apply outcome_bind_Ok in E1. destruct E1 as (u & C & E1). inversion E1; subst s1.
    apply CHECK_Ok, Z.eqb_eq in C. simpl. repeat split; try reflexivity. exact C. }
  destruct (d =? split_k_out_idx info).
  { apply outcome_bind_Ok in E1. destruct E1 as (u & C & E1). inversion E1; subst s1.
    simpl. repeat split; reflexivity. }
  destruct (d =? batch_out_idx info).
  { apply outcome_bind_Ok in E1. destruct E1 as (u & C & E1). inversion E1; subst s1.
    simpl. repeat split; reflexivity. }
  discriminate.
Qed.

(** An iteration on a dimension with no role terminates the process. *)
Lemma out_stride_body_unclassified (s : OutStrides) (d : Z) :
  classify info d = None -> is_Abort (body s d) = true.
Proof.
  intros C. destruct (body s d) as [s' | msg | msg] eqn:E.
  - apply out_stride_body_Ok in E. cbv zeta in E. rewrite C in E. tauto.
  - pose proof (not_RE_out_stride_body T out_shape config info s d) as N.
    fold body in N. rewrite E in N. discriminate.
  - reflexivity.
Qed.

Lemma out_stride_loop_unclassified (l : list Z) (s : OutStrides) (d : Z) :
  In d l -> classify info d = None -> is_Abort (for_each l body s) = true.
Proof.
  revert s. induction l as [| x l IH]; intros s Hin C; [destruct Hin|].
  simpl. destruct (body s x) as [s1 | msg | msg] eqn:E; simpl.
  - destruct Hin as [-> | Hin].
    + pose proof (out_stride_body_unclassified s d C) as A. rewrite E in A. discriminate.
    + apply IH; assumption.
  - pose proof (not_RE_out_stride_body T out_shape config info s x) as N.
    fold body in N. rewrite E in N. discriminate.
  - reflexivity.
Qed.

Lemma out_stride_body_keeps (a : Axis) (s s' : OutStrides) (d : Z) :
  body s d = Ok s' -> ~ writes info a d -> axis_stride a s' = axis_stride a s.
Proof.
  intros H N. apply out_stride_body_Ok in H. cbv zeta in H.
  destruct H as (_ & _ & H). unfold writes in N.
  destruct (classify info d) as [[ | | | ] |]; [ | | | | tauto].
  - destruct H as (_ & Hm & Hs & Hb & _).
    destruct a; simpl; try assumption. exfalso. apply N. now left.
  - destruct H as (_ & Hn & Hs & Hb & _).
    destruct a; simpl; try assumption.
    + exfalso. apply N. now left.
    + rewrite Hb. destruct (lhs_nc_split info); [| reflexivity].
      exfalso. apply N. right. repeat split.
  - destruct H as (_ & Hm & Hn & Hb).
    destruct a; simpl; try assumption. exfalso. apply N. now left.
  - destruct H as (_ & Hm & Hn & Hs).
    destruct a; simpl; try assumption. exfalso. apply N. now left.
Qed.

Lemma out_stride_loop_keeps (a : Axis) (l : list Z) (s s' : OutStrides) :
  for_each l body s = Ok s' -> (forall d, In d l -> ~ writes info a d) ->
  axis_stride a s' = axis_stride a s.
Proof.
  revert s. induction l as [| x l IH]; intros s H N; simpl in H.
  - inversion H. reflexivity.
  - apply outcome_bind_Ok in H. destruct H as (s1 & E & H).
    rewrite (IH s1 H) by (intros d Hd; apply N; now right).
    apply (out_stride_body_keeps a s s1 x E). apply N. now left.
Qed.

Lemma extent_of_app (l1 l2 : list Z) :
  extent_of out_shape (l1 ++ l2)%list = extent_of out_shape l1 * extent_of out_shape l2.
Proof.
  unfold extent_of. induction l1 as [| x l1 IH]; simpl.
  - destruct (fold_right Z.mul 1 (map (dim_size_of out_shape) l2)); reflexivity.
  - rewrite IH. ring.
Qed.

Lemma extent_of_pos (l : list Z) :
  Forall (fun d => 1 <= dim_size_of out_shape d) l -> 1 <= extent_of out_shape l.
Proof.
  unfold extent_of. induction 1 as [| x l Hx Hl IH]; simpl; [lia | nia].
Qed.

(** Without wrap-around the accumulator is the product of the sizes seen. *)
Lemma out_stride_loop_accumulator (l : list Z) (s s' : OutStrides) :
  for_each l body s = Ok s' ->
  Forall (fun d => 1 <= dim_size_of out_shape d) l ->
  1 <= out_stride_size_accumulator s ->
  out_stride_size_accumulator s * extent_of out_shape l <= INT64_MAX ->
  out_stride_size_accumulator s'
  = out_stride_size_accumulator s * extent_of out_shape l.
Proof.
  revert s. induction l as [| x l IH]; intros s H F Hacc Hmax; simpl in H.
  - inversion H. unfold extent_of. simpl. ring.
  - apply outcome_bind_Ok in H. destruct H as (s1 & E & H).
    inversion F as [| ? ? Fx Fl]; subst.
    pose proof (extent_of_pos l Fl) as Pl.
    change (extent_of out_shape (x :: l))
      with (dim_size_of out_shape x * extent_of out_shape l) in *.
    apply out_stride_body_Ok in E. cbv zeta in E. destruct E as (_ & Eacc & _).
    assert (R : out_stride_size_accumulator s1
                = out_stride_size_accumulator s * dim_size_of out_shape x).
    { rewrite Eacc. apply to_int64_id. unfold in_int64, INT64_MAX in *.
      change (2 ^ 63) with 9223372036854775808. nia. }
    rewrite (IH s1 H Fl); rewrite R; [ring | nia | ].
    replace (out_stride_size_accumulator s * dim_size_of out_shape x
             * extent_of out_shape l)
      with (out_stride_size_accumulator s
            * (dim_size_of out_shape x * extent_of out_shape l)) by ring.
    exact Hmax.
Qed.

End OutputStridesProperties.

(** What the operand analysis establishes about the roles of the output
    dimensions and about the reduction length. *)
Lemma operand_info_roles T dot_instr analysis config info :
  operand_info T dot_instr analysis config = Ok info ->
  have_split_k info = (split_k config >? 1)
  /\ split_k_out_idx info = (if have_split_k info then 0 else -1)
  /\ batch_out_idx info
     = (if have_batch info then (if have_split_k info then 1 else 0) else -1)
  /\ b2z (have_batch info) + b2z (lhs_nc_split info) <= 1
  /\ rhs_nc_out_idx info = to_int (rank (shape dot_instr) - 1)
  /\ lhs_nc_out_idx info = to_int (rank (shape dot_instr) - 2)
  /\ exists c size,
       at_ (lhs_contracting_dimensions (dot_dimension_numbers dot_instr)) 0
           "lhs_contracting_dimensions(0)" = Ok c
       /\ at_ (dimensions (operand0 dot_instr)) c "lhs contracting size" = Ok size
       /\ k info = to_int (to_int64 (size * split_k config)).
Proof.
  unfold operand_info. intros H. cbv zeta in H.
  repeat (apply outcome_bind_Ok in H;
          let x := fresh "x" in let E := fresh "E" in destruct H as (x & E & H)).
  destruct x19 as [[[bs sl] sr] mf]. inversion H; subst info; clear H. simpl.
  apply CHECK_Ok, Z.leb_le in E14.
  repeat split; try reflexivity; try exact E14.
  exists x3, x12. repeat split; assumption.
Qed.

Lemma classify_injective info (a : Axis) (d d' : Z) :
  classify info d = Some a -> classify info d' = Some a -> d = d'.
Proof.
  unfold classify. intros H H'.
  destruct (Z.eqb_spec d (rhs_nc_out_idx info));
    destruct (Z.eqb_spec d' (rhs_nc_out_idx info)); try congruence;
  destruct (Z.eqb_spec d (lhs_nc_out_idx info));
    destruct (Z.eqb_spec d' (lhs_nc_out_idx info)); try congruence;
  destruct (Z.eqb_spec d (split_k_out_idx info));
    destruct (Z.eqb_spec d' (split_k_out_idx info)); try congruence;
  destruct (Z.eqb_spec d (batch_out_idx info));
    destruct (Z.eqb_spec d' (batch_out_idx info)); congruence.
Qed.

Lemma classify_batch info (d : Z) : classify info d = Some AxisBatch -> d = batch_out_idx info.
Proof.
  unfold classify.
  destruct (d =? rhs_nc_out_idx info); [discriminate|].
  destruct (d =? lhs_nc_out_idx info); [discriminate|].
  destruct (d =? split_k_out_idx info); [discriminate|].
  destruct (Z.eqb_spec d (batch_out_idx info)); [trivial | discriminate].
Qed.

Section OutputStridesAt.

Variable T : IndexT.
Variable out_shape : Shape.
Variable config : TritonGemmKey.
Variable info : OperandInfo.

Let body := out_stride_body T out_shape config info.
Let layout := minor_to_major out_shape.

Hypothesis layout_nodup : NoDup layout.
Hypothesis sizes_positive : Forall (fun d => 1 <= dim_size_of out_shape d) layout.
Hypothesis extent_fits : extent_of out_shape layout <= IndexT_max T.

Lemma for_each_nonneg (l : list Z) (s s' : OutStrides) :
  for_each l body s = Ok s' -> Forall (fun d => 0 <= d) l.
Proof.
  revert s. induction l as [| x l IH]; intros s H; [constructor|].
  simpl in H. apply outcome_bind_Ok in H. destruct H as (s1 & E & H).
  constructor; [| exact (IH s1 H)].
  apply (out_stride_body_Ok T out_shape config info) in E. cbv zeta in E. tauto.
Qed.

Lemma out_stride_loop_keeps_nonneg (a : Axis) (l : list Z) (s s' : OutStrides) :
  for_each l body s = Ok s' -> (forall d, In d l -> 0 <= d -> ~ writes info a d) ->
  axis_stride a s' = axis_stride a s.
Proof.
  intros H N. apply (out_stride_loop_keeps T out_shape config info a l s s' H).
  intros d Hd. apply N; [exact Hd|].
  pose proof (for_each_nonneg l s s' H) as F. rewrite Forall_forall in F. now apply F.
Qed.

(** The loop split at position [j] of the layout: the state before the
    iteration on the dimension at [j], and the state after it. *)
Lemma out_stride_loop_split (s : OutStrides) (j : nat) (d : Z) :
  out_stride_loop T out_shape config info = Ok s ->
  nth_error layout j = Some d ->
  exists s1 s2,
    out_stride_size_accumulator s1 = minor_extent out_shape j
    /\ 1 <= minor_extent out_shape j
    /\ minor_extent out_shape j * dim_size_of out_shape d <= IndexT_max T
    /\ body s1 d = Ok s2
    /\ (forall a, writes info a d ->
        (forall d', writes info a d' -> 0 <= d' -> d' = d) ->
        axis_stride a s = axis_stride a s2).
Proof.
  unfold out_stride_loop. fold layout body. intros H Hnth.
  destruct (nth_error_split layout j Hnth) as (l1 & l2 & El & Hlen).
  assert (Efirst : firstn j layout = l1).
  { rewrite El, <- Hlen. rewrite firstn_app, Nat.sub_diag, firstn_all. simpl.
    apply app_nil_r. }
  unfold minor_extent. fold layout. rewrite Efirst.
  rewrite El in H, sizes_positive, extent_fits, layout_nodup.
  rewrite for_each_app in H. apply outcome_bind_Ok in H. destruct H as (s1 & E1 & H).
  simpl in H. apply outcome_bind_Ok in H. destruct H as (s2 & E2 & H).
  apply Forall_app in sizes_positive. destruct sizes_positive as [F1 F2].
  inversion F2 as [| ? ? Fd F2']; subst.
  pose proof (extent_of_pos out_shape l1 F1) as P1.
  pose proof (extent_of_pos out_shape l2 F2') as P2.
  rewrite extent_of_app in extent_fits.
  change (extent_of out_shape (d :: l2))
    with (dim_size_of out_shape d * extent_of out_shape l2) in extent_fits.
  pose proof (IndexT_max_int64 T) as M.
  assert (B : extent_of out_shape l1 * dim_size_of out_shape d <= IndexT_max T) by nia.
  exists s1, s2. split; [| split; [exact P1 | split; [exact B | split; [exact E2 |]]]].
  - assert (I1 : out_stride_size_accumulator init_out_strides = 1) by reflexivity.
    rewrite (out_stride_loop_accumulator T out_shape config info l1 _ s1 E1 F1);
      rewrite I1; unfold INT64_MAX in *; lia.
  - intros a Wd Uniq. apply (out_stride_loop_keeps_nonneg a l2 s2 s H).
    intros d' Hin Hpos W'. apply Uniq in W'; [| exact Hpos]. subst d'.
    apply NoDup_remove_2 in layout_nodup. apply layout_nodup.
    apply in_or_app. now right.
Qed.

End OutputStridesAt.

Lemma output_strides_Ok T out_shape config info s :
  output_strides T out_shape config info = Ok s ->
  out_stride_loop T out_shape config info = Ok s
  /\ 1 <= stride_out_m s /\ 1 <= stride_out_n s
  /\ (have_split_k info = true -> 1 < stride_out_split_k s)
  /\ (have_batch info || lhs_nc_split info = true -> 1 < stride_out_batch s).
Proof.
  unfold output_strides. intros H.
  apply outcome_bind_Ok in H. destruct H as (s0 & L & H).
  apply outcome_bind_Ok in H. destruct H as (u1 & Cm & H).
  apply outcome_bind_Ok in H. destruct H as (u2 & Cn & H).
  apply outcome_bind_Ok in H. destruct H as (u3 & Cs & H).
  apply outcome_bind_Ok in H. destruct H as (u4 & Cb & H).
  inversion H; subst s0; clear H.
  apply CHECK_Ok in Cm, Cn. rewrite Z.geb_le in Cm, Cn.
  split; [exact L|]. split; [lia|]. split; [lia|]. split.
  - intros E. rewrite E in Cs. apply CHECK_Ok in Cs. rewrite Z.gtb_ltb in Cs.
    apply Z.ltb_lt in Cs. exact Cs.
  - intros E. rewrite E in Cb. apply CHECK_Ok in Cb. rewrite Z.gtb_ltb in Cb.
    apply Z.ltb_lt in Cb. exact Cb.
Qed.

Section OutputStridesTheorem.

Variable analyze : HloDotInstruction -> Z -> DotFusionAnalysis.

(** C8.  For an input that passes the checks of the analysis, the m and n
    strides are at least 1, the split-K and batch strides exceed 1 when these
    axes exist, every dimension of the output layout has one of the four
    roles, and (the layout being duplicate-free, the sizes positive and the
    element count within the index range) the stride of each axis is the
    product of the sizes of the dimensions laid out before it, the batch
    stride of a split LHS non-contracting dimension being the m stride times
    the length of the minor part; the split-K and batch axes are never first
    in the layout.  A dimension of the layout without a role terminates the
    process: the analysis is then neither successful nor ResourceExhausted. *)
Theorem C8_output_strides :
  (forall T dot_instr config p,
      preamble analyze T dot_instr config = Ok p ->
      let out := shape dot_instr in
      let info := p_info p in
      let s := p_strides p in
      1 <= stride_out_m s /\ 1 <= stride_out_n s
      /\ (have_split_k info = true -> 1 < stride_out_split_k s)
      /\ (have_batch info = true \/ lhs_nc_split info = true -> 1 < stride_out_batch s)
      /\ (forall d, In d (minor_to_major out) -> classify info d <> None)
      /\ (NoDup (minor_to_major out) ->
          Forall (fun d => 1 <= dim_size_of out d) (minor_to_major out) ->
          extent_of out (minor_to_major out) <= IndexT_max T ->
          forall j d a,
            nth_error (minor_to_major out) j = Some d ->
            classify info d = Some a ->
            axis_stride a s = minor_extent out j
            /\ (a = AxisM -> lhs_nc_split info = true ->
                0 <= m_minor info <= m_full info ->
                stride_out_batch s = minor_extent out j * m_minor info)
            /\ (a = AxisSplitK \/ a = AxisBatch -> j <> O)))
  /\ (forall T dot_instr config info d,
         operand_info T dot_instr (analyze dot_instr (split_k config)) config = Ok info ->
         In d (minor_to_major (shape dot_instr)) ->
         classify info d = None ->
         is_Abort (preamble analyze T dot_instr config) = true).
Proof.
  split.
  - intros T dot_instr config p P out info s.
    destruct (preamble_Ok analyze T dot_instr config p P) as (Ei & Es & _ & _).
    fold info s out in Ei, Es.
    destruct (operand_info_roles _ _ _ _ _ Ei)
      as (_ & Rsplit & Rbatch & Rexcl & _ & _ & _).
    destruct (output_strides_Ok _ _ _ _ _ Es) as (L & Cm & Cn & Cs & Cb).
    assert (Cb' : have_batch info = true \/ lhs_nc_split info = true ->
                  1 < stride_out_batch s).
    { intros H. apply Cb. apply orb_true_iff. exact H. }
    split; [exact Cm|]. split; [exact Cn|]. split; [exact Cs|]. split; [exact Cb'|].
    split.
    + intros d Hin Hnone.
      pose proof (out_stride_loop_unclassified T out config info _ init_out_strides d
                    Hin Hnone) as A.
      unfold out_stride_loop in L. rewrite L in A. discriminate.
    + intros Hnd Hpos Hfit j d a Hnth Hcl.
      destruct (out_stride_loop_split T out config info Hnd Hpos Hfit s j d L Hnth)
        as (s1 & s2 & Eacc & Hext1 & Hext & Ebody & Hkeep).
      pose proof (out_stride_body_Ok T out config info s1 s2 d Ebody) as B.
      cbv zeta in B. destruct B as (Hd0 & _ & B). rewrite Hcl, Eacc in B.
      assert (Hsz : 1 <= dim_size_of out d).
      { rewrite Forall_forall in Hpos. apply Hpos. eapply nth_error_In. exact Hnth. }
      assert (Rext : to_IndexT T (minor_extent out j) = minor_extent out j).
      { apply to_IndexT_id. nia. }
      assert (Hbatch_idx : a = AxisBatch -> have_batch info = true
                                            /\ lhs_nc_split info = false).
      { intros ->. apply classify_batch in Hcl.
        destruct (have_batch info); [| lia].
        split; [reflexivity|].
        destruct (lhs_nc_split info); [simpl in Rexcl; lia | reflexivity]. }
      assert (Hstride : axis_stride a s = minor_extent out j).
      { rewrite (Hkeep a).
        - destruct a; simpl; destruct B as (B & _); rewrite B; exact Rext.
        - left. exact Hcl.
        - intros d' [W | (-> & WM & Hsplit)] _.
          + exact (classify_injective info a d' d W Hcl).
          + destruct (Hbatch_idx eq_refl) as [_ F]. congruence. }
      split; [exact Hstride|]. split.
      * intros -> Hsplit Hmm. destruct B as (_ & _ & _ & Bb & Bsize).
        rewrite Hsplit in Bb.
        assert (Hnb : have_batch info = false).
        { destruct (have_batch info); [rewrite Hsplit in Rexcl; simpl in Rexcl; lia
                                      | reflexivity]. }
        change (stride_out_batch s) with (axis_stride AxisBatch s).
        rewrite (Hkeep AxisBatch).
        -- simpl. rewrite Bb. pose proof (IndexT_max_int64 T) as M.
           rewrite <- Bsize in Hmm.
           rewrite to_int64_id.
           2:{ unfold in_int64, INT64_MAX in *.
               change (2 ^ 63) with 9223372036854775808. nia. }
           apply to_IndexT_id. nia.
        -- right. repeat split; assumption.
        -- intros d' [W | (_ & WM & _)] Hpos'.
           ++ apply classify_batch in W. rewrite Rbatch, Hnb in W. lia.
           ++ exact (classify_injective info AxisM d' d WM Hcl).
      * intros Hax Hj. subst j.
        assert (E0 : minor_extent out 0 = 1) by reflexivity.
        rewrite E0 in Hstride.
        destruct Hax as [-> | ->]; simpl in Hstride.
        -- assert (Hs : have_split_k info = true).
           { destruct (have_split_k info); [reflexivity|].
             unfold classify in Hcl.
             destruct (d =? rhs_nc_out_idx info); [discriminate|].
             destruct (d =? lhs_nc_out_idx info); [discriminate|].
             destruct (Z.eqb_spec d (split_k_out_idx info)); [lia|].
             destruct (d =? batch_out_idx info); discriminate. }
           specialize (Cs Hs). lia.
        -- destruct (Hbatch_idx eq_refl) as [Hb _].
           specialize (Cb' (or_introl Hb)). lia.
  - intros T dot_instr config info d Ei Hin Hnone.
    unfold preamble. rewrite Ei. simpl.
    assert (A : is_Abort (output_strides T (shape dot_instr) config info) = true).
    { unfold output_strides.
      pose proof (out_stride_loop_unclassified T (shape dot_instr) config info _
                    init_out_strides d Hin Hnone) as A.
      unfold out_stride_loop.
      destruct (for_each (minor_to_major (shape dot_instr))
                         (out_stride_body T (shape dot_instr) config info)
                         init_out_strides); simpl in *; congruence. }
    destruct (output_strides T (shape dot_instr) config info); simpl in *; congruence.
Qed.

End OutputStridesTheorem.

Lemma C8_output_strides_witness :
  match preamble Examples.dense_analysis int32_t Examples.dot_batch_10
                 Examples.config_16 with
  | Ok p =>
      stride_out_n (p_strides p) = 1 /\ stride_out_m (p_strides p) = 16
      /\ stride_out_batch (p_strides p) = 1280
  | _ => False
  end
  /\ is_Abort (preamble Examples.dense_analysis int32_t Examples.dot_extra_output_dim
                        Examples.config_16) = true.
Proof.
  split.
  - destruct (preamble Examples.dense_analysis int32_t Examples.dot_batch_10
                       Examples.config_16) as [p | msg | msg] eqn:P.
    + pose proof (proj1 (C8_output_strides Examples.dense_analysis) _ _ _ p P) as H.
      cbv zeta in H. destruct H as (_ & _ & _ & _ & _ & H).
      vm_compute in P. inversion P as [P']. subst p. clear P.
      assert (Hnd : NoDup (minor_to_major (shape Examples.dot_batch_10))).
      { repeat constructor; simpl; intuition discriminate. }
      assert (Hpos : Forall (fun d => 1 <= dim_size_of (shape Examples.dot_batch_10) d)
                            (minor_to_major (shape Examples.dot_batch_10))).
      { repeat constructor; vm_compute; discriminate. }
      specialize (H Hnd Hpos ltac:(vm_compute; discriminate)).
      split; [| split].
      * exact (proj1 (H 0%nat 2 AxisN eq_refl eq_refl)).
      * exact (proj1 (H 1%nat 1 AxisM eq_refl eq_refl)).
      * exact (proj1 (H 2%nat 0 AxisBatch eq_refl eq_refl)).
    + vm_compute in P. discriminate P.
    + vm_compute in P. discriminate P.
  - eapply (proj2 (C8_output_strides Examples.dense_analysis) int32_t
                  Examples.dot_extra_output_dim Examples.config_16 _ 0).
    + vm_compute. reflexivity.
    + simpl. tauto.
    + reflexivity.
Defined.

(** ** Reasoning on what a builder appends *)

Section Emits.
Import BuilderMonad.

Variable P : Operation -> Prop.

Lemma emits_ret {A : Type} (a : A) (R : A -> Prop) : R a -> emits P (ret a) R.
Proof.
  intros HR ops a' ops' H. inversion H; subst. exists []. rewrite app_nil_r.
  repeat split; [constructor | exact HR].
Qed.

Lemma emits_create (v : Value) (R : Value -> Prop) :
  P (Def v) -> R v -> emits P (create v) R.
Proof.
  intros HP HR ops a ops' H. inversion H; subst. exists [Def a].
  repeat split; [constructor; [exact HP | constructor] | exact HR].
Qed.

Lemma emits_emit (o : Operation) (R : unit -> Prop) : P o -> R tt -> emits P (emit o) R.
Proof.
  intros HP HR ops a ops' H. inversion H; subst. exists [o].
  repeat split; [constructor; [exact HP | constructor] | exact HR].
Qed.

Lemma emits_lift {A : Type} (o : Outcome A) (R : A -> Prop) :
  (forall a, o = Ok a -> R a) -> emits P (lift o) R.
Proof.
  intros HR ops a ops' H. inversion H; subst. exists []. rewrite app_nil_r.
  repeat split; [constructor | now apply HR].
Qed.

Lemma emits_bind {A B : Type} (m : Builder A) (f : A -> Builder B)
    (R1 : A -> Prop) (R2 : B -> Prop) :
  emits P m R1 -> (forall a, R1 a -> emits P (f a) R2) -> emits P (bind m f) R2.
Proof.
  intros Hm Hf ops b ops' H. apply bind_Ok in H. destruct H as (a & ops1 & E & H).
  destruct (Hm _ _ _ E) as (new1 & -> & F1 & Ra).
  destruct (Hf a Ra _ _ _ H) as (new2 & -> & F2 & Rb).
  exists (new1 ++ new2)%list. rewrite app_assoc.
  repeat split; [apply Forall_app; split; assumption | exact Rb].
Qed.


Lemma emits_CreateConst (ty : Ty) (v : Z) :
  P (Def (ConstantOp ty v)) -> emits P (CreateConst ty v) (eq (ConstantOp ty v)).
Proof.
  intros HP. unfold CreateConst.
  destruct (isIntegerType ty); [now apply emits_create|].
  destruct (isFloatType ty); [now apply emits_create|].
  apply emits_lift. discriminate.
Qed.

Lemma emits_CreateConstTensor (ty : Ty) (v : Z) (shape : list Z) :
  P (Def (ConstantOp (RankedTensorType shape ty) v)) ->
  emits P (CreateConstTensor ty v shape) (eq (ConstantOp (RankedTensorType shape ty) v)).
Proof.
  intros HP. unfold CreateConstTensor.
  destruct (isIntegerType ty); [now apply emits_create|].
  destruct (isFloatType ty); [now apply emits_create|].
  apply emits_lift. discriminate.
Qed.

Lemma emits_Cast (v : Value) (ty : Ty) :
  (forall t x, P (Def (ExtFOp t x))) -> (forall t x, P (Def (TruncFOp t x))) ->
  (forall t x, P (Def (SIToFPOp t x))) -> (forall t x, P (Def (FPToSIOp t x))) ->
  emits P (Cast v ty) (fun _ => True).
Proof.
  intros H1 H2 H3 H4. unfold Cast.
  repeat match goal with
         | |- emits _ (if ?c then _ else _) _ => destruct c
         | |- emits _ (bind _ _) _ =>
             apply (emits_bind _ _ (fun _ => True)); [| intros ? _]
         | |- emits _ (create _) _ => apply emits_create; [auto | exact I]
         | |- emits _ (ret _) _ => apply emits_ret; exact I
         | |- emits _ (lift _) _ => apply emits_lift; discriminate
         end.
Qed.

End Emits.

(** One step of symbolic execution of a builder under [emits]; [solve_P]
    proves that the operation created by the step satisfies the property. *)
Ltac emits_step solve_P :=
  cbv beta;
  match goal with
  | |- emits _ (BuilderMonad.bind (BuilderMonad.create ?v) _) _ =>
      apply (emits_bind _ _ _ (eq v));
      [apply emits_create; [solve_P | reflexivity] | intros ? <-]
  | |- emits _ (BuilderMonad.bind (CreateConst ?ty ?v) _) _ =>
      apply (emits_bind _ _ _ (eq (ConstantOp ty v)));
      [apply emits_CreateConst; solve_P | intros ? <-]
  | |- emits _ (BuilderMonad.bind (CreateConstTensor ?ty ?v ?sh) _) _ =>
      apply (emits_bind _ _ _ (eq (ConstantOp (RankedTensorType sh ty) v)));
      [apply emits_CreateConstTensor; solve_P | intros ? <-]
  | |- emits _ (BuilderMonad.bind (BuilderMonad.ret ?a) _) _ =>
      apply (emits_bind _ _ _ (eq a)); [apply emits_ret; reflexivity | intros ? <-]
  | |- emits _ (BuilderMonad.bind (BuilderMonad.emit ?o) _) _ =>
      apply (emits_bind _ _ _ (fun _ => True));
      [apply emits_emit; [solve_P | exact I] | intros ? _]
  | |- emits _ (BuilderMonad.bind (Cast _ _) _) _ =>
      apply (emits_bind _ _ _ (fun _ => True));
      [apply emits_Cast; intros; solve_P | intros ? _]
  | |- emits _ (BuilderMonad.bind (BuilderMonad.lift ?o) _) _ =>
      apply (emits_bind _ _ _ (fun a => o = Ok a));
      [apply emits_lift; trivial | intros ? ?]
  | |- emits _ (BuilderMonad.create _) _ => apply emits_create; [solve_P | ]
  | |- emits _ (BuilderMonad.emit _) _ => apply emits_emit; [solve_P | ]
  | |- emits _ (BuilderMonad.ret _) _ => apply emits_ret
  | |- emits _ (Cast _ _) _ => apply emits_Cast; intros; solve_P
  end.

(** ** The reduction loop *)

Section EvalShape.

Variable e : Instance.

Lemma eval_at_splat ty v idx : eval_at e (SplatOp ty v) idx = eval_at e v [].
Proof. reflexivity. Qed.

Lemma eval_at_expand v axis idx :
  eval_at e (ExpandDimsOp v axis) idx = eval_at e v (remove_nth (Z.to_nat axis) idx).
Proof. reflexivity. Qed.

Lemma eval_at_broadcast ty v idx :
  eval_at e (BroadcastOp ty v) idx
  = eval_at e v (broadcast_index idx (getShape (getType v))).
Proof. reflexivity. Qed.

Lemma eval_at_range ty s en i :
  0 <= i -> s + i < en -> eval_at e (MakeRangeOp ty s en) [i] = Some (s + i).
Proof.
  intros Hi Hlt. simpl. destruct (Z.leb_spec 0 i); [| lia].
  destruct (Z.ltb_spec (s + i) en); [reflexivity | lia].
Qed.


End EvalShape.

Ltac unfold_builders :=
  unfold build_splat, build_range, build_bcast, build_addptr, convert_scalar,
    convert_range.

Section Grows.

Let anything : Operation -> Prop := fun _ => True.

Lemma program_ids_emits info :
  emits anything (program_ids info)
        (fun ids => pid_k ids = GetProgramIdOp ProgramIDDim_Z
                    /\ getType (pid_batch ids) = I32Type
                    /\ getType (pid_nc ids) = I32Type).
Proof.
  unfold program_ids. repeat emits_step ltac:(exact I).
  simpl. destruct (large_batch info); repeat split.
Qed.

Lemma swizzle_emits tile ids :
  pid_k ids = GetProgramIdOp ProgramIDDim_Z ->
  emits anything (swizzle tile ids)
        (fun sw => range_k sw
                   = AddIOp (SplatOp (RankedTensorType [t_block_k tile] I32Type)
                                     (MulIOp (GetProgramIdOp ProgramIDDim_Z)
                                             (ConstantOp I32Type (t_block_k tile))))
                            (MakeRangeOp (RankedTensorType [t_block_k tile] I32Type) 0
                                         (t_block_k tile))).
Proof.
  intros Hk. unfold swizzle, i32_ty. unfold_builders.
  repeat emits_step ltac:(exact I). simpl. rewrite Hk. reflexivity.
Qed.

Lemma lhs_pointers_emits T info tile lhs ids sw :
  emits anything (lhs_pointers T info tile lhs ids sw)
        (fun ptrs => getType ptrs = RankedTensorType (shape_m_k tile) (getType lhs)).
Proof.
  unfold lhs_pointers. unfold_builders. destruct T; cbv iota;
    repeat emits_step ltac:(exact I); reflexivity.
Qed.

Lemma rhs_pointers_emits T info tile rhs ids sw :
  emits anything (rhs_pointers T info tile rhs ids sw)
        (fun ptrs => getType ptrs = RankedTensorType (shape_k_n tile) (getType rhs)).
Proof.
  unfold rhs_pointers. unfold_builders. destruct T; cbv iota;
    repeat emits_step ltac:(exact I); reflexivity.
Qed.


End Grows.

Lemma create_Ok v ops a ops' :
  BuilderMonad.create v ops = (Ok a, ops') -> a = v /\ ops' = (ops ++ [Def v])%list.
Proof. unfold BuilderMonad.create. intros H. injection H as <- <-. split; reflexivity. Qed.

Lemma emit_Ok o ops u ops' :
  BuilderMonad.emit o ops = (Ok u, ops') -> ops' = (ops ++ [o])%list.
Proof. unfold BuilderMonad.emit. intros H. injection H as _ <-. reflexivity. Qed.

Lemma CreateConstTensor_Ok ty v sh ops a ops' :
  CreateConstTensor ty v sh ops = (Ok a, ops') ->
  a = ConstantOp (RankedTensorType sh ty) v /\ ops' = (ops ++ [Def a])%list.
Proof.
  unfold CreateConstTensor.
  destruct (isIntegerType ty);
    [intros H; apply create_Ok in H; destruct H as [-> ->]; split; reflexivity|].
  destruct (isFloatType ty);
    [intros H; apply create_Ok in H; destruct H as [-> ->]; split; reflexivity|].
  discriminate.
Qed.

Lemma CreateConst_Ok ty v ops a ops' :
  CreateConst ty v ops = (Ok a, ops') ->
  a = ConstantOp ty v /\ ops' = (ops ++ [Def a])%list.
Proof.
  unfold CreateConst.
  destruct (isIntegerType ty);
    [intros H; apply create_Ok in H; destruct H as [-> ->]; split; reflexivity|].
  destruct (isFloatType ty);
    [intros H; apply create_Ok in H; destruct H as [-> ->]; split; reflexivity|].
  discriminate.
Qed.

Lemma in_new_block_Ok {A : Type} (m : Builder A) ops r ops' :
  BuilderMonad.in_new_block m ops = (Ok r, ops') ->
  m [] = (Ok (fst r), snd r) /\ ops' = ops.
Proof.
  unfold BuilderMonad.in_new_block.
  destruct (m []) as [[a | msg | msg] body]; intros H; try discriminate.
  injection H as <- <-. split; reflexivity.
Qed.

(** One step of a successful run: the operation created and the new block. *)
Ltac run_step H :=
  let a := fresh "v" in
  let ops1 := fresh "ops" in
  let E := fresh "E" in
  apply bind_Ok in H; destruct H as (a & ops1 & E & H);
  first [ apply create_Ok in E; destruct E as [-> ->]
        | apply CreateConstTensor_Ok in E; destruct E as [-> ->]
        | apply CreateConst_Ok in E; destruct E as [-> ->]
        | apply emit_Ok in E; subst ops1 ].

Section ReductionLoop.

Variable T : IndexT.
Variable tf : bool.
Variable config : TritonGemmKey.
Variable info : OperandInfo.
Variable tile : Tiling.





Lemma dot_ty_float (a b : Ty) : isFloatType (dot_ty a b) = true.
Proof. destruct (dot_ty_choices a b) as [-> | [-> | ->]]; reflexivity. Qed.




(** A successful run of the loop construction. *)
Lemma reduction_loop_Ok lhs_ptrs_base rhs_ptrs_base acc_init sw ops acc_final ops' :
  reduction_loop T tf config info tile lhs_ptrs_base rhs_ptrs_base acc_init sw ops
  = (Ok acc_final, ops') ->
  let lowerBound := ConstantIntOp 0 32 in
  let upperBound := ConstantIntOp (k info) 32 in
  let step := ConstantIntOp (loop_step config tile) 32 in
  let inits := [lhs_ptrs_base; rhs_ptrs_base; acc_init] in
  exists body,
    body_builder T tf config info tile (range_k sw) (BlockArgument 0 (IntegerType 32))
                 [BlockArgument 1 (getType lhs_ptrs_base);
                  BlockArgument 2 (getType rhs_ptrs_base);
                  BlockArgument 3 (getType acc_init)] [] = (Ok tt, body)
    /\ ops' = (ops ++ [Def lowerBound; Def upperBound; Def step;
                       ForOp lowerBound upperBound step inits body])%list
    /\ acc_final = ForOpResult lowerBound upperBound step inits body 2.
Proof.
  intros H. unfold reduction_loop in H.
  run_step H. run_step H. run_step H.
  unfold body_arguments in H.
  cbn [List.length seq combine map] in H.
  change (getType (ConstantIntOp 0 32)) with (IntegerType 32) in H.
  bind_step H r Er. apply in_new_block_Ok in Er. destruct Er as [Er ->].
  run_step H. unfold BuilderMonad.ret in H. injection H as <- <-.
  destruct r as [[] body]. simpl in *. exists body.
  split; [exact Er|]. split; [| reflexivity].
  repeat rewrite <- app_assoc. reflexivity.
Qed.

End ReductionLoop.

Section MaskMeaning.

Variable e : Instance.
Variables bm bn bk kk : Z.


Let elements_in_tile : Value :=
  SubIOp (ConstantOp I32Type kk) (BlockArgument 0 (IntegerType 32)).

Hypothesis block_k_min : 16 <= bk.
Hypothesis block_k_int : in_int bk.
Hypothesis k_int : in_int kk.


End MaskMeaning.



Section ReductionLoopTheorem.

Variable analyze : HloDotInstruction -> Z -> DotFusionAnalysis.
Variable W : Z.
Variable tf : bool.


End ReductionLoopTheorem.


(** ** Index type of the address offsets *)




Section Offsets.

Variable T : IndexT.
Variable info : OperandInfo.
Variable tile : Tiling.











End Offsets.

Section IndexWidthTheorem.

Variable analyze : HloDotInstruction -> Z -> DotFusionAnalysis.
Variable W : Z.
Variable tf : bool.


End IndexWidthTheorem.

(** ** Conversions *)

Lemma TritonType_scalar (t : PrimitiveType) (ty : Ty) :
  TritonType t = Ok ty -> is_scalar_type ty = true.
Proof. destruct t; simpl; intros H; try discriminate; injection H as <-; reflexivity. Qed.

Lemma shape_eqb_refl (s : list Z) : shape_eqb s s = true.
Proof. induction s as [| x s IH]; simpl; [reflexivity|]. rewrite Z.eqb_refl. exact IH. Qed.

Lemma shape_eqb_eq (a b : list Z) : shape_eqb a b = true -> a = b.
Proof.
  revert b. induction a as [| x a IH]; destruct b as [| y b]; simpl; intros E;
    try discriminate; try reflexivity.
  apply andb_prop in E. destruct E as [E E']. apply Z.eqb_eq in E. subst.
  f_equal. now apply IH.
Qed.

Lemma Ty_eqb_refl (t : Ty) : Ty_eqb t t = true.
Proof.
  induction t; simpl; try reflexivity.
  - apply Z.eqb_refl.
  - exact IHt.
  - rewrite shape_eqb_refl. exact IHt.
Qed.

Lemma Ty_eqb_eq (a b : Ty) : Ty_eqb a b = true -> a = b.
Proof.
  revert b. induction a; destruct b; simpl; intros E; try discriminate; try reflexivity.
  - apply Z.eqb_eq in E. now subst.
  - f_equal. now apply IHa.
  - apply andb_prop in E. destruct E as [E1 E2]. f_equal.
    + now apply shape_eqb_eq.
    + now apply IHa.
Qed.

Lemma with_element_type_self (t : Ty) : with_element_type t (getElementType t) = t.
Proof. destruct t; reflexivity. Qed.

Lemma with_element_type_idem (t dst : Ty) :
  is_scalar_type dst = true ->
  with_element_type (with_element_type t dst) dst = with_element_type t dst.
Proof. intros H. destruct t; simpl; try reflexivity; destruct dst; try discriminate; reflexivity. Qed.

Lemma getElementType_with (t dst : Ty) :
  is_scalar_type dst = true -> getElementType (with_element_type t dst) = dst.
Proof. intros H. destruct t; simpl; try reflexivity; destruct dst; try discriminate; reflexivity. Qed.

Lemma getShape_with (t dst : Ty) :
  is_scalar_type dst = true -> getShape (with_element_type t dst) = getShape t.
Proof. intros H. destruct t; simpl; try reflexivity; destruct dst; try discriminate; reflexivity. Qed.

(** A successful [Cast] that is not the identity has a scalar destination
    type, and its result has that element type and the shape of the source. *)
Lemma Cast_result (v : Value) (dst : Ty) ops v' ops' :
  Cast v dst ops = (Ok v', ops') ->
  (v' = v /\ ops' = ops /\ getType v = with_element_type (getType v) dst)
  \/ (is_scalar_type dst = true /\ getType v' = with_element_type (getType v) dst).
Proof.
  unfold Cast. intros H.
  destruct (Ty_eqb (getType v) (with_element_type (getType v) dst)) eqn:Eq.
  - left. unfold BuilderMonad.ret in H. injection H as <- <-.
    split; [reflexivity|]. split; [reflexivity|]. now apply Ty_eqb_eq.
  - right. unfold is_scalar_type.
    destruct (isFloatType (getElementType (getType v))) eqn:Fs;
      destruct (isFloatType dst) eqn:Fd; simpl in H.
    + split; [reflexivity|].
      destruct ((isF16 (getElementType (getType v)) && isBF16 dst)
                || (isBF16 (getElementType (getType v)) && isF16 dst)).
      * apply bind_Ok in H. destruct H as (a & ops1 & _ & H).
        unfold BuilderMonad.create in H. injection H as <- _. reflexivity.
      * destruct (getFPMantissaWidth (getElementType (getType v))
                  >? getFPMantissaWidth dst);
          unfold BuilderMonad.create in H; injection H as <- _; reflexivity.
    + destruct (isIntegerType (getElementType (getType v))); simpl in H.
      * destruct (isIntegerType dst); [| discriminate].
        split; [reflexivity|]. unfold BuilderMonad.create in H. injection H as <- _.
        reflexivity.
      * destruct (isIntegerType dst); [| discriminate].
        split; [reflexivity|]. unfold BuilderMonad.create in H. injection H as <- _.
        reflexivity.
    + split; [reflexivity|].
      destruct (isIntegerType (getElementType (getType v))); simpl in H.
      * unfold BuilderMonad.create in H. injection H as <- _. reflexivity.
      * destruct (isIntegerType dst); discriminate.
    + destruct (isIntegerType (getElementType (getType v))); simpl in H;
        destruct (isIntegerType dst); discriminate.
Qed.

(** X1.  Casting a value to the element type it already has gives the value
    back and creates nothing; and [Cast] is idempotent: casting the result of a
    successful cast to the same type again is the identity. *)
Theorem Cast_idempotent (v : Value) (dst : Ty) (ops : list Operation) :
  Cast v (getElementType (getType v)) ops = (Ok v, ops)
  /\ forall v' ops', Cast v dst ops = (Ok v', ops') -> Cast v' dst ops' = (Ok v', ops').
Proof.
  split.
  - unfold Cast. rewrite with_element_type_self, Ty_eqb_refl. reflexivity.
  - intros v' ops' H. apply Cast_result in H.
    destruct H as [(-> & -> & E) | (S & E)].
    + unfold Cast. rewrite <- E, Ty_eqb_refl. reflexivity.
    + unfold Cast. rewrite E, (with_element_type_idem _ _ S), Ty_eqb_refl. reflexivity.
Qed.

Lemma Cast_idempotent_witness :
  exists v' ops',
    Cast (FuncArgument 0 (RankedTensorType [16; 16] F16Type)) BF16Type [] = (Ok v', ops')
    /\ List.length ops' = 2%nat
    /\ Cast v' BF16Type ops' = (Ok v', ops').
Proof.
  eexists. eexists. split; [reflexivity|]. split; [reflexivity|].
  apply (proj2 (Cast_idempotent (FuncArgument 0 (RankedTensorType [16; 16] F16Type))
                                BF16Type [])).
  reflexivity.
Defined.

(** X2.  Every operation a successful [Cast] creates is a well-formed
    conversion, and there are at most two of them:
    a truncation goes to a strictly narrower float type, an extension to a
    strictly wider one (f16 <-> bf16, which have the same width, goes through
    f32), [sitofp] takes integers and [fptosi] floats, and every one of them
    keeps the shape of its operand. *)
Theorem Cast_creates_valid_conversions (v : Value) (dst : Ty) ops v' ops' :
  Cast v dst ops = (Ok v', ops') ->
  exists new,
    ops' = (ops ++ new)%list
    /\ (List.length new <= 2)%nat
    /\ forallb is_valid_conversion new = true
    /\ (new = [] -> v' = v)
    /\ (new <> [] -> In (Def v') new).
Proof.
  unfold Cast. intros H.
  destruct (Ty_eqb (getType v) (with_element_type (getType v) dst)) eqn:Eq.
  { unfold BuilderMonad.ret in H. injection H as <- <-. exists [].
    rewrite app_nil_r. repeat split; try reflexivity; try (simpl; lia). congruence. }
  assert (R : forall s, shape_eqb s s = true) by apply shape_eqb_refl.
  destruct (getType v) as [| | | | w | p | s e] eqn:Tv; cbn in H, Eq;
    try (destruct e; cbn in H, Eq); destruct dst; cbn in H, Eq;
    rewrite ?R in Eq; try discriminate;
    unfold BuilderMonad.bind, BuilderMonad.create in H; injection H as <- <-;
    eexists; rewrite <- ?app_assoc; (split; [reflexivity|]);
    (split; [simpl; lia|]);
    (split; [cbn; rewrite ?Tv; cbn; rewrite ?R; reflexivity
            | split; [discriminate | intros _; simpl; tauto]]).
Qed.

Lemma Cast_creates_valid_conversions_witness :
  exists v' new,
    Cast (FuncArgument 0 (RankedTensorType [16; 32] BF16Type)) F16Type [] = (Ok v', new)
    /\ new = [Def (ExtFOp (RankedTensorType [16; 32] F32Type)
                          (FuncArgument 0 (RankedTensorType [16; 32] BF16Type)));
              Def v']
    /\ forallb is_valid_conversion new = true.
Proof.
  destruct (Cast (FuncArgument 0 (RankedTensorType [16; 32] BF16Type)) F16Type [])
    as [[v' | msg | msg] ops'] eqn:E.
  - destruct (Cast_creates_valid_conversions _ _ _ _ _ E) as (new & Hnew & _ & Hvalid & _).
    simpl in Hnew. subst ops'. exists v', new. split; [reflexivity|].
    split; [| exact Hvalid]. vm_compute in E. injection E as <- <-. reflexivity.
  - vm_compute in E. discriminate E.
  - vm_compute in E. discriminate E.
Defined.

(** X3.  [Cast] converts between floats, and between integers and floats, but
    never between two different integer types: such a cast, of a scalar or of
    a tensor, terminates the process, and creates no operation. *)
Theorem Cast_between_integer_types_is_fatal (v : Value) (w : Z) (ops : list Operation) :
  isIntegerType (getElementType (getType v)) = true ->
  getElementType (getType v) <> IntegerType w ->
  Cast v (IntegerType w) ops = (Abort "Type conversion not supported", ops).
Proof.
  intros Hi Hne. unfold Cast.
  destruct (Ty_eqb (getType v) (with_element_type (getType v) (IntegerType w))) eqn:Eq.
  - apply Ty_eqb_eq in Eq. exfalso. apply Hne. rewrite Eq at 1.
    apply getElementType_with. reflexivity.
  - rewrite Hi. simpl.
    destruct (getElementType (getType v)); try discriminate. reflexivity.
Qed.

Lemma Cast_between_integer_types_is_fatal_witness :
  Cast (FuncArgument 0 (RankedTensorType [16; 16] I8Type)) I32Type []
  = (Abort "Type conversion not supported", []).
Proof.
  apply Cast_between_integer_types_is_fatal.
  - reflexivity.
  - discriminate.
Defined.

(** ** What [MatMulImpl] requires of a dot and of a tiling *)

Lemma CHECK_EQ_Ok (a b : Z) (what : string) (u : unit) : CHECK_EQ a b what = Ok u -> a = b.
Proof. intros H. apply CHECK_Ok in H. now apply Z.eqb_eq. Qed.

Lemma CHECK_LE_Ok (a b : Z) (what : string) (u : unit) : CHECK_LE a b what = Ok u -> a <= b.
Proof. intros H. apply CHECK_Ok in H. now apply Z.leb_le. Qed.

Lemma length_one {A : Type} (l : list A) (a : A) (what : string) :
  Z.of_nat (List.length l) = 1 -> at_ l 0 what = Ok a -> l = [a].
Proof.
  destruct l as [| x [| y l]]; simpl; intros L H; try lia.
  unfold at_ in H. simpl in H. injection H as <-. reflexivity.
Qed.

Lemma at_head {A : Type} (l : list A) (a : A) (what : string) :
  at_ l 0 what = Ok a -> exists rest, l = a :: rest.
Proof.
  unfold at_. simpl. destruct l as [| x l]; simpl; intros H; [discriminate|].
  injection H as <-. now exists l.
Qed.

Lemma at_nth_error {A : Type} (l : list A) (i : Z) (a : A) (what : string) :
  at_ l i what = Ok a -> 0 <= i /\ nth_error l (Z.to_nat i) = Some a.
Proof.
  unfold at_. destruct (Z.ltb_spec i 0) as [L | L]; [discriminate|].
  destruct (nth_error l (Z.to_nat i)); [| discriminate].
  intros E. injection E as <-. split; [lia | reflexivity].
Qed.

(** What the checks of the operand analysis establish about the dimension
    numbers, the split-K dimension and the fragments of the iteration. *)
Lemma operand_info_preconditions T dot_instr analysis config info :
  operand_info T dot_instr analysis config = Ok info ->
  let dims := dot_dimension_numbers dot_instr in
  exists lhs_c rhs_c lhs_nc rhs_nc,
    lhs_contracting_dimensions dims = [lhs_c]
    /\ rhs_contracting_dimensions dims = [rhs_c]
    /\ at_ (GetNonContractingDims (operand0 dot_instr) (lhs_batch_dimensions dims)
                                  (lhs_contracting_dimensions dims))
           0 "lhs non-contracting" = Ok lhs_nc
    /\ at_ (GetNonContractingDims (operand1 dot_instr) (rhs_batch_dimensions dims)
                                  (rhs_contracting_dimensions dims))
           0 "rhs non-contracting" = Ok rhs_nc
    /\ have_split_k info = (split_k config >? 1)
    /\ Z.of_nat (List.length (lhs_batch_dimensions dims))
       = b2z (have_split_k info) + b2z (have_batch info)
    /\ rank (operand0 dot_instr) = 2 + b2z (have_split_k info) + b2z (have_batch info)
    /\ have_batch info && lhs_nc_split info = false
    /\ (have_split_k info = true ->
        (exists rest, lhs_batch_dimensions dims = (lhs_c - 1) :: rest)
        /\ (exists rest, rhs_batch_dimensions dims = (rhs_c - 1) :: rest)
        /\ 1 <= lhs_c /\ 1 <= rhs_c
        /\ nth_error (dimensions (operand0 dot_instr)) (Z.to_nat (lhs_c - 1))
           = Some (split_k config)
        /\ nth_error (dimensions (operand1 dot_instr)) (Z.to_nat (rhs_c - 1))
           = Some (split_k config))
    /\ Z.of_nat (List.length (IterSpec analysis 0 lhs_nc)) = 1 + b2z (lhs_nc_split info)
    /\ List.length (IterSpec analysis 1 rhs_nc) = 1%nat
    /\ List.length (IterSpec analysis 0 lhs_c) = 1%nat.
Proof.
  unfold operand_info. intros H. cbv zeta in H.
  repeat (apply outcome_bind_Ok in H;
          let x := fresh "x" in let E := fresh "E" in destruct H as (x & E & H)).
  destruct x19 as [[[bs sl] sr] mf]. inversion H; subst info; clear H. cbv zeta. simpl.
  apply CHECK_EQ_Ok in E1, E2, E7, E13, E15, E16. apply CHECK_LE_Ok in E6, E14.
  exists x3, x4, x8, x9.
  split; [exact (length_one _ _ _ E1 E3)|].
  split; [exact (length_one _ _ _ E2 E4)|].
  split; [exact E8|]. split; [exact E9|].
  split; [reflexivity|].
  set (split := split_k config >? 1) in *.
  set (nb := Z.of_nat (List.length (lhs_batch_dimensions (dot_dimension_numbers dot_instr))))
    in *.
  assert (Hsplit : split = true ->
                   (exists rest, lhs_batch_dimensions (dot_dimension_numbers dot_instr)
                                 = (x3 - 1) :: rest)
                   /\ (exists rest, rhs_batch_dimensions (dot_dimension_numbers dot_instr)
                                    = (x4 - 1) :: rest)
                   /\ 1 <= x3 /\ 1 <= x4
                   /\ nth_error (dimensions (operand0 dot_instr)) (Z.to_nat (x3 - 1))
                      = Some (split_k config)
                   /\ nth_error (dimensions (operand1 dot_instr)) (Z.to_nat (x4 - 1))
                      = Some (split_k config)).
  { intros S. rewrite S in E5.
    repeat (apply outcome_bind_Ok in E5;
            let y := fresh "y" in let F := fresh "F" in destruct E5 as (y & F & E5)).
    apply CHECK_EQ_Ok in F0, F2, F4, E5. subst y y1.
    apply at_nth_error in F3, F5. destruct F3 as [P3 N3], F5 as [P5 N5].
    apply at_head in F, F1.
    split; [exact F|]. split; [exact F1|]. split; [lia|]. split; [lia|].
    change (operand dot_instr 0) with (operand0 dot_instr) in N3.
    change (operand dot_instr 1) with (operand1 dot_instr) in N5.
    split; congruence. }
  assert (Hnb : nb = b2z split
                     + b2z (negb (to_int (nb - b2z split) =? 0))).
  { assert (0 <= nb) by (unfold nb; lia).
    assert (b2z split <= nb).
    { destruct split eqn:S; simpl; [| lia].
      destruct (Hsplit eq_refl) as ((rest & Hr) & _). unfold nb. rewrite Hr. simpl. lia. }
    assert (I : in_int (nb - b2z split)).
    { unfold in_int, INT_MAX. change (2 ^ 31) with 2147483648.
      destruct split; simpl in *; lia. }
    rewrite (to_int_id _ I).
    destruct (Z.eqb_spec (nb - b2z split) 0); destruct split; simpl in *; lia. }
  split; [exact Hnb|].
  split; [exact E7|].
  split.
  { destruct (negb (to_int (nb - b2z split) =? 0));
      destruct (Z.of_nat (List.length (IterSpec analysis 0 x8)) >? 1);
      simpl in *; try reflexivity; lia. }
  split; [exact Hsplit|].
  split; [exact E13|]. split; lia.
Qed.

Section Preconditions.

Variable analyze : HloDotInstruction -> Z -> DotFusionAnalysis.
Variable W : Z.
Variable tf : bool.

(** A failed check of the analysis: the lowering terminates the process, and
    the block is as it was. *)
Lemma MatMulImpl_rejects T dot_instr fn config budget ops :
  is_Ok (preamble analyze T dot_instr config) = false ->
  exists msg, MatMulImpl analyze W tf T dot_instr fn config budget ops = (Abort msg, ops).
Proof.
  intros H. pose proof (not_RE_preamble analyze T dot_instr config) as N.
  unfold MatMulImpl, BuilderMonad.bind, BuilderMonad.lift.
  destruct (preamble analyze T dot_instr config) as [p | msg | msg];
    try discriminate. exists msg. reflexivity.
Qed.

(** X4.  A dot that the dot decomposer has not brought to the expected form, or
    a tile below the minimal size, is a fatal error and never a
    ResourceExhausted result: with a number of contracting dimensions other
    than one on either side, with more batch dimensions on the LHS than one
    plus the split-K one, or with a block size below 16, [MatMulImpl]
    terminates the process, and no operation has been created. *)
Theorem MatMulImpl_precondition_violations_are_fatal T dot_instr fn config budget ops :
  let dims := dot_dimension_numbers dot_instr in
  List.length (lhs_contracting_dimensions dims) <> 1%nat
  \/ List.length (rhs_contracting_dimensions dims) <> 1%nat
  \/ 1 + b2z (split_k config >? 1) < Z.of_nat (List.length (lhs_batch_dimensions dims))
  \/ to_int (block_m config) < 16
  \/ to_int (block_k config) < 16
  \/ to_int (block_n config) < 16 ->
  exists msg, MatMulImpl analyze W tf T dot_instr fn config budget ops = (Abort msg, ops).
Proof.
  intros dims V. apply MatMulImpl_rejects.
  destruct (preamble analyze T dot_instr config) as [p | msg | msg] eqn:P;
    try reflexivity. exfalso.
  destruct (preamble_Ok analyze T dot_instr config p P) as (Ei & _ & Et & _).
  destruct (operand_info_preconditions _ _ _ _ _ Ei)
    as (lc & rc & ln & rn & Hl & Hr & _ & _ & Hs & Hb & _).
  destruct (tiling_Ok _ _ _ Et) as (Em & Ek & En & Hm & Hk & Hn & _).
  fold dims in Hl, Hr, Hb. rewrite Hs in Hb.
  destruct V as [V | [V | [V | [V | [V | V]]]]].
  - rewrite Hl in V. now apply V.
  - rewrite Hr in V. now apply V.
  - destruct (have_batch (p_info p)); simpl in Hb; lia.
  - lia.
  - lia.
  - lia.
Qed.

End Preconditions.


Lemma MatMulImpl_precondition_violations_are_fatal_witness :
  (exists msg, MatMulImpl Examples.dense_analysis 32 true int32_t
                          MoreExamples.dot_two_contracting Examples.fn_f16
                          Examples.config_32 98304 [] = (Abort msg, []))
  /\ (exists msg, MatMulImpl Examples.dense_analysis 32 true int32_t
                             Examples.dot_100x70x50 Examples.fn_f16
                             MoreExamples.config_8 98304 [] = (Abort msg, [])).
Proof.
  split.
  - apply MatMulImpl_precondition_violations_are_fatal. left. simpl. discriminate.
  - apply MatMulImpl_precondition_violations_are_fatal. right. right. right. left.
    vm_compute. reflexivity.
Defined.

Section AcceptedDots.

Variable analyze : HloDotInstruction -> Z -> DotFusionAnalysis.
Variable W : Z.
Variable tf : bool.

(** X5.  What a dot and a tiling that [MatMulImpl] lowers look like: one
    contracting dimension on each side; on the LHS, as many batch dimensions
    as there are of split-K (one when split_k > 1) and batch proper (at most
    one), and a rank of two more; a LHS non-contracting dimension iterated in
    one fragment, or in two when there is no batch dimension; the RHS
    non-contracting and the LHS contracting dimension iterated in one
    fragment; when split_k > 1, the first batch dimension of each operand is
    the one just before its contracting dimension and has size split_k; and
    block sizes of at least 16. *)
Theorem MatMulImpl_accepts_decomposed_dots T dot_instr fn config budget ops ld ops' :
  MatMulImpl analyze W tf T dot_instr fn config budget ops = (Ok ld, ops') ->
  let dims := dot_dimension_numbers dot_instr in
  let analysis := analyze dot_instr (split_k config) in
  exists lhs_c rhs_c lhs_nc rhs_nc (batched lhs_nc_split : bool),
    lhs_contracting_dimensions dims = [lhs_c]
    /\ rhs_contracting_dimensions dims = [rhs_c]
    /\ at_ (GetNonContractingDims (operand0 dot_instr) (lhs_batch_dimensions dims)
                                  (lhs_contracting_dimensions dims))
           0 "lhs non-contracting" = Ok lhs_nc
    /\ at_ (GetNonContractingDims (operand1 dot_instr) (rhs_batch_dimensions dims)
                                  (rhs_contracting_dimensions dims))
           0 "rhs non-contracting" = Ok rhs_nc
    /\ Z.of_nat (List.length (lhs_batch_dimensions dims))
       = b2z (split_k config >? 1) + b2z batched
    /\ rank (operand0 dot_instr) = 2 + b2z (split_k config >? 1) + b2z batched
    /\ Z.of_nat (List.length (IterSpec analysis 0 lhs_nc)) = 1 + b2z lhs_nc_split
    /\ batched && lhs_nc_split = false
    /\ List.length (IterSpec analysis 1 rhs_nc) = 1%nat
    /\ List.length (IterSpec analysis 0 lhs_c) = 1%nat
    /\ (split_k config > 1 ->
        (exists rest, lhs_batch_dimensions dims = (lhs_c - 1) :: rest)
        /\ (exists rest, rhs_batch_dimensions dims = (rhs_c - 1) :: rest)
        /\ 1 <= lhs_c /\ 1 <= rhs_c
        /\ nth_error (dimensions (operand0 dot_instr)) (Z.to_nat (lhs_c - 1))
           = Some (split_k config)
        /\ nth_error (dimensions (operand1 dot_instr)) (Z.to_nat (rhs_c - 1))
           = Some (split_k config))
    /\ 16 <= to_int (block_m config)
    /\ 16 <= to_int (block_k config)
    /\ 16 <= to_int (block_n config).
Proof.
  intros H dims analysis. apply MatMulImpl_Ok in H. destruct H as (p & P & _).
  destruct (preamble_Ok analyze T dot_instr config p P) as (Ei & _ & Et & _).
  destruct (operand_info_preconditions _ _ _ _ _ Ei)
    as (lc & rc & ln & rn & Hl & Hr & Hln & Hrn & Hs & Hb & Hrank & Hx & Hsplit & Hf
        & Hfr & Hfc).
  destruct (tiling_Ok _ _ _ Et) as (Em & Ek & En & Hm & Hk & Hn & _).
  rewrite Hs in Hb, Hrank, Hsplit.
  exists lc, rc, ln, rn, (have_batch (p_info p)), (lhs_nc_split (p_info p)).
  repeat (split; [assumption|]).
  split.
  { intros G. apply Hsplit. apply Z.gtb_lt. lia. }
  lia.
Qed.

End AcceptedDots.

Lemma MatMulImpl_accepts_decomposed_dots_witness :
  match MatMulImpl Examples.dense_analysis 32 true int32_t MoreExamples.dot_split_k
                   Examples.fn_f16 MoreExamples.config_split_2 98304 [] with
  | (Ok _, _) =>
      rank (operand0 MoreExamples.dot_split_k) = 3
      /\ nth_error (dimensions (operand0 MoreExamples.dot_split_k)) 1 = Some 2
      /\ nth_error (dimensions (operand1 MoreExamples.dot_split_k)) 0 = Some 2
  | _ => False
  end.
Proof.
  destruct (MatMulImpl Examples.dense_analysis 32 true int32_t MoreExamples.dot_split_k
                       Examples.fn_f16 MoreExamples.config_split_2 98304 [])
    as [[ld | msg | msg] ops'] eqn:E.
  - destruct (MatMulImpl_accepts_decomposed_dots Examples.dense_analysis 32 true
                _ _ _ _ _ _ _ _ E)
      as (lc & rc & ln & rn & b & s & Hl & Hr & _ & _ & Hb & Hrank & _ & _ & _ & _
          & Hsplit & _).
    injection Hl as <-. injection Hr as <-.
    destruct (Hsplit ltac:(reflexivity)) as (_ & _ & _ & _ & N0 & N1).
    split; [reflexivity|]. split; [exact N0 | exact N1].
  - vm_compute in E. discriminate E.
  - vm_compute in E. discriminate E.
Defined.

(** ** The grid of tiles *)

(** The integer ceiling computed by [ceil_div] on a 32-bit length and a
    block size of at least 16. *)
Lemma ceil_div_spec (a b : Z) :
  0 <= a <= INT_MAX -> 16 <= b ->
  0 <= ceil_div a b <= a / 16 + 1
  /\ (0 < a -> (ceil_div a b - 1) * b < a)
  /\ (a = 0 -> ceil_div a b = 0)
  /\ a <= ceil_div a b * b.
Proof.
  unfold INT_MAX. intros Ha Hb. unfold ceil_div.
  set (q := - (- a / b)).
  pose proof (Z.div_mod (- a) b ltac:(lia)) as DM.
  pose proof (Z.mod_pos_bound (- a) b ltac:(lia)) as MB.
  assert (Hq : 0 <= q <= a / 16 + 1).
  { unfold q. split; [nia|].
    pose proof (Z.div_mod a 16 ltac:(lia)) as DM16.
    pose proof (Z.mod_pos_bound a 16 ltac:(lia)) as MB16. nia. }
  assert (I : in_int q).
  { unfold in_int, INT_MAX. change (2 ^ 31) with 2147483648.
    pose proof (Z.div_mod a 16 ltac:(lia)) as DM16.
    pose proof (Z.mod_pos_bound a 16 ltac:(lia)) as MB16. lia. }
  rewrite (to_int_id _ I). split; [exact Hq|].
  unfold q. split; [intros P; nia|]. split; [intros ->; reflexivity | nia].
Qed.

Section TilingCoverage.

(** X6.  The grid covers the output and has no empty row or column of tiles:
    for an extent m_minor > 0 and a block size block_m >= 16, grid_m is the
    least number of blocks with grid_m * block_m >= m_minor, and likewise for
    n; an empty extent gives an empty grid; and the width of a group of
    program instances is 8 * grid_n. *)
Theorem tiling_covers_the_output (config : TritonGemmKey) (info : OperandInfo) (tile : Tiling) :
  tiling config info = Ok tile ->
  0 <= m_minor info <= INT_MAX -> 0 <= n info <= INT_MAX ->
  m_minor info <= grid_m tile * t_block_m tile
  /\ n info <= grid_n tile * t_block_n tile
  /\ (0 < m_minor info -> (grid_m tile - 1) * t_block_m tile < m_minor info)
  /\ (0 < n info -> (grid_n tile - 1) * t_block_n tile < n info)
  /\ (m_minor info = 0 -> grid_m tile = 0)
  /\ (n info = 0 -> grid_n tile = 0)
  /\ width tile = 8 * grid_n tile.
Proof.
  intros H Hm Hn. apply tiling_Ok in H.
  destruct H as (_ & _ & _ & Bm & _ & Bn & Gm & Gn & Wd).
  destruct (ceil_div_spec (m_minor info) (t_block_m tile) Hm Bm) as (R1 & L1 & Z1 & U1).
  destruct (ceil_div_spec (n info) (t_block_n tile) Hn Bn) as (R2 & L2 & Z2 & U2).
  rewrite <- Gm in R1, L1, Z1, U1. rewrite <- Gn in R2, L2, Z2, U2.
  repeat (split; [assumption|]).
  rewrite Wd. unfold group_m. apply to_int_id.
  unfold INT_MAX in *. unfold in_int, INT_MAX. change (2 ^ 31) with 2147483648.
  pose proof (Z.div_mod (n info) 16 ltac:(lia)) as DM16.
  pose proof (Z.mod_pos_bound (n info) 16 ltac:(lia)) as MB16. lia.
Qed.

End TilingCoverage.

Lemma tiling_covers_the_output_witness :
  exists tile,
    tiling Examples.config_32
           {| lhs_ty := F16Type; rhs_ty := F16Type;
              lhs_parameter_number := 0; rhs_parameter_number := 1;
              have_split_k := false; have_batch := false;
              rhs_nc_out_idx := 1; lhs_nc_out_idx := 0;
              split_k_out_idx := -1; batch_out_idx := -1;
              m_minor := 100; n := 50; k := 70; lhs_nc_split := false;
              stride_lhs_m := 70; stride_lhs_k := 1; stride_rhs_k := 50; stride_rhs_n := 1;
              batch_size := 1; stride_batch_lhs := 0; stride_batch_rhs := 0;
              m_full := 100 |} = Ok tile
    /\ 100 <= grid_m tile * 32 /\ (grid_m tile - 1) * 32 < 100
    /\ 50 <= grid_n tile * 32 /\ (grid_n tile - 1) * 32 < 50.
Proof.
  eexists. split; [reflexivity|].
  match goal with
  | |- context [grid_m ?t] =>
      destruct (tiling_covers_the_output Examples.config_32 _ t eq_refl
                  ltac:(vm_compute; split; discriminate)
                  ltac:(vm_compute; split; discriminate))
        as (U1 & U2 & L1 & L2 & _)
  end.
  split; [exact U1|]. split; [apply L1; reflexivity|].
  split; [exact U2|]. apply L2. reflexivity.
Defined.

(** ** The kernel function built by [TritonWrapper] *)

Lemma parameter_types_Ok (ps : list HloParameter) (tys : list Ty) :
  parameter_types ps = Ok tys ->
  Forall2 (fun p ty => exists e, TritonType (element_type (parameter_shape p)) = Ok e
                                 /\ ty = PointerType e) ps tys.
Proof.
  revert tys. induction ps as [| p ps IH]; simpl; intros tys H.
  - injection H as <-. constructor.
  - apply outcome_bind_Ok in H. destruct H as (e & He & H).
    apply outcome_bind_Ok in H. destruct H as (ts & Hts & H).
    injection H as <-. constructor; [now exists e | now apply IH].
Qed.

Lemma TritonWrapper_function hlo device_info config generator pipeline
    ops ld program ops' :
  TritonWrapper hlo device_info config generator pipeline ops = (Ok (ld, program), ops') ->
  exists root_ty param_tys dot ld0 emitted,
    TritonType (element_type (instruction_shape (root_instruction hlo))) = Ok root_ty
    /\ parameter_types (parameter_instructions hlo) = Ok param_tys
    /\ program = {| fn_arg_types := (param_tys ++ [PointerType root_ty])%list;
                    tt_divisibility := map (fun _ => 16)
                                           (param_tys ++ [PointerType root_ty])%list;
                    fn_body := (emitted ++ [ReturnOp])%list |}
    /\ kernel_root hlo = HloDot dot
    /\ generator dot (param_tys ++ [PointerType root_ty])%list config
                 (shared_memory_per_block_optin device_info) ops = (Ok ld0, emitted).
Proof.
  unfold TritonWrapper. intros H.
  destruct (complexity_heuristic_value config >? kComplexityHeuristicLimit);
    [discriminate|].
  destruct (kernel_root hlo) as [dot | |]; try discriminate.
  bind_step H root_ty E. bind_step H param_tys E0. bind_step H ld0 E1.
  bind_step H u E2.
  apply lift_Ok in E. destruct E as [E ->].
  apply lift_Ok in E0. destruct E0 as [E0 ->].
  unfold BuilderMonad.emit in E2. injection E2 as _ <-.
  match type of H with
  | (if verify pipeline ?p then _ else _) = _ => set (prog := p) in *
  end.
  destruct (verify pipeline prog); [| discriminate].
  destruct (run_pipeline pipeline prog (num_warps config) (num_stages config));
    [| discriminate].
  destruct (to_int z >? shared_memory_per_block_optin device_info); [discriminate|].
  destruct (link_modules pipeline prog); [| discriminate].
  injection H as _ <- _.
  exists root_ty, param_tys, dot, ld0. eexists.
  split; [exact E|]. split; [exact E0|]. split; [reflexivity|].
  split; [reflexivity | exact E1].
Qed.

(** X7.  The kernel function of a successful [TritonWrapper]: one pointer
    argument per parameter of the computation, in their order, to the Triton
    type of the parameter's elements, then a pointer to the elements of the
    root instruction; the attribute tt.divisibility = 16 on each argument; and
    a body that is what the generator emitted followed by the return. *)
Theorem TritonWrapper_kernel_signature hlo device_info config generator pipeline
    ops ld program ops' :
  TritonWrapper hlo device_info config generator pipeline ops = (Ok (ld, program), ops') ->
  exists root_ty param_tys dot ld0 emitted,
    TritonType (element_type (instruction_shape (root_instruction hlo))) = Ok root_ty
    /\ Forall2 (fun p ty => exists e, TritonType (element_type (parameter_shape p)) = Ok e
                                      /\ ty = PointerType e)
               (parameter_instructions hlo) param_tys
    /\ fn_arg_types program = (param_tys ++ [PointerType root_ty])%list
    /\ List.length (fn_arg_types program) = S (List.length (parameter_instructions hlo))
    /\ tt_divisibility program = repeat 16 (List.length (fn_arg_types program))
    /\ kernel_root hlo = HloDot dot
    /\ generator dot (fn_arg_types program) config
                 (shared_memory_per_block_optin device_info) ops = (Ok ld0, emitted)
    /\ fn_body program = (emitted ++ [ReturnOp])%list.
Proof.
  intros H. apply TritonWrapper_function in H.
  destruct H as (root_ty & param_tys & dot & ld0 & emitted & E & E0 & -> & Hk & G).
  exists root_ty, param_tys, dot, ld0, emitted.
  split; [exact E|]. split; [exact (parameter_types_Ok _ _ E0)|].
  split; [reflexivity|].
  split.
  { simpl. rewrite length_app. simpl.
    rewrite <- (Forall2_length (parameter_types_Ok _ _ E0)). lia. }
  split.
  { simpl. generalize (param_tys ++ [PointerType root_ty])%list. intros l.
    induction l as [| x l IH]; simpl; [reflexivity | now rewrite IH]. }
  split; [exact Hk|]. split; [exact G | reflexivity].
Qed.


Lemma TritonWrapper_kernel_signature_witness :
  match fst (TritonWrapper Examples.computation_100x70x50 Examples.device_96k
                           Examples.config_32 (MatMul Examples.dense_analysis 32 true)
                           (Examples.pipeline_reporting 4096) []) with
  | Ok (_, program) =>
      fn_arg_types program = [PointerType F16Type; PointerType F16Type; PointerType F16Type]
      /\ tt_divisibility program = [16; 16; 16]
      /\ exists emitted, fn_body program = (emitted ++ [ReturnOp])%list
  | _ => False
  end.
Proof.
  destruct (TritonWrapper Examples.computation_100x70x50 Examples.device_96k
                          Examples.config_32 (MatMul Examples.dense_analysis 32 true)
                          (Examples.pipeline_reporting 4096) [])
    as [[[ld program] | msg | msg] ops'] eqn:E.
  - destruct (TritonWrapper_kernel_signature _ _ _ _ _ _ _ _ _ E)
      as (root_ty & param_tys & dot & ld0 & emitted & Hr & Hp & Ha & _ & Hd & _ & _ & Hb).
    simpl. injection Hr as <-.
    inversion Hp as [| p1 t1 ps1 ts1 (e1 & He1 & ->) Hp1]; subst.
    inversion Hp1 as [| p2 t2 ps2 ts2 (e2 & He2 & ->) Hp2]; subst.
    inversion Hp2; subst.
    injection He1 as <-. injection He2 as <-.
    rewrite Hd, Ha. split; [reflexivity|]. split; [reflexivity|].
    exists emitted. exact Hb.
  - vm_compute in E. discriminate E.
  - vm_compute in E. discriminate E.
Defined.

Section WrapperRoot.

(** X8.  [TritonWrapper] looks through one bitcast at the root of the
    computation, and no more: with a tiling within the complexity limit, a
    computation whose root, or whose root's operand when the root is a bitcast,
    is not a dot terminates the process before anything is emitted (so does a
    dot under two bitcasts); and a bitcast of a dot with the element type of
    the dot is lowered exactly as the dot itself. *)
Theorem TritonWrapper_root_instruction device_info config generator pipeline ops :
  complexity_heuristic_value config <= kComplexityHeuristicLimit ->
  (forall hlo,
      opcode (kernel_root hlo) <> kDot ->
      TritonWrapper hlo device_info config generator pipeline ops
      = (Abort "Check failed: root->opcode() == HloOpcode::kDot", ops))
  /\ (forall params s s' dot,
         TritonWrapper {| root_instruction := HloBitcast s (HloBitcast s' (HloDot dot));
                          parameter_instructions := params |}
                       device_info config generator pipeline ops
         = (Abort "Check failed: root->opcode() == HloOpcode::kDot", ops))
  /\ (forall params s dot,
         element_type s = element_type (shape dot) ->
         TritonWrapper {| root_instruction := HloBitcast s (HloDot dot);
                          parameter_instructions := params |}
                       device_info config generator pipeline ops
         = TritonWrapper {| root_instruction := HloDot dot;
                            parameter_instructions := params |}
                         device_info config generator pipeline ops).
Proof.
  intros Hc.
  assert (A : forall hlo,
             opcode (kernel_root hlo) <> kDot ->
             TritonWrapper hlo device_info config generator pipeline ops
             = (Abort "Check failed: root->opcode() == HloOpcode::kDot", ops)).
  { intros hlo Hr. unfold TritonWrapper.
    destruct (Z.gtb_spec (complexity_heuristic_value config) kComplexityHeuristicLimit);
      [lia|].
    destruct (kernel_root hlo); [now elim Hr | reflexivity | reflexivity]. }
  split; [exact A|]. split.
  - intros params s s' dot. apply A. simpl. discriminate.
  - intros params s dot He. unfold TritonWrapper, kernel_root. simpl.
    rewrite He. reflexivity.
Qed.

End WrapperRoot.

Lemma TritonWrapper_root_instruction_witness :
  TritonWrapper {| root_instruction :=
                     HloBitcast (shape Examples.dot_100x70x50)
                       (HloBitcast (shape Examples.dot_100x70x50)
                                   (HloDot Examples.dot_100x70x50));
                   parameter_instructions := [] |}
                Examples.device_96k Examples.config_32
                (MatMul Examples.dense_analysis 32 true)
                (Examples.pipeline_reporting 4096) []
  = (Abort "Check failed: root->opcode() == HloOpcode::kDot", []).
Proof.
  apply (TritonWrapper_root_instruction Examples.device_96k Examples.config_32
           (MatMul Examples.dense_analysis 32 true) (Examples.pipeline_reporting 4096) []).
  vm_compute. discriminate.
Defined.

Section WrapperResult.

Variable analyze : HloDotInstruction -> Z -> DotFusionAnalysis.
Variable W : Z.
Variable tf : bool.

(** X9.  The shared-memory size of the launch dimensions: [MatMulImpl] leaves it
    at 0, and a successful [TritonWrapper] around [MatMul] sets it to the
    footprint the pipeline measured, which is within the limit of the device,
    keeping the block counts and the thread counts that [MatMul] returned. *)
Theorem TritonWrapper_sets_shared_memory :
  (forall T dot_instr fn config budget ops ld ops',
      MatMulImpl analyze W tf T dot_instr fn config budget ops = (Ok ld, ops') ->
      shared_mem_bytes ld = 0)
  /\ (forall hlo device_info config pipeline ops ld program ops',
         TritonWrapper hlo device_info config (MatMul analyze W tf) pipeline ops
         = (Ok (ld, program), ops') ->
         exists dot ld0 emitted shared,
           MatMul analyze W tf dot (fn_arg_types program) config
                  (shared_memory_per_block_optin device_info) ops = (Ok ld0, emitted)
           /\ run_pipeline pipeline program (num_warps config) (num_stages config)
              = Some shared
           /\ shared_mem_bytes ld = to_int shared
           /\ shared_mem_bytes ld <= shared_memory_per_block_optin device_info
           /\ block_counts ld = block_counts ld0
           /\ thread_counts_per_block ld = thread_counts_per_block ld0).
Proof.
  split.
  - intros T dot_instr fn config budget ops ld ops' H.
    apply MatMulImpl_Ok in H. destruct H as (p & _ & _ & _ & ->). reflexivity.
  - intros hlo dev config pipe ops ld prog ops' H.
    apply TritonWrapper_Ok in H.
    destruct H as (dot & ld0 & ops1 & sh & G & R & L & -> & _).
    exists dot, ld0, ops1, sh. simpl. repeat split; assumption.
Qed.

End WrapperResult.

Lemma TritonWrapper_sets_shared_memory_witness :
  match fst (TritonWrapper Examples.computation_100x70x50 Examples.device_96k
                           Examples.config_32 (MatMul Examples.dense_analysis 32 true)
                           (Examples.pipeline_reporting 4096) []) with
  | Ok (ld, _) => shared_mem_bytes ld = 4096
  | _ => False
  end.
Proof.
  destruct (TritonWrapper Examples.computation_100x70x50 Examples.device_96k
                          Examples.config_32 (MatMul Examples.dense_analysis 32 true)
                          (Examples.pipeline_reporting 4096) [])
    as [[[ld program] | msg | msg] ops'] eqn:E.
  - destruct (proj2 (TritonWrapper_sets_shared_memory Examples.dense_analysis 32 true)
                    _ _ _ _ _ _ _ _ E)
      as (dot & ld0 & emitted & shared & _ & R & S & _).
    simpl. rewrite S. injection R as <-. reflexivity.
  - vm_compute in E. discriminate E.
  - vm_compute in E. discriminate E.
Defined.

Section WrapperRejections.

Variable analyze : HloDotInstruction -> Z -> DotFusionAnalysis.
Variable W : Z.
Variable tf : bool.

(** X10.  The ResourceExhausted results of [TritonWrapper] around [MatMul] are
    of three kinds and no other: the complexity heuristic, reported before
    anything is emitted; the shared-memory estimate of [MatMulImpl], reported
    before any operation of the kernel is created; and the shared-memory
    footprint measured by the pipeline on the complete kernel. *)
Theorem TritonWrapper_ResourceExhausted_kinds hlo device_info config pipeline
    ops msg ops' :
  TritonWrapper hlo device_info config (MatMul analyze W tf) pipeline ops
  = (ResourceExhausted msg, ops') ->
  let budget := shared_memory_per_block_optin device_info in
  (complexity_heuristic_value config > kComplexityHeuristicLimit
   /\ msg = "Tiling complexity heuristic exceeded: "
            ++ format_d (complexity_heuristic_value config) ++ " > "
            ++ format_d kComplexityHeuristicLimit
   /\ ops' = ops)
  \/ (complexity_heuristic_value config <= kComplexityHeuristicLimit
      /\ exists dot p,
           kernel_root hlo = HloDot dot
           /\ preamble analyze (index_type dot config) dot config = Ok p
           /\ required_shmem_size config (p_info p) (p_tile p) > budget
           /\ msg = "Requires too much shared memory: "
                    ++ format_d (required_shmem_size config (p_info p) (p_tile p))
                    ++ " > " ++ format_d budget
           /\ ops' = ops)
  \/ (complexity_heuristic_value config <= kComplexityHeuristicLimit
      /\ exists dot fn ld0 emitted program shared,
           kernel_root hlo = HloDot dot
           /\ MatMul analyze W tf dot fn config budget ops = (Ok ld0, emitted)
           /\ fn_body program = (emitted ++ [ReturnOp])%list
           /\ run_pipeline pipeline program (num_warps config) (num_stages config)
              = Some shared
           /\ to_int shared > budget
           /\ msg = "Shared memory size limit exceeded."
           /\ ops' = fn_body program).
Proof.
  intros H budget. unfold TritonWrapper in H.
  destruct (Z.gtb_spec (complexity_heuristic_value config) kComplexityHeuristicLimit)
    as [G | G].
  { left. unfold BuilderMonad.lift in H. injection H as <- <-.
    split; [lia|]. split; reflexivity. }
  right.
  destruct (kernel_root hlo) as [dot | |] eqn:R; try discriminate.
  apply bind_ResourceExhausted in H. destruct H as [H | (root_ty & ops1 & E & H)].
  { unfold BuilderMonad.lift in H. injection H as H _.
    pose proof (not_RE_TritonType
                  (element_type (instruction_shape (root_instruction hlo)))) as N.
    rewrite H in N. discriminate. }
  apply lift_Ok in E. destruct E as [E ->].
  apply bind_ResourceExhausted in H. destruct H as [H | (param_tys & ops1 & E0 & H)].
  { unfold BuilderMonad.lift in H. injection H as H _. exfalso.
    clear - H. revert H. generalize (parameter_instructions hlo). intros ps.
    induction ps as [| p ps IH]; simpl; [discriminate|].
    pose proof (not_RE_TritonType (element_type (parameter_shape p))) as N.
    destruct (TritonType (element_type (parameter_shape p))); simpl;
      try discriminate.
    destruct (parameter_types ps); simpl; try discriminate. exact IH. }
  apply lift_Ok in E0. destruct E0 as [E0 ->].
  apply bind_ResourceExhausted in H. destruct H as [H | (ld0 & ops1 & E1 & H)].
  { left. split; [exact G|]. rewrite MatMul_unfold in H.
    apply MatMulImpl_ResourceExhausted in H. destruct H as (p & P & Hgt & -> & ->).
    exists dot, p. repeat split; assumption. }
  right. split; [exact G|].
  apply bind_ResourceExhausted in H. destruct H as [H | (u & ops2 & E2 & H)].
  { unfold BuilderMonad.emit in H. discriminate. }
  unfold BuilderMonad.emit in E2. injection E2 as _ <-.
  match type of H with
  | (if verify pipeline ?p then _ else _) = _ => set (prog := p) in *
  end.
  destruct (verify pipeline prog); [| discriminate].
  destruct (run_pipeline pipeline prog (num_warps config) (num_stages config))
    as [shared |] eqn:Rp; [| discriminate].
  destruct (Z.gtb_spec (to_int shared) (shared_memory_per_block_optin device_info))
    as [L | L]; [| destruct (link_modules pipeline prog); discriminate].
  injection H as <- <-.
  exists dot, (param_tys ++ [PointerType root_ty])%list, ld0, ops1, prog, shared.
  repeat split; try assumption; try reflexivity. fold budget. lia.
Qed.

End WrapperRejections.

Lemma TritonWrapper_ResourceExhausted_kinds_witness :
  match TritonWrapper Examples.computation_100x70x50
                      {| shared_memory_per_block_optin := 1024 |}
                      Examples.config_32 (MatMul Examples.dense_analysis 32 true)
                      (Examples.pipeline_reporting 4096) [] with
  | (ResourceExhausted msg, ops') =>
      msg = "Requires too much shared memory: 4096 > 1024" /\ ops' = []
  | _ => False
  end.
Proof.
  destruct (TritonWrapper Examples.computation_100x70x50
                          {| shared_memory_per_block_optin := 1024 |}
                          Examples.config_32 (MatMul Examples.dense_analysis 32 true)
                          (Examples.pipeline_reporting 4096) [])
    as [[r | msg | msg] ops'] eqn:E.
  - vm_compute in E. discriminate E.
  - destruct (TritonWrapper_ResourceExhausted_kinds Examples.dense_analysis 32 true
                _ _ _ _ _ _ _ E)
      as [(G & _) | [(_ & dot & p & R & P & _ & Hm & Ho) | (_ & dot & fn & ld0 & em & prog
                                                           & sh & R & M & _)]].
    + vm_compute in G. discriminate G.
    + injection R as <-. vm_compute in P. injection P as <-.
      split; [exact Hm | exact Ho].
    + injection R as <-. exfalso.
      simpl in M. rewrite MatMul_unfold in M. apply MatMulImpl_Ok in M.
      destruct M as (p & P & L & _). vm_compute in P. injection P as <-.
      vm_compute in L. apply L. reflexivity.
  - vm_compute in E. discriminate E.
Defined.

(** ** The tiles of the program instances *)

Lemma tile_coordinates_injective (gm gn p p' : Z) :
  0 < gm -> 0 < gn -> 0 <= p < gm * gn -> 0 <= p' < gm * gn ->
  tile_m gm gn p = tile_m gm gn p' -> tile_n gm gn p = tile_n gm gn p' -> p = p'.
Proof.
  intros Hm Hn Hp Hp'. unfold tile_m, tile_n, tile_group_size.
  destruct (swizzle_arith gm gn p Hm Hn Hp) as (G0 & F & S & R & M & N).
  destruct (swizzle_arith gm gn p' Hm Hn Hp') as (G0' & F' & S' & R' & M' & N').
  cbv zeta in *.
  set (g := p / (8 * gn)) in *. set (g' := p' / (8 * gn)) in *.
  replace (gm - 8 * g) with (gm - g * 8) by lia.
  replace (gm - 8 * g') with (gm - g' * 8) by lia.
  set (gs := Z.min (gm - g * 8) 8) in *. set (gs' := Z.min (gm - g' * 8) 8) in *.
  intros Em En.
  pose proof (Z.mod_pos_bound p gs ltac:(lia)) as B.
  pose proof (Z.mod_pos_bound p' gs' ltac:(lia)) as B'.
  assert (Eg : g = g') by lia.
  assert (Egs : gs = gs') by (unfold gs, gs'; now rewrite Eg).
  rewrite <- Egs in *. clear Egs gs'.
  assert (Er : p mod gs = p' mod gs) by lia.
  pose proof (Z.div_mod p (8 * gn) ltac:(lia)) as D. fold g in D.
  pose proof (Z.div_mod p' (8 * gn) ltac:(lia)) as D'. fold g' in D'. rewrite <- Eg in D'.
  set (r := p mod (8 * gn)) in *. set (r' := p' mod (8 * gn)) in *.
  pose proof (Z.div_mod r gs ltac:(lia)) as Dr.
  pose proof (Z.div_mod r' gs ltac:(lia)) as Dr'.
  pose proof (Z.mod_pos_bound r gs ltac:(lia)) as Br.
  pose proof (Z.mod_pos_bound r' gs ltac:(lia)) as Br'.
  pose proof (Z.div_mod p gs ltac:(lia)) as Dp.
  pose proof (Z.div_mod p' gs ltac:(lia)) as Dp'.
  rewrite <- En in Dr'.
  assert (Ediff : p - p' = gs * (p / gs - p' / gs)) by lia.
  assert (Esmall : - gs < p - p' < gs) by lia.
  assert (p / gs - p' / gs = 0) by nia.
  nia.
Qed.

Lemma tile_coordinates_surjective (gm gn a b : Z) :
  0 < gm -> 0 < gn -> 0 <= a < gm -> 0 <= b < gn ->
  exists p, 0 <= p < gm * gn /\ tile_m gm gn p = a /\ tile_n gm gn p = b.
Proof.
  intros Hm Hn Ha Hb.
  set (g := a / 8).
  pose proof (Z.div_mod a 8 ltac:(lia)) as Da. fold g in Da.
  pose proof (Z.mod_pos_bound a 8 ltac:(lia)) as Ba.
  assert (Hg : 0 <= g) by (apply Z.div_pos; lia).
  set (gs := Z.min (gm - 8 * g) 8).
  assert (Hgs : 1 <= gs <= 8) by (unfold gs; lia).
  assert (Hlow : 0 <= a - 8 * g < gs) by (unfold gs; lia).
  set (c := g * (8 * gn)).
  set (t := (a - 8 * g - c) mod gs).
  pose proof (Z.mod_pos_bound (a - 8 * g - c) gs ltac:(lia)) as Bt. fold t in Bt.
  set (r := b * gs + t).
  assert (Hr : 0 <= r < gs * gn) by (unfold r; nia).
  assert (Hr8 : 0 <= r < 8 * gn) by nia.
  exists (c + r).
  assert (Hdiv : (c + r) / (8 * gn) = g).
  { unfold c. rewrite Z.add_comm, Z.div_add by lia. rewrite Z.div_small by lia. lia. }
  assert (Hmod : (c + r) mod (8 * gn) = r).
  { unfold c. rewrite Z.add_comm, Z.mod_add by lia. apply Z.mod_small. lia. }
  unfold tile_m, tile_n, tile_group_size. rewrite Hdiv, Hmod. fold gs.
  split; [unfold c; unfold gs in *; nia|].
  split.
  - assert (E : (c + r) mod gs = a - 8 * g).
    { unfold r. replace (c + (b * gs + t)) with (c + t + b * gs) by lia.
      rewrite Z.mod_add by lia. unfold t.
      rewrite Z.add_mod_idemp_r by lia.
      replace (c + (a - 8 * g - c)) with (a - 8 * g) by lia.
      apply Z.mod_small. lia. }
    lia.
  - unfold r. rewrite Z.add_comm, Z.div_add by lia. rewrite Z.div_small by lia. lia.
Qed.

(** The values that [swizzle] returns. *)
Lemma swizzle_Ok (tile : Tiling) (ids : ProgramIds) ops sw ops' :
  swizzle tile ids ops = (Ok sw, ops') ->
  let width_op := ConstantOp I32Type (width tile) in
  let group_m_op := ConstantOp I32Type group_m in
  let first := MulIOp (DivSIOp (pid_nc ids) width_op) group_m_op in
  let sub0 := SubIOp (ConstantOp I32Type (grid_m tile)) first in
  let gsize := SelectOp (CmpIOp slt sub0 group_m_op) sub0 group_m_op in
  let range_of pid block :=
    AddIOp (SplatOp (RankedTensorType [block] (getType pid))
                    (MulIOp pid (ConstantOp I32Type block)))
           (MakeRangeOp (RankedTensorType [block] I32Type) 0 block) in
  first_pid_m sw = first
  /\ group_size sw = gsize
  /\ pid_m sw = AddIOp first (RemSIOp (pid_nc ids) gsize)
  /\ pid_n sw = DivSIOp (RemSIOp (pid_nc ids) width_op) gsize
  /\ range_m sw = range_of (pid_m sw) (t_block_m tile)
  /\ range_n sw = range_of (pid_n sw) (t_block_n tile)
  /\ range_k sw = range_of (pid_k ids) (t_block_k tile).
Proof.
  intros H.
  unfold swizzle, i32_ty, build_splat, build_range, CreateConst, BuilderMonad.bind,
    BuilderMonad.create, BuilderMonad.ret in H.
  cbn [isIntegerType I32Type] in H.
  apply (f_equal fst) in H. cbn [fst] in H. injection H as <-.
  cbv zeta. cbn [first_pid_m group_size pid_m pid_n range_m range_n range_k].
  repeat split; reflexivity.
Qed.

Section Decoding.

Variable e : Instance.
Variable tile : Tiling.
Variable ids : ProgramIds.
Variable pid : Z.

Hypothesis pid_nc_type : getType (pid_nc ids) = I32Type.
Hypothesis pid_nc_value : eval e (pid_nc ids) = Some pid.
Hypothesis grid_m_range : 0 < grid_m tile <= INT_MAX.
Hypothesis grid_n_pos : 0 < grid_n tile.
Hypothesis width_value : width tile = group_m * grid_n tile.
Hypothesis width_range : width tile <= INT_MAX.
Hypothesis pid_range : 0 <= pid < grid_m tile * grid_n tile.

(** The values of the decoded coordinates for a program instance. *)
Lemma swizzle_decodes ops sw ops' :
  swizzle tile ids ops = (Ok sw, ops') ->
  eval e (group_size sw) = Some (tile_group_size (grid_m tile) (grid_n tile) pid)
  /\ eval e (pid_m sw) = Some (tile_m (grid_m tile) (grid_n tile) pid)
  /\ eval e (pid_n sw) = Some (tile_n (grid_m tile) (grid_n tile) pid).
Proof.
  intros H. apply swizzle_Ok in H. cbv zeta in H.
  destruct H as (_ & Egs & Epm & Epn & _). rewrite Egs, Epm, Epn. clear Egs Epm Epn.
  destruct (swizzle_arith (grid_m tile) (grid_n tile) pid ltac:(lia) grid_n_pos pid_range)
    as (Hgid & Hfirst & Hgs & Hrem & Hpm & Hpn).
  unfold tile_m, tile_n, tile_group_size.
  unfold group_m in *. unfold INT_MAX in *.
  set (gm := grid_m tile) in *. set (gn := grid_n tile) in *.
  set (gid := pid / (8 * gn)) in *.
  replace (gm - 8 * gid) with (gm - gid * 8) by lia.
  set (gs := Z.min (gm - gid * 8) 8) in *.
  assert (I : forall z, 0 <= z <= 2147483647 -> in_int z).
  { intros z Hz. unfold in_int, INT_MAX. change (2 ^ 31) with 2147483648. lia. }
  assert (W32 : int_width (getType (pid_nc ids)) = 32) by (rewrite pid_nc_type; reflexivity).
  unfold eval in *.
  pose (width_op := ConstantOp I32Type (width tile)).
  pose (group_id := DivSIOp (pid_nc ids) width_op).
  pose (group_m_op := ConstantOp I32Type 8).
  pose (first_pid := MulIOp group_id group_m_op).
  pose (grid_m_op := ConstantOp I32Type gm).
  pose (sub0 := SubIOp grid_m_op first_pid).
  pose (gsize := SelectOp (CmpIOp slt sub0 group_m_op) sub0 group_m_op).
  assert (Ew : eval_at e width_op [] = Some (8 * gn)).
  { unfold width_op. rewrite width_value. apply eval_at_const; [reflexivity | apply I; lia]. }
  assert (Egid : eval_at e group_id [] = Some gid).
  { apply (eval_at_div e _ _ _ _ _ pid_nc_value Ew); lia. }
  assert (E8 : eval_at e group_m_op [] = Some 8).
  { apply eval_at_const; [reflexivity | apply I; lia]. }
  assert (Efirst : eval_at e first_pid [] = Some (gid * 8)).
  { apply (eval_at_mul e group_id group_m_op [] _ _ W32 Egid E8). apply I. lia. }
  assert (Egm : eval_at e grid_m_op [] = Some gm).
  { apply eval_at_const; [reflexivity | apply I; lia]. }
  assert (Esub0 : eval_at e sub0 [] = Some (gm - gid * 8)).
  { apply (eval_at_sub e grid_m_op first_pid [] _ _ eq_refl Egm Efirst). apply I. lia. }
  assert (Egs : eval_at e gsize [] = Some gs).
  { apply (eval_at_select_min e _ _ _ _ _ Esub0 E8). }
  assert (Erem : eval_at e (RemSIOp (pid_nc ids) gsize) [] = Some (pid mod gs)).
  { apply (eval_at_rem e _ _ _ _ _ pid_nc_value Egs); lia. }
  assert (Eremw : eval_at e (RemSIOp (pid_nc ids) width_op) [] = Some (pid mod (8 * gn))).
  { apply (eval_at_rem e _ _ _ _ _ pid_nc_value Ew); lia. }
  split; [exact Egs|]. split.
  - replace (8 * gid) with (gid * 8) by lia.
    apply (eval_at_add e first_pid _ [] _ _ W32 Efirst Erem). apply I. lia.
  - apply (eval_at_div e _ _ _ _ _ Eremw Egs); [| lia].
    apply Z.mod_pos_bound. lia.
Qed.

End Decoding.

(** X11.  The decoding of the program id into tile coordinates is a bijection
    between the program ids 0 .. grid_m * grid_n - 1 of the launch and the
    tiles of the grid_m x grid_n grid: two program instances that evaluate the
    emitted [pid_m] and [pid_n] to the same coordinates have the same program
    id, and every tile is the one of some program id; so every tile of the
    output is computed once. *)
Theorem swizzle_is_a_bijection (tile : Tiling) (ids : ProgramIds) ops sw ops' :
  swizzle tile ids ops = (Ok sw, ops') ->
  getType (pid_nc ids) = I32Type ->
  0 < grid_m tile <= INT_MAX -> 0 < grid_n tile ->
  width tile = group_m * grid_n tile -> width tile <= INT_MAX ->
  (forall e e' pid pid',
      eval e (pid_nc ids) = Some pid -> eval e' (pid_nc ids) = Some pid' ->
      0 <= pid < grid_m tile * grid_n tile -> 0 <= pid' < grid_m tile * grid_n tile ->
      eval e (pid_m sw) = eval e' (pid_m sw) ->
      eval e (pid_n sw) = eval e' (pid_n sw) ->
      pid = pid')
  /\ (forall a b,
         0 <= a < grid_m tile -> 0 <= b < grid_n tile ->
         exists pid,
           0 <= pid < grid_m tile * grid_n tile
           /\ forall e, eval e (pid_nc ids) = Some pid ->
                        eval e (pid_m sw) = Some a /\ eval e (pid_n sw) = Some b).
Proof.
  intros H Hty Hgm Hgn Hw Hwmax. split.
  - intros e e' pid pid' Hp Hp' Hr Hr' Em En.
    destruct (swizzle_decodes e tile ids pid Hty Hp Hgm Hgn Hw Hwmax Hr _ _ _ H)
      as (_ & M & N).
    destruct (swizzle_decodes e' tile ids pid' Hty Hp' Hgm Hgn Hw Hwmax Hr' _ _ _ H)
      as (_ & M' & N').
    rewrite M, M' in Em. rewrite N, N' in En. injection Em as Em. injection En as En.
    apply (tile_coordinates_injective (grid_m tile) (grid_n tile)); try assumption; lia.
  - intros a b Ha Hb.
    destruct (tile_coordinates_surjective (grid_m tile) (grid_n tile) a b
                ltac:(lia) Hgn Ha Hb) as (pid & Hr & Ea & Eb).
    exists pid. split; [exact Hr|]. intros e Hp.
    destruct (swizzle_decodes e tile ids pid Hty Hp Hgm Hgn Hw Hwmax Hr _ _ _ H)
      as (_ & M & N).
    rewrite M, N, Ea, Eb. split; reflexivity.
Qed.

Lemma swizzle_is_a_bijection_witness :
  match fst (swizzle Examples.tile_4x2 Examples.ids_small_batch []) with
  | Ok sw =>
      exists pid,
        0 <= pid < 8
        /\ forall e, eval e (pid_nc Examples.ids_small_batch) = Some pid ->
                     eval e (pid_m sw) = Some 3 /\ eval e (pid_n sw) = Some 1
  | _ => False
  end.
Proof.
  destruct (swizzle Examples.tile_4x2 Examples.ids_small_batch [])
    as [[sw | msg | msg] ops'] eqn:E.
  - exact (proj2 (swizzle_is_a_bijection Examples.tile_4x2 Examples.ids_small_batch
                    [] sw ops' E eq_refl
                    ltac:(vm_compute; split; [reflexivity | discriminate])
                    ltac:(reflexivity) ltac:(reflexivity) ltac:(vm_compute; discriminate))
                 3 1 ltac:(vm_compute; split; [discriminate | reflexivity])
                 ltac:(vm_compute; split; [discriminate | reflexivity])).
  - vm_compute in E. discriminate E.
  - vm_compute in E. discriminate E.
Defined.

(** ** The store of the output tile *)

Lemma int_ty_integer (T : IndexT) : isIntegerType (int_ty T) = true.
Proof. destruct T; reflexivity. Qed.

(** The operations [output_store] appends: the address and mask computations,
    the conversion of the accumulator, and the store. *)
Lemma output_store_Ok T info strides tile root_ty out acc_final ids sw ops ops' :
  output_store T info strides tile root_ty out acc_final ids sw ops = (Ok tt, ops') ->
  exists casted before mid,
    Cast acc_final root_ty mid = (Ok casted, (ops ++ before)%list)
    /\ ops' = (ops ++ before
               ++ [StoreOp (store_pointers T strides tile out ids sw) casted
                           (store_mask info tile sw)])%list.
Proof.
  intros H.
  unfold output_store, build_addptr, build_splat, build_bcast, convert_scalar,
    convert_range, CreateConst, CreateConstTensor, i32_ty in H.
  rewrite (int_ty_integer T) in H.
  destruct T;
    unfold BuilderMonad.bind at 1, BuilderMonad.create, BuilderMonad.ret in H;
    cbn [isIntegerType I32Type] in H.
  all: repeat (unfold BuilderMonad.bind at 1 in H).
  all: match type of H with
       | context [Cast ?a ?r ?m] =>
           destruct (Cast a r m) as [[casted | msg | msg] ops1] eqn:C;
           try discriminate;
           destruct (emits_Cast (fun _ => True) a r (fun _ _ => I)
                       (fun _ _ => I) (fun _ _ => I) (fun _ _ => I) _ _ _ C)
             as (new & Hnew & _)
       end.
  all: unfold BuilderMonad.emit in H; apply (f_equal snd) in H; cbn [snd] in H;
    subst ops' ops1.
  all: exists casted; eexists; eexists; split;
    [ rewrite C; f_equal; repeat rewrite <- app_assoc; reflexivity
    | repeat rewrite <- app_assoc; reflexivity ].
Qed.

Lemma program_ids_Ok info ops ids ops' :
  program_ids info ops = (Ok ids, ops') ->
  ids = {| pid_batch := GetProgramIdOp (if large_batch info then ProgramIDDim_X
                                        else ProgramIDDim_Y);
           pid_nc := GetProgramIdOp (if large_batch info then ProgramIDDim_Y
                                     else ProgramIDDim_X);
           pid_k := GetProgramIdOp ProgramIDDim_Z |}.
Proof.
  unfold program_ids, BuilderMonad.bind, BuilderMonad.create, BuilderMonad.ret.
  intros H. apply (f_equal fst) in H. cbn [fst] in H. injection H as <-. reflexivity.
Qed.

Lemma getArgument_Ok fn i ops v ops' :
  getArgument fn i ops = (Ok v, ops') ->
  exists ty, at_ fn i "fn.getArgument" = Ok ty /\ v = FuncArgument i ty /\ ops' = ops.
Proof.
  unfold getArgument. intros H. apply lift_Ok in H. destruct H as [H ->].
  apply outcome_bind_Ok in H. destruct H as (ty & E & H). injection H as <-.
  exists ty. repeat split. exact E.
Qed.

(** Where the store sits in the operations emitted by a successful lowering,
    and the values it is built from. *)
Lemma emit_kernel_store T W tf fn config info strides tile root_ty ops ld ops' :
  emit_kernel T W tf fn config info strides tile root_ty ops = (Ok ld, ops') ->
  exists out_ty ids sw acc_final before ops_sw ops_sw',
    at_ fn (Z.of_nat (List.length fn) - 1) "fn.getArgument" = Ok out_ty
    /\ pid_nc ids = GetProgramIdOp (if large_batch info then ProgramIDDim_Y
                                    else ProgramIDDim_X)
    /\ pid_k ids = GetProgramIdOp ProgramIDDim_Z
    /\ swizzle tile ids ops_sw = (Ok sw, ops_sw')
    /\ getType acc_final
       = RankedTensorType (shape_m_n tile)
                          (acc_ty root_ty (dot_ty (lhs_ty info) (rhs_ty info)))
    /\ output_store T info strides tile root_ty
                    (FuncArgument (Z.of_nat (List.length fn) - 1) out_ty)
                    acc_final ids sw (ops ++ before)%list
       = (Ok tt, ops').
Proof.
  unfold emit_kernel. intros H.
  bind_step_at H lhs ops1 El. apply lift_Ok in El. destruct El as [_ ->].
  bind_step_at H rhs ops2 Er. apply lift_Ok in Er. destruct Er as [_ ->].
  bind_step_at H out ops3 Eo. apply getArgument_Ok in Eo.
  destruct Eo as (out_ty & Eo & -> & ->).
  bind_step_at H ids ops4 Ei.
  destruct (program_ids_emits info _ _ _ Ei) as (n1 & -> & _ & _).
  apply program_ids_Ok in Ei.
  bind_step_at H u ops5 Eg. apply lift_Ok in Eg. destruct Eg as [_ ->].
  bind_step_at H sw ops6 Es.
  pose proof Es as Es'.
  destruct (swizzle_emits tile ids ltac:(subst ids; reflexivity) _ _ _ Es) as (n2 & -> & _ & _).
  bind_step_at H lhs_base ops7 Elp.
  destruct (lhs_pointers_emits T info tile lhs ids sw _ _ _ Elp) as (n3 & -> & _ & _).
  bind_step_at H rhs_base ops8 Erp.
  destruct (rhs_pointers_emits T info tile rhs ids sw _ _ _ Erp) as (n4 & -> & _ & _).
  bind_step_at H acc_init ops9 Ea.
  apply CreateConstTensor_Ok in Ea. destruct Ea as [-> ->].
  bind_step_at H acc_final ops10 Eloop.
  pose proof Eloop as Eloop'.
  apply reduction_loop_Ok in Eloop'. cbv zeta in Eloop'.
  destruct Eloop' as (body & _ & -> & Eacc).
  bind_step_at H u2 ops11 Est. destruct u2.
  unfold BuilderMonad.ret in H. apply (f_equal snd) in H. cbn [snd] in H. subst ops11.
  exists out_ty, ids, sw, acc_final. eexists. eexists. eexists.
  split; [exact Eo|]. split; [subst ids; reflexivity|]. split; [subst ids; reflexivity|].
  split; [exact Es'|]. split; [rewrite Eacc; reflexivity|].
  repeat rewrite <- app_assoc in Est. exact Est.
Qed.

Lemma operand_info_extents T dot_instr analysis config info :
  operand_info T dot_instr analysis config = Ok info ->
  in_int (m_minor info) /\ in_int (n info) /\ in_int (k info).
Proof.
  unfold operand_info. intros H. cbv zeta in H.
  repeat (apply outcome_bind_Ok in H;
          let x := fresh "x" in let E := fresh "E" in destruct H as (x & E & H)).
  destruct x19 as [[[bs sl] sr] mf]. inversion H; subst info; clear H. simpl.
  repeat split; apply to_int_range.
Qed.

Section StoreMask.

Variable e : Instance.
Variables bm bn m n : Z.
Variables rm rn : Value.

Hypothesis block_m_min : 16 <= bm.
Hypothesis block_n_min : 16 <= bn.
Hypothesis m_int : in_int m.
Hypothesis n_int : in_int n.
Hypothesis range_m_shape : getShape (getType rm) = [bm].
Hypothesis range_n_shape : getShape (getType rn) = [bn].

(** Element [i, j] of the mask of the store tells whether element [i] of the
    range of rows is below [m] and element [j] of the range of columns below
    [n]. *)
Lemma store_mask_meaning (i j x y : Z) :
  eval_at e rm [i] = Some x -> eval_at e rn [j] = Some y ->
  eval_at e
    (AndIOp
       (bcast_of (CmpIOp slt (ExpandDimsOp rm 1)
                         (ConstantOp (RankedTensorType [bm; 1] I32Type) m)) [bm; bn])
       (bcast_of (CmpIOp slt (ExpandDimsOp rn 0)
                         (ConstantOp (RankedTensorType [1; bn] I32Type) n)) [bm; bn]))
    [i; j]
  = Some (b2z ((x <? m) && (y <? n))).
Proof.
  intros Hx Hy.
  assert (Hm1 : (bm =? 1) = false) by (apply Z.eqb_neq; lia).
  assert (Hn1 : (bn =? 1) = false) by (apply Z.eqb_neq; lia).
  assert (A : eval_at e (bcast_of (CmpIOp slt (ExpandDimsOp rm 1)
                                   (ConstantOp (RankedTensorType [bm; 1] I32Type) m))
                                  [bm; bn]) [i; j]
              = Some (b2z (x <? m))).
  { unfold bcast_of. rewrite eval_at_broadcast.
    assert (B : broadcast_index
                  [i; j]
                  (getShape (getType (CmpIOp slt (ExpandDimsOp rm 1)
                               (ConstantOp (RankedTensorType [bm; 1] I32Type) m))))
                = [i; 0]).
    { cbn -[Z.eqb Z.to_nat]. rewrite range_m_shape. change (Z.to_nat 1) with 1%nat.
      cbn -[Z.eqb]. rewrite Hm1. reflexivity. }
    rewrite B. apply eval_at_slt.
    - rewrite eval_at_expand. change (Z.to_nat 1) with 1%nat. exact Hx.
    - apply eval_at_const; [reflexivity | exact m_int]. }
  assert (B : eval_at e (bcast_of (CmpIOp slt (ExpandDimsOp rn 0)
                                   (ConstantOp (RankedTensorType [1; bn] I32Type) n))
                                  [bm; bn]) [i; j]
              = Some (b2z (y <? n))).
  { unfold bcast_of. rewrite eval_at_broadcast.
    assert (B : broadcast_index
                  [i; j]
                  (getShape (getType (CmpIOp slt (ExpandDimsOp rn 0)
                               (ConstantOp (RankedTensorType [1; bn] I32Type) n))))
                = [0; j]).
    { cbn -[Z.eqb Z.to_nat]. rewrite range_n_shape. change (Z.to_nat 0) with 0%nat.
      cbn -[Z.eqb]. rewrite Hn1. reflexivity. }
    rewrite B. apply eval_at_slt.
    - rewrite eval_at_expand. change (Z.to_nat 0) with 0%nat. exact Hy.
    - apply eval_at_const; [reflexivity | exact n_int]. }
  change (eval_at e (AndIOp ?a ?b) ?idx)
    with (option_bind (eval_at e a idx)
            (fun x => option_bind (eval_at e b idx) (fun y => Some (Z.land x y)))).
  rewrite A, B. simpl. destruct (x <? m), (y <? n); reflexivity.
Qed.

End StoreMask.

(** Element [i] of the range of rows, or of columns, of the tile of
    coordinate [x]. *)
Lemma eval_tile_range (e : Instance) (pid_v : Value) (block x i : Z) :
  getType pid_v = I32Type -> eval_at e pid_v [] = Some x ->
  0 <= i < block -> in_int block -> in_int (x * block) -> in_int (x * block + i) ->
  eval_at e (AddIOp (SplatOp (RankedTensorType [block] (getType pid_v))
                             (MulIOp pid_v (ConstantOp I32Type block)))
                    (MakeRangeOp (RankedTensorType [block] I32Type) 0 block)) [i]
  = Some (x * block + i).
Proof.
  intros Hty Hx Hi Hb Hxb Hxbi.
  apply (eval_at_add e _ _ [i] (x * block) i); try assumption.
  - rewrite Hty. reflexivity.
  - rewrite eval_at_splat.
    apply (eval_at_mul e pid_v _ [] _ _); try assumption.
    + rewrite Hty. reflexivity.
    + apply eval_at_const; [reflexivity | assumption].
  - apply (eval_at_range _ _ 0 block i); lia.
Qed.

Lemma in_int_nonneg (z : Z) : 0 <= z <= INT_MAX -> in_int z.
Proof. unfold in_int, INT_MAX. change (2 ^ 31) with 2147483648. lia. Qed.

Section OutputStore.

Variable analyze : HloDotInstruction -> Z -> DotFusionAnalysis.
Variable W : Z.
Variable tf : bool.

(** The last operation of a successful lowering is the store of the output
    tile. *)
Lemma MatMulImpl_store T dot_instr fn config budget ops ld ops' :
  MatMulImpl analyze W tf T dot_instr fn config budget ops = (Ok ld, ops') ->
  exists p out_ty ids sw acc_final casted before mid ops_sw ops_sw',
    preamble analyze T dot_instr config = Ok p
    /\ at_ fn (Z.of_nat (List.length fn) - 1) "fn.getArgument" = Ok out_ty
    /\ pid_nc ids = GetProgramIdOp (if large_batch (p_info p) then ProgramIDDim_Y
                                    else ProgramIDDim_X)
    /\ swizzle (p_tile p) ids ops_sw = (Ok sw, ops_sw')
    /\ getType acc_final
       = RankedTensorType (shape_m_n (p_tile p))
           (acc_ty (p_root_ty p) (dot_ty (lhs_ty (p_info p)) (rhs_ty (p_info p))))
    /\ (exists new, Cast acc_final (p_root_ty p) mid = (Ok casted, (mid ++ new)%list))
    /\ ops'
       = (ops ++ before
          ++ [StoreOp (store_pointers T (p_strides p) (p_tile p)
                         (FuncArgument (Z.of_nat (List.length fn) - 1) out_ty) ids sw)
                      casted (store_mask (p_info p) (p_tile p) sw)])%list.
Proof.
  unfold MatMulImpl. intros H.
  bind_step_at H p ops1 P. apply lift_Ok in P. destruct P as [P ->].
  bind_step_at H u ops2 C. apply lift_Ok in C. destruct C as [_ ->].
  apply emit_kernel_store in H.
  destruct H as (out_ty & ids & sw & acc_final & before & ops_sw & ops_sw' & Eo & Enc & _
                 & Es & Ta & H).
  apply output_store_Ok in H. destruct H as (casted & before' & mid & Ec & ->).
  exists p, out_ty, ids, sw, acc_final, casted, (before ++ before')%list, mid, ops_sw, ops_sw'.
  split; [exact P|]. split; [exact Eo|]. split; [exact Enc|]. split; [exact Es|].
  split; [exact Ta|]. split.
  - destruct (emits_Cast (fun _ => True) acc_final (p_root_ty p) (fun _ _ => I)
                (fun _ _ => I) (fun _ _ => I) (fun _ _ => I) _ _ _ Ec) as (new & Hn & _).
    exists new. rewrite Ec. f_equal. exact Hn.
  - rewrite <- (app_assoc ops before). rewrite <- (app_assoc before before'). reflexivity.
Qed.

(** X12.  A successful lowering ends with the store of the output tile, and the
    store is well typed: it writes through a block_m x block_n tile of pointers
    of the type of the last argument of the kernel, a tile of the same shape
    whose elements have the Triton type of the dot's elements (the accumulator
    is converted to the output type before it is stored), under a mask of
    booleans of the same shape.  In a kernel built by [TritonWrapper] for a
    root with the dot's element type, the elements stored have the pointee type
    of the output pointers, and the store is followed by the return only. *)
Theorem output_store_is_well_typed :
  (forall T dot_instr fn config budget ops ld ops',
      MatMulImpl analyze W tf T dot_instr fn config budget ops = (Ok ld, ops') ->
      exists p out_ty before ptrs value mask,
        preamble analyze T dot_instr config = Ok p
        /\ at_ fn (Z.of_nat (List.length fn) - 1) "fn.getArgument" = Ok out_ty
        /\ ops' = (ops ++ before ++ [StoreOp ptrs value mask])%list
        /\ let shape_m_n := [t_block_m (p_tile p); t_block_n (p_tile p)] in
           getType ptrs = RankedTensorType shape_m_n out_ty
           /\ getType value = RankedTensorType shape_m_n (p_root_ty p)
           /\ getType mask = RankedTensorType shape_m_n I1Type)
  /\ (forall hlo device_info config pipeline ops ld program ops',
         TritonWrapper hlo device_info config (MatMul analyze W tf) pipeline ops
         = (Ok (ld, program), ops') ->
         exists dot before ptrs value mask,
           kernel_root hlo = HloDot dot
           /\ fn_body program = (ops ++ before ++ [StoreOp ptrs value mask; ReturnOp])%list
           /\ getShape (getType ptrs) = getShape (getType value)
           /\ (element_type (instruction_shape (root_instruction hlo))
               = element_type (shape dot) ->
               getElementType (getType ptrs)
               = PointerType (getElementType (getType value)))).
Proof.
  assert (A : forall T dot_instr fn config budget ops ld ops',
             MatMulImpl analyze W tf T dot_instr fn config budget ops = (Ok ld, ops') ->
             exists p out_ty before ptrs value mask,
               preamble analyze T dot_instr config = Ok p
               /\ at_ fn (Z.of_nat (List.length fn) - 1) "fn.getArgument" = Ok out_ty
               /\ ops' = (ops ++ before ++ [StoreOp ptrs value mask])%list
               /\ getType ptrs
                  = RankedTensorType [t_block_m (p_tile p); t_block_n (p_tile p)] out_ty
               /\ getType value
                  = RankedTensorType [t_block_m (p_tile p); t_block_n (p_tile p)]
                                     (p_root_ty p)
               /\ getType mask
                  = RankedTensorType [t_block_m (p_tile p); t_block_n (p_tile p)] I1Type).
  { intros T dot_instr fn config budget ops ld ops' H.
    apply MatMulImpl_store in H.
    destruct H as (p & out_ty & ids & sw & acc_final & casted & before & mid & o1 & o2
                   & P & Eo & _ & _ & Ta & (new & Ec) & ->).
    exists p, out_ty, before,
      (store_pointers T (p_strides p) (p_tile p)
         (FuncArgument (Z.of_nat (List.length fn) - 1) out_ty) ids sw),
      casted, (store_mask (p_info p) (p_tile p) sw).
    split; [exact P|]. split; [exact Eo|]. split; [reflexivity|].
    split; [reflexivity|]. split; [| reflexivity].
    destruct (preamble_Ok analyze T dot_instr config p P) as (_ & _ & _ & Er).
    assert (Sr : is_scalar_type (p_root_ty p) = true)
      by exact (TritonType_scalar _ _ Er).
    apply Cast_result in Ec. destruct Ec as [(-> & _ & E) | (_ & E)].
    - rewrite E, Ta. destruct (p_root_ty p); try discriminate; reflexivity.
    - rewrite E, Ta. destruct (p_root_ty p); try discriminate; reflexivity. }
  split; [exact A|].
  intros hlo dev config pipe ops ld prog ops' H.
  apply TritonWrapper_function in H.
  destruct H as (root_ty & param_tys & dot & ld0 & emitted & Hr & _ & -> & Hk & G).
  rewrite MatMul_unfold in G. apply A in G.
  destruct G as (p & out_ty & before & ptrs & value & mask & P & Eo & -> & Tp & Tv & _).
  exists dot, before, ptrs, value, mask.
  split; [exact Hk|]. split.
  { cbn [fn_body]. repeat rewrite <- app_assoc. reflexivity. }
  split; [rewrite Tp, Tv; reflexivity|].
  intros He. rewrite Tp, Tv. simpl.
  destruct (preamble_Ok analyze _ dot config p P) as (_ & _ & _ & Er).
  rewrite <- He, Hr in Er. injection Er as <-.
  unfold at_ in Eo.
  rewrite length_app in Eo. simpl in Eo.
  destruct (Z.ltb_spec (Z.of_nat (List.length param_tys + 1) - 1) 0); [lia|].
  replace (Z.to_nat (Z.of_nat (List.length param_tys + 1) - 1))
    with (List.length param_tys + 0)%nat in Eo by lia.
  rewrite nth_error_app2 in Eo by lia.
  replace (List.length param_tys + 0 - List.length param_tys)%nat with 0%nat in Eo by lia.
  simpl in Eo. injection Eo as <-.
  destruct root_ty; reflexivity.
Qed.

(** X13.  The mask of the store of the output tile is the boundary of the
    output: for the program instance that the launch gives the program id pid
    on the axis of the tiles, whose tile has the coordinates (pid_m, pid_n),
    element [i, j] of the mask is 1 exactly when row pid_m * block_m + i is
    below m_minor and column pid_n * block_n + j is below n; the overhang of
    the tiles of the last row and column of the grid is not written. *)
Theorem store_mask_is_the_output_boundary T dot_instr fn config budget ops ld ops' :
  MatMulImpl analyze W tf T dot_instr fn config budget ops = (Ok ld, ops') ->
  exists p before ptrs value mask,
    preamble analyze T dot_instr config = Ok p
    /\ ops' = (ops ++ before ++ [StoreOp ptrs value mask])%list
    /\ let info := p_info p in
       let tile := p_tile p in
       let gm := grid_m tile in
       let gn := grid_n tile in
       let bm := t_block_m tile in
       let bn := t_block_n tile in
       forall e i j,
         let pid := program_id e (if large_batch info then ProgramIDDim_Y
                                  else ProgramIDDim_X) in
         0 < gm -> 0 < gn -> gm * bm <= INT_MAX -> gn * bn <= INT_MAX ->
         0 <= pid < gm * gn -> 0 <= i < bm -> 0 <= j < bn ->
         eval_at e mask [i; j]
         = Some (b2z ((tile_m gm gn pid * bm + i <? m_minor info)
                      && (tile_n gm gn pid * bn + j <? n info))).
Proof.
  intros H. apply MatMulImpl_store in H.
  destruct H as (p & out_ty & ids & sw & acc_final & casted & before & mid & o1 & o2
                 & P & _ & Enc & Es & _ & _ & ->).
  exists p, before,
    (store_pointers T (p_strides p) (p_tile p)
       (FuncArgument (Z.of_nat (List.length fn) - 1) out_ty) ids sw),
    casted, (store_mask (p_info p) (p_tile p) sw).
  split; [exact P|]. split; [reflexivity|]. cbv zeta.
  intros e i j Hgm Hgn Hmax Hnmax Hpid Hi Hj.
  destruct (preamble_Ok analyze T dot_instr config p P) as (Ei & _ & Et & _).
  destruct (operand_info_extents _ _ _ _ _ Ei) as (Im & In_ & _).
  destruct (tiling_Ok _ _ _ Et) as (_ & _ & _ & Bm & _ & Bn & _ & _ & Wd).
  unfold INT_MAX in *.
  assert (Hw : width (p_tile p) = group_m * grid_n (p_tile p)).
  { rewrite Wd. apply to_int_id. apply in_int_nonneg. unfold group_m, INT_MAX. nia. }
  set (pid := program_id e (if large_batch (p_info p) then ProgramIDDim_Y
                            else ProgramIDDim_X)) in *.
  assert (Ty : getType (pid_nc ids) = I32Type) by (rewrite Enc; reflexivity).
  assert (Ev : eval e (pid_nc ids) = Some pid) by (rewrite Enc; reflexivity).
  destruct (swizzle_decodes e (p_tile p) ids pid Ty Ev
              ltac:(unfold INT_MAX; nia) Hgn Hw
              ltac:(rewrite Hw; unfold group_m, INT_MAX; nia) Hpid _ _ _ Es)
    as (_ & Em & En).
  destruct (swizzle_arith (grid_m (p_tile p)) (grid_n (p_tile p)) pid Hgm Hgn Hpid)
    as (G0 & _ & S & R & M & N). cbv zeta in S, R, M, N.
  pose proof (swizzle_Ok _ _ _ _ _ Es) as St. cbv zeta in St.
  destruct St as (_ & _ & Epm & Epn & Erm & Ern & _).
  set (pm := tile_m (grid_m (p_tile p)) (grid_n (p_tile p)) pid) in *.
  set (pn := tile_n (grid_m (p_tile p)) (grid_n (p_tile p)) pid) in *.
  assert (Rm : 0 <= pm < grid_m (p_tile p)).
  { unfold pm, tile_m, tile_group_size.
    replace (grid_m (p_tile p) - 8 * (pid / (8 * grid_n (p_tile p))))
      with (grid_m (p_tile p) - pid / (8 * grid_n (p_tile p)) * 8) by lia. lia. }
  assert (Rn : 0 <= pn < grid_n (p_tile p)).
  { unfold pn, tile_n, tile_group_size.
    replace (grid_m (p_tile p) - 8 * (pid / (8 * grid_n (p_tile p))))
      with (grid_m (p_tile p) - pid / (8 * grid_n (p_tile p)) * 8) by lia. lia. }
  assert (Tpm : getType (pid_m sw) = I32Type) by (rewrite Epm; simpl; exact Ty).
  assert (Tpn : getType (pid_n sw) = I32Type) by (rewrite Epn; simpl; exact Ty).
  unfold store_mask, shape_m_n, shape_m_1, shape_1_n.
  apply store_mask_meaning; try assumption.
  - rewrite Erm. reflexivity.
  - rewrite Ern. reflexivity.
  - rewrite Erm. apply eval_tile_range; try assumption; apply in_int_nonneg;
      unfold INT_MAX; nia.
  - rewrite Ern. apply eval_tile_range; try assumption; apply in_int_nonneg;
      unfold INT_MAX; nia.
Qed.

End OutputStore.

Lemma output_store_is_well_typed_witness :
  match fst (TritonWrapper Examples.computation_100x70x50 Examples.device_96k
                           Examples.config_32 (MatMul Examples.dense_analysis 32 true)
                           (Examples.pipeline_reporting 4096) []) with
  | Ok (_, program) =>
      exists before ptrs value mask,
        fn_body program = (before ++ [StoreOp ptrs value mask; ReturnOp])%list
        /\ getShape (getType ptrs) = getShape (getType value)
        /\ getElementType (getType ptrs) = PointerType (getElementType (getType value))
  | _ => False
  end.
Proof.
  destruct (TritonWrapper Examples.computation_100x70x50 Examples.device_96k
                          Examples.config_32 (MatMul Examples.dense_analysis 32 true)
                          (Examples.pipeline_reporting 4096) [])
    as [[[ld program] | msg | msg] ops'] eqn:E.
  - destruct (proj2 (output_store_is_well_typed Examples.dense_analysis 32 true)
                    _ _ _ _ _ _ _ _ E)
      as (dot & before & ptrs & value & mask & Hk & Hb & Hs & He).
    injection Hk as <-. exists before, ptrs, value, mask.
    split; [exact Hb|]. split; [exact Hs|]. apply He. reflexivity.
  - vm_compute in E. discriminate E.
  - vm_compute in E. discriminate E.
Defined.

Lemma store_mask_is_the_output_boundary_witness :
  match MatMulImpl Examples.dense_analysis 32 true int32_t Examples.dot_100x70x50
                   Examples.fn_f16 Examples.config_32 98304 [] with
  | (Ok _, ops') =>
      exists before ptrs value mask,
        ops' = (before ++ [StoreOp ptrs value mask])%list
        /\ eval_at Examples.instance_7 mask [3; 17] = Some 1
        /\ eval_at Examples.instance_7 mask [4; 17] = Some 0
        /\ eval_at Examples.instance_7 mask [3; 18] = Some 0
  | _ => False
  end.
Proof.
  destruct (MatMulImpl Examples.dense_analysis 32 true int32_t Examples.dot_100x70x50
                       Examples.fn_f16 Examples.config_32 98304 [])
    as [[ld | msg | msg] ops'] eqn:E.
  - destruct (store_mask_is_the_output_boundary Examples.dense_analysis 32 true
                _ _ _ _ _ _ _ _ E)
      as (p & before & ptrs & value & mask & P & Hops & H).
    vm_compute in P. injection P as <-. cbv zeta in H.
    exists before, ptrs, value, mask.
    split; [exact Hops|].
    pose proof (H Examples.instance_7 3 17) as H1.
    pose proof (H Examples.instance_7 4 17) as H2.
    pose proof (H Examples.instance_7 3 18) as H3. clear H.
    cbv zeta in H1, H2, H3.
    specialize (H1 ltac:(reflexivity) ltac:(reflexivity) ltac:(vm_compute; discriminate) ltac:(vm_compute; discriminate)
                   ltac:(vm_compute; split; [discriminate | reflexivity]) ltac:(vm_compute; split; [discriminate | reflexivity]) ltac:(vm_compute; split; [discriminate | reflexivity])).
    specialize (H2 ltac:(reflexivity) ltac:(reflexivity) ltac:(vm_compute; discriminate) ltac:(vm_compute; discriminate)
                   ltac:(vm_compute; split; [discriminate | reflexivity]) ltac:(vm_compute; split; [discriminate | reflexivity]) ltac:(vm_compute; split; [discriminate | reflexivity])).
    specialize (H3 ltac:(reflexivity) ltac:(reflexivity) ltac:(vm_compute; discriminate) ltac:(vm_compute; discriminate)
                   ltac:(vm_compute; split; [discriminate | reflexivity]) ltac:(vm_compute; split; [discriminate | reflexivity]) ltac:(vm_compute; split; [discriminate | reflexivity])).
    split; [exact H1 | split; [exact H2 | exact H3]].
  - vm_compute in E. discriminate E.
  - vm_compute in E. discriminate E.
Defined.

(** ** The addresses of the operand tiles *)

Lemma lhs_pointers_Ok T info tile lhs ids sw ops ptrs ops' :
  lhs_pointers T info tile lhs ids sw ops = (Ok ptrs, ops') ->
  ptrs = addptr_of (splat_of (addptr_of lhs (batch_offset T ids (stride_batch_lhs info)))
                             (shape_m_k tile))
                   (lhs_tile_offset T info tile sw).
Proof.
  intros H.
  unfold lhs_pointers, build_addptr, build_splat, build_bcast, convert_scalar,
    convert_range, CreateConst, CreateConstTensor, i32_ty in H.
  rewrite (int_ty_integer T) in H.
  destruct T;
    unfold BuilderMonad.bind, BuilderMonad.create, BuilderMonad.ret in H;
    cbn [isIntegerType I32Type] in H;
    apply (f_equal fst) in H; cbn [fst] in H; injection H as <-; reflexivity.
Qed.

Lemma rhs_pointers_Ok T info tile rhs ids sw ops ptrs ops' :
  rhs_pointers T info tile rhs ids sw ops = (Ok ptrs, ops') ->
  ptrs = addptr_of (splat_of (addptr_of rhs (batch_offset T ids (stride_batch_rhs info)))
                             (shape_k_n tile))
                   (rhs_tile_offset T info tile sw).
Proof.
  intros H.
  unfold rhs_pointers, build_addptr, build_splat, build_bcast, convert_scalar,
    convert_range, CreateConst, CreateConstTensor, i32_ty in H.
  rewrite (int_ty_integer T) in H.
  destruct T;
    unfold BuilderMonad.bind, BuilderMonad.create, BuilderMonad.ret in H;
    cbn [isIntegerType I32Type] in H;
    apply (f_equal fst) in H; cbn [fst] in H; injection H as <-; reflexivity.
Qed.

Section EvalIndex.

Variable e : Instance.
Variable T : IndexT.











End EvalIndex.





Section Addressing.

Variable analyze : HloDotInstruction -> Z -> DotFusionAnalysis.
Variable W : Z.
Variable tf : bool.


End Addressing.


(** ** Lowerings that cannot fail *)

Section Succeeds.
Import BuilderMonad.

Lemma succeeds_ret {A : Type} (a : A) (R : A -> Prop) : R a -> succeeds (ret a) R.
Proof. intros H ops. exists a, ops. split; [reflexivity | exact H]. Qed.

Lemma succeeds_create (v : Value) (R : Value -> Prop) : R v -> succeeds (create v) R.
Proof. intros H ops. eexists. eexists. split; [reflexivity | exact H]. Qed.

Lemma succeeds_emit (o : Operation) (R : unit -> Prop) : R tt -> succeeds (emit o) R.
Proof. intros H ops. eexists. eexists. split; [reflexivity | exact H]. Qed.

Lemma succeeds_lift {A : Type} (o : Outcome A) (a : A) (R : A -> Prop) :
  o = Ok a -> R a -> succeeds (lift o) R.
Proof. intros -> H ops. exists a, ops. split; [reflexivity | exact H]. Qed.

Lemma succeeds_bind {A B : Type} (m : Builder A) (f : A -> Builder B)
    (R1 : A -> Prop) (R2 : B -> Prop) :
  succeeds m R1 -> (forall a, R1 a -> succeeds (f a) R2) -> succeeds (bind m f) R2.
Proof.
  intros Hm Hf ops. destruct (Hm ops) as (a & ops1 & E & Ra).
  destruct (Hf a Ra ops1) as (b & ops2 & E2 & Rb).
  exists b, ops2. unfold bind. rewrite E. split; [exact E2 | exact Rb].
Qed.

Lemma succeeds_in_new_block {A : Type} (m : Builder A) (R : A -> Prop) :
  succeeds m R -> succeeds (in_new_block m) (fun r => R (fst r)).
Proof.
  intros Hm ops. destruct (Hm []) as (a & body & E & Ra).
  exists (a, body), ops. unfold in_new_block. rewrite E. split; [reflexivity | exact Ra].
Qed.

Lemma succeeds_CreateConst (ty : Ty) (v : Z) :
  is_scalar_type ty = true -> succeeds (CreateConst ty v) (eq (ConstantOp ty v)).
Proof.
  unfold is_scalar_type, CreateConst. intros H.
  destruct (isIntegerType ty); [now apply succeeds_create|].
  destruct (isFloatType ty); [now apply succeeds_create | discriminate].
Qed.

Lemma succeeds_CreateConstTensor (ty : Ty) (v : Z) (shape : list Z) :
  is_scalar_type ty = true ->
  succeeds (CreateConstTensor ty v shape) (eq (ConstantOp (RankedTensorType shape ty) v)).
Proof.
  unfold is_scalar_type, CreateConstTensor. intros H.
  destruct (isIntegerType ty); [now apply succeeds_create|].
  destruct (isFloatType ty); [now apply succeeds_create | discriminate].
Qed.

(** A conversion with a float on one side and a float or an integer on the
    other is supported. *)
Lemma succeeds_Cast (v : Value) (dst : Ty) :
  is_scalar_type (getElementType (getType v)) = true -> is_scalar_type dst = true ->
  isFloatType (getElementType (getType v)) || isFloatType dst = true ->
  succeeds (Cast v dst) (fun v' => getType v' = with_element_type (getType v) dst).
Proof.
  intros Hs Hd Hf ops.
  destruct (Cast v dst ops) as [[v' | msg | msg] ops'] eqn:E.
  - exists v', ops'. split; [reflexivity|].
    apply Cast_result in E. destruct E as [(-> & _ & E) | (_ & E)]; exact E.
  - pose proof (quiet_Cast v dst ops) as Q. rewrite E in Q. discriminate.
  - exfalso. revert E. unfold Cast, is_scalar_type in *.
    destruct (Ty_eqb (getType v) (with_element_type (getType v) dst)); [discriminate|].
    destruct (isFloatType (getElementType (getType v))) eqn:Fs;
      destruct (isFloatType dst) eqn:Fd; simpl in *; try discriminate.
    + destruct ((isF16 (getElementType (getType v)) && isBF16 dst)
                || (isBF16 (getElementType (getType v)) && isF16 dst)); [discriminate|].
      destruct (getFPMantissaWidth (getElementType (getType v)) >? getFPMantissaWidth dst);
        discriminate.
    + rewrite Hd. destruct (isIntegerType (getElementType (getType v))); discriminate.
    + rewrite Hs. discriminate.
Qed.

End Succeeds.

Lemma int_ty_scalar (T : IndexT) : is_scalar_type (int_ty T) = true.
Proof. destruct T; reflexivity. Qed.

Lemma dot_ty_scalar (a b : Ty) : is_scalar_type (dot_ty a b) = true.
Proof. unfold is_scalar_type. now rewrite dot_ty_float. Qed.

Lemma acc_ty_float (a b : Ty) : isFloatType (acc_ty a b) = true.
Proof. unfold acc_ty. destruct (isF64 a && isF64 b); reflexivity. Qed.

Ltac solve_scalar :=
  first [ reflexivity | assumption | apply int_ty_scalar | apply dot_ty_scalar
        | unfold is_scalar_type; rewrite acc_ty_float; reflexivity ].

(** One step of the execution of a builder that cannot fail. *)
Ltac succeeds_step :=
  cbv beta;
  match goal with
  | |- succeeds (BuilderMonad.bind (BuilderMonad.create ?v) _) _ =>
      apply (succeeds_bind _ _ (eq v));
      [apply succeeds_create; reflexivity | intros ? <-]
  | |- succeeds (BuilderMonad.bind (CreateConst ?ty ?v) _) _ =>
      apply (succeeds_bind _ _ (eq (ConstantOp ty v)));
      [apply succeeds_CreateConst; solve_scalar | intros ? <-]
  | |- succeeds (BuilderMonad.bind (CreateConstTensor ?ty ?v ?sh) _) _ =>
      apply (succeeds_bind _ _ (eq (ConstantOp (RankedTensorType sh ty) v)));
      [apply succeeds_CreateConstTensor; solve_scalar | intros ? <-]
  | |- succeeds (BuilderMonad.bind (BuilderMonad.ret ?a) _) _ =>
      apply (succeeds_bind _ _ (eq a)); [apply succeeds_ret; reflexivity | intros ? <-]
  | |- succeeds (BuilderMonad.bind (BuilderMonad.emit ?o) _) _ =>
      apply (succeeds_bind _ _ (fun _ => True));
      [apply succeeds_emit; exact I | intros ? _]
  | |- succeeds (BuilderMonad.create _) _ => apply succeeds_create
  | |- succeeds (BuilderMonad.emit _) _ => apply succeeds_emit
  | |- succeeds (BuilderMonad.ret _) _ => apply succeeds_ret
  end.

Section EmissionSucceeds.

Variable T : IndexT.
Variable W : Z.
Variable tf : bool.
Variable fn : list Ty.
Variable config : TritonGemmKey.
Variable info : OperandInfo.
Variable strides : OutStrides.
Variable tile : Tiling.
Variable root_ty : Ty.

Hypothesis lhs_ty_scalar : is_scalar_type (lhs_ty info) = true.
Hypothesis rhs_ty_scalar : is_scalar_type (rhs_ty info) = true.
Hypothesis root_ty_scalar : is_scalar_type root_ty = true.
Hypothesis step_nonzero : loop_step config tile <> 0.

Lemma program_ids_succeeds : succeeds (program_ids info) (fun _ => True).
Proof. unfold program_ids. repeat succeeds_step. exact I. Qed.

Lemma swizzle_succeeds ids : succeeds (swizzle tile ids) (fun _ => True).
Proof.
  unfold swizzle, i32_ty, build_splat, build_range. repeat succeeds_step. exact I.
Qed.

Lemma lhs_pointers_succeeds lhs ids sw :
  succeeds (lhs_pointers T info tile lhs ids sw)
           (fun ptrs => getType ptrs = RankedTensorType (shape_m_k tile) (getType lhs)).
Proof.
  unfold lhs_pointers, i32_ty, build_splat, build_bcast, build_addptr, convert_range,
    convert_scalar.
  destruct T; cbv iota; repeat succeeds_step; reflexivity.
Qed.

Lemma rhs_pointers_succeeds rhs ids sw :
  succeeds (rhs_pointers T info tile rhs ids sw)
           (fun ptrs => getType ptrs = RankedTensorType (shape_k_n tile) (getType rhs)).
Proof.
  unfold rhs_pointers, i32_ty, build_splat, build_bcast, build_addptr, convert_range,
    convert_scalar.
  destruct T; cbv iota; repeat succeeds_step; reflexivity.
Qed.

Lemma load_guards_succeeds range_k ki :
  succeeds (load_guards config info tile range_k ki) (fun _ => True).
Proof.
  unfold load_guards, i32_ty, build_splat, build_bcast.
  destruct (Z.eqb_spec (loop_step config tile) 0) as [Z0 | _]; [now elim step_nonzero|].
  destruct (needs_mask config info tile); repeat succeeds_step; exact I.
Qed.

Lemma body_builder_succeeds range_k ki lhs_ptrs rhs_ptrs acc shape_l shape_r :
  getType lhs_ptrs = RankedTensorType shape_l (getElementType (getType lhs_ptrs)) ->
  getType rhs_ptrs = RankedTensorType shape_r (getElementType (getType rhs_ptrs)) ->
  is_scalar_type (getPointeeType (getElementType (getType lhs_ptrs))) = true ->
  is_scalar_type (getPointeeType (getElementType (getType rhs_ptrs))) = true ->
  succeeds (body_builder T tf config info tile range_k ki [lhs_ptrs; rhs_ptrs; acc])
           (fun _ => True).
Proof.
  intros Tl Tr Sl Sr. unfold body_builder.
  change (at_ [lhs_ptrs; rhs_ptrs; acc] 0 "iterArgs[0]") with (Ok lhs_ptrs).
  change (at_ [lhs_ptrs; rhs_ptrs; acc] 1 "iterArgs[1]") with (Ok rhs_ptrs).
  change (at_ [lhs_ptrs; rhs_ptrs; acc] 2 "iterArgs[2]") with (Ok acc).
  apply (succeeds_bind _ _ (eq lhs_ptrs));
    [apply (succeeds_lift _ lhs_ptrs); reflexivity | intros ? <-].
  apply (succeeds_bind _ _ (eq rhs_ptrs));
    [apply (succeeds_lift _ rhs_ptrs); reflexivity | intros ? <-].
  apply (succeeds_bind _ _ (eq acc));
    [apply (succeeds_lift _ acc); reflexivity | intros ? <-].
  apply (succeeds_bind _ _ (fun _ => True)); [apply load_guards_succeeds | intros g _].
  succeeds_step. succeeds_step.
  assert (Sc : forall p m o,
             getType p = RankedTensorType shape_l (getElementType (getType p))
             \/ getType p = RankedTensorType shape_r (getElementType (getType p)) ->
             is_scalar_type (getPointeeType (getElementType (getType p))) = true ->
             succeeds (Cast (LoadOp p m o) (dot_ty (lhs_ty info) (rhs_ty info)))
                      (fun _ => True)).
  { intros p m o Tp Sp ops.
    destruct (succeeds_Cast (LoadOp p m o) (dot_ty (lhs_ty info) (rhs_ty info))) with ops
      as (a & ops' & E & _).
    - cbn [getType]. destruct Tp as [Tp | Tp]; rewrite Tp; exact Sp.
    - apply dot_ty_scalar.
    - rewrite dot_ty_float. apply orb_true_r.
    - exists a, ops'. split; [exact E | exact I]. }
  apply (succeeds_bind _ _ (fun _ => True)); [apply Sc; [left; exact Tl | exact Sl]|].
  intros casted_lhs _.
  apply (succeeds_bind _ _ (fun _ => True)); [apply Sc; [right; exact Tr | exact Sr]|].
  intros casted_rhs _.
  unfold build_addptr. repeat succeeds_step. exact I.
Qed.

Lemma reduction_loop_succeeds lhs_base rhs_base acc_init sw shape_l shape_r lhs_arg rhs_arg :
  getType lhs_base = RankedTensorType shape_l lhs_arg ->
  getType rhs_base = RankedTensorType shape_r rhs_arg ->
  is_scalar_type (getPointeeType lhs_arg) = true ->
  is_scalar_type (getPointeeType rhs_arg) = true ->
  succeeds (reduction_loop T tf config info tile lhs_base rhs_base acc_init sw)
           (fun acc_final => getType acc_final = getType acc_init).
Proof.
  intros Tl Tr Sl Sr. unfold reduction_loop.
  do 3 succeeds_step.
  unfold body_arguments. cbn [List.length seq combine map].
  apply (succeeds_bind _ _ (fun _ => True)).
  { apply (succeeds_in_new_block _ (fun _ => True)).
    apply (body_builder_succeeds _ _ _ _ _ shape_l shape_r); cbn [getType];
      try rewrite Tl; try rewrite Tr; try reflexivity; assumption. }
  intros r _. succeeds_step. succeeds_step. reflexivity.
Qed.

Lemma output_store_succeeds out acc_final ids sw shape_acc elem_acc :
  getType acc_final = RankedTensorType shape_acc elem_acc ->
  isFloatType elem_acc = true ->
  succeeds (output_store T info strides tile root_ty out acc_final ids sw) (fun _ => True).
Proof.
  intros Ta Fa.
  unfold output_store, i32_ty, build_splat, build_bcast, build_addptr, convert_range,
    convert_scalar.
  destruct T; cbv iota; repeat succeeds_step.
  all: apply (succeeds_bind _ _ (fun _ => True));
    [| intros casted _; succeeds_step; exact I].
  all: intros ops;
    destruct (succeeds_Cast acc_final root_ty) with ops as (a & ops' & E & _);
    [ rewrite Ta; unfold is_scalar_type; cbn [getElementType]; rewrite Fa; reflexivity
    | exact root_ty_scalar
    | rewrite Ta; cbn [getElementType]; rewrite Fa; reflexivity
    | exists a, ops'; split; [exact E | exact I] ].
Qed.

(** The guard on the number of blocks compares a 32-bit integer with 2^32. *)
Lemma grid_guard_Ok : grid_guard info tile = Ok tt.
Proof.
  unfold grid_guard, CHECK_LT, CHECK, grid_guard_value, kBlockCountYZLimit.
  pose proof (to_int_range (to_int (batch_size info * grid_m tile) * grid_n tile)) as R.
  unfold in_int, INT_MAX in R.
  destruct (Z.ltb_spec (to_int (to_int (batch_size info * grid_m tile) * grid_n tile))
                       (65536 * 65536)); [reflexivity | lia].
Qed.

(** With the three arguments of the kernel in place, the emission of the
    kernel cannot fail. *)
Lemma emit_kernel_succeeds lhs_arg rhs_arg out_arg :
  at_ fn (lhs_parameter_number info) "fn.getArgument" = Ok lhs_arg ->
  at_ fn (rhs_parameter_number info) "fn.getArgument" = Ok rhs_arg ->
  at_ fn (Z.of_nat (List.length fn) - 1) "fn.getArgument" = Ok out_arg ->
  is_scalar_type (getPointeeType lhs_arg) = true ->
  is_scalar_type (getPointeeType rhs_arg) = true ->
  succeeds (emit_kernel T W tf fn config info strides tile root_ty)
           (eq (launch_dimensions W config info tile)).
Proof.
  intros El Er Eo Sl Sr. unfold emit_kernel, getArgument. rewrite El, Er, Eo.
  cbn [OutcomeMonad.bind].
  apply (succeeds_bind _ _ (eq (FuncArgument (lhs_parameter_number info) lhs_arg)));
    [eapply succeeds_lift; reflexivity | intros ? <-].
  apply (succeeds_bind _ _ (eq (FuncArgument (rhs_parameter_number info) rhs_arg)));
    [eapply succeeds_lift; reflexivity | intros ? <-].
  apply (succeeds_bind _ _ (eq (FuncArgument (Z.of_nat (List.length fn) - 1) out_arg)));
    [eapply succeeds_lift; reflexivity | intros ? <-].
  apply (succeeds_bind _ _ (fun _ => True)); [apply program_ids_succeeds | intros ids _].
  apply (succeeds_bind _ _ (fun _ => True));
    [apply (succeeds_lift _ tt); [apply grid_guard_Ok | exact I] | intros ? _].
  apply (succeeds_bind _ _ (fun _ => True)); [apply swizzle_succeeds | intros sw _].
  eapply succeeds_bind; [apply lhs_pointers_succeeds | intros lhs_base Tl].
  eapply succeeds_bind; [apply rhs_pointers_succeeds | intros rhs_base Tr].
  succeeds_step.
  eapply succeeds_bind.
  { apply (reduction_loop_succeeds _ _ _ _ _ _ _ _ Tl Tr); assumption. }
  intros acc_final Ta. cbn [getType] in Ta.
  apply (succeeds_bind _ _ (fun _ => True)).
  { apply (output_store_succeeds _ _ _ _ _ _ Ta). apply acc_ty_float. }
  intros ? _. apply succeeds_ret. reflexivity.
Qed.

End EmissionSucceeds.

Lemma parameter_types_pointers (ps : list HloParameter) (tys : list Ty) :
  parameter_types ps = Ok tys ->
  List.length tys = List.length ps
  /\ Forall (fun ty => is_scalar_type (getPointeeType ty) = true) tys.
Proof.
  intros H. apply parameter_types_Ok in H.
  induction H as [| p ty ps tys (e & He & ->) _ [IHl IHf]]; simpl.
  - split; [reflexivity | constructor].
  - split; [now rewrite IHl|]. constructor; [| exact IHf].
    simpl. exact (TritonType_scalar _ _ He).
Qed.

Section LoweringSucceeds.

Variable analyze : HloDotInstruction -> Z -> DotFusionAnalysis.
Variable W : Z.
Variable tf : bool.

Lemma MatMulImpl_succeeds T dot_instr fn config budget ops p lhs_arg rhs_arg out_arg :
  preamble analyze T dot_instr config = Ok p ->
  required_shmem_size config (p_info p) (p_tile p) <= budget ->
  loop_step config (p_tile p) <> 0 ->
  at_ fn (lhs_parameter_number (p_info p)) "fn.getArgument" = Ok lhs_arg ->
  at_ fn (rhs_parameter_number (p_info p)) "fn.getArgument" = Ok rhs_arg ->
  at_ fn (Z.of_nat (List.length fn) - 1) "fn.getArgument" = Ok out_arg ->
  is_scalar_type (getPointeeType lhs_arg) = true ->
  is_scalar_type (getPointeeType rhs_arg) = true ->
  exists ops',
    MatMulImpl analyze W tf T dot_instr fn config budget ops
    = (Ok (launch_dimensions W config (p_info p) (p_tile p)), ops').
Proof.
  intros P Hs Hstep El Er Eo Sl Sr.
  destruct (preamble_Ok analyze T dot_instr config p P) as (Ei & _ & _ & Ert).
  destruct (operand_info_types _ _ _ _ _ Ei) as (Tl & Tr).
  destruct (emit_kernel_succeeds T W tf fn config (p_info p) (p_strides p) (p_tile p)
              (p_root_ty p) (TritonType_scalar _ _ Tl) (TritonType_scalar _ _ Tr)
              (TritonType_scalar _ _ Ert) Hstep lhs_arg rhs_arg out_arg El Er Eo Sl Sr ops)
    as (ld & ops' & E & <-).
  exists ops'. unfold MatMulImpl, BuilderMonad.bind, BuilderMonad.lift. rewrite P.
  destruct (check_shmem_cases config (p_info p) (p_tile p) budget) as [[_ C] | [G _]];
    [| lia].
  rewrite C. exact E.
Qed.

(** X15.  The lowering of a dot that passes the checks of the analysis, whose
    shared-memory estimate fits in the budget and whose loop step
    block_k * split_k is not zero cannot fail: with the arguments of the
    operands and of the output in the kernel function, pointers to floats or
    integers, [MatMulImpl] emits the kernel and returns the launch dimensions;
    the conversions and the constants it needs are all supported.  So [MatMul]
    succeeds on the kernel function that [TritonWrapper] builds, one pointer
    per parameter of the computation and one for the root, whenever the
    operands of the dot are parameters of the computation. *)
Theorem lowering_of_checked_dots_succeeds :
  (forall T dot_instr fn config budget ops p lhs_arg rhs_arg out_arg,
      preamble analyze T dot_instr config = Ok p ->
      required_shmem_size config (p_info p) (p_tile p) <= budget ->
      loop_step config (p_tile p) <> 0 ->
      at_ fn (lhs_parameter_number (p_info p)) "fn.getArgument" = Ok lhs_arg ->
      at_ fn (rhs_parameter_number (p_info p)) "fn.getArgument" = Ok rhs_arg ->
      at_ fn (Z.of_nat (List.length fn) - 1) "fn.getArgument" = Ok out_arg ->
      is_scalar_type (getPointeeType lhs_arg) = true ->
      is_scalar_type (getPointeeType rhs_arg) = true ->
      exists ops',
        MatMulImpl analyze W tf T dot_instr fn config budget ops
        = (Ok (launch_dimensions W config (p_info p) (p_tile p)), ops'))
  /\ (forall hlo config budget ops dot p root_ty param_tys,
         let params := Z.of_nat (List.length (parameter_instructions hlo)) in
         TritonType (element_type (instruction_shape (root_instruction hlo)))
         = Ok root_ty ->
         parameter_types (parameter_instructions hlo) = Ok param_tys ->
         preamble analyze (index_type dot config) dot config = Ok p ->
         required_shmem_size config (p_info p) (p_tile p) <= budget ->
         loop_step config (p_tile p) <> 0 ->
         0 <= lhs_parameter_number (p_info p) < params ->
         0 <= rhs_parameter_number (p_info p) < params ->
         exists emitted,
           MatMul analyze W tf dot (param_tys ++ [PointerType root_ty])%list config
                  budget ops
           = (Ok (launch_dimensions W config (p_info p) (p_tile p)), emitted)).
Proof.
  split; [exact MatMulImpl_succeeds|].
  intros hlo config budget ops dot p root_ty tys params Ert Ept P Hs Hstep Hl Hr.
  destruct (parameter_types_pointers _ _ Ept) as (Len & Ptr).
  set (fn := (tys ++ [PointerType root_ty])%list).
  assert (At : forall i, 0 <= i < params ->
                         exists ty, at_ fn i "fn.getArgument" = Ok ty
                                    /\ is_scalar_type (getPointeeType ty) = true).
  { intros i Hi. unfold at_, fn. destruct (Z.ltb_spec i 0); [lia|].
    unfold params in Hi. rewrite <- Len in Hi.
    rewrite nth_error_app1 by lia.
    destruct (nth_error tys (Z.to_nat i)) as [ty |] eqn:N.
    - exists ty. split; [reflexivity|].
      rewrite Forall_forall in Ptr. apply Ptr. eapply nth_error_In. exact N.
    - apply nth_error_None in N. lia. }
  destruct (At _ Hl) as (lhs_arg & El & Sl). destruct (At _ Hr) as (rhs_arg & Er & Sr).
  assert (Eo : at_ fn (Z.of_nat (List.length fn) - 1) "fn.getArgument"
               = Ok (PointerType root_ty)).
  { unfold at_, fn. rewrite length_app. simpl.
    destruct (Z.ltb_spec (Z.of_nat (List.length tys + 1) - 1) 0); [lia|].
    replace (Z.to_nat (Z.of_nat (List.length tys + 1) - 1))
      with (List.length tys + 0)%nat by lia.
    rewrite nth_error_app2 by lia.
    replace (List.length tys + 0 - List.length tys)%nat with 0%nat by lia. reflexivity. }
  destruct (MatMulImpl_succeeds (index_type dot config) dot fn config budget ops p
              lhs_arg rhs_arg (PointerType root_ty) P Hs Hstep El Er Eo Sl Sr)
    as (emitted & G).
  rewrite <- MatMul_unfold in G. exists emitted. exact G.
Qed.

End LoweringSucceeds.

(** X16.  The guard of [MatMulImpl] on the number of blocks never stops a
    lowering: its left operand is an [int] product, which wraps around and
    stays below 2^31, and the bound is 2^32.  So
    a lowering can return launch dimensions whose second extent is above the
    65535 blocks of the y axis, as for a batch of 70000 dots of
    f16[1120000,16] x f16[16,16] with tiles of 16 x 16. *)
Theorem grid_guard_never_fires :
  (forall info tile, grid_guard info tile = Ok tt)
  /\ exists ld ops',
       MatMul Examples.dense_analysis 32 true
              (Examples.batched_dot F16 70000 1120000 16 16) Examples.fn_f16
              Examples.config_16 98304 [] = (Ok ld, ops')
       /\ block_counts ld = {| dim_x := 70000; dim_y := 70000; dim_z := 1 |}.
Proof.
  split; [exact grid_guard_Ok|].
  rewrite MatMul_unfold.
  destruct (preamble Examples.dense_analysis
              (index_type (Examples.batched_dot F16 70000 1120000 16 16) Examples.config_16)
              (Examples.batched_dot F16 70000 1120000 16 16) Examples.config_16)
    as [p | |] eqn:P; [| vm_compute in P; discriminate P | vm_compute in P; discriminate P].
  destruct (MatMulImpl_succeeds Examples.dense_analysis 32 true
              (index_type (Examples.batched_dot F16 70000 1120000 16 16) Examples.config_16)
              (Examples.batched_dot F16 70000 1120000 16 16) Examples.fn_f16
              Examples.config_16 98304 [] p (PointerType F16Type) (PointerType F16Type)
              (PointerType F16Type) P) as (ops' & E).
  - vm_compute in P. injection P as <-. vm_compute. discriminate.
  - vm_compute in P. injection P as <-. vm_compute. discriminate.
  - vm_compute in P. injection P as <-. reflexivity.
  - vm_compute in P. injection P as <-. reflexivity.
  - reflexivity.
  - reflexivity.
  - reflexivity.
  - eexists. exists ops'. split; [exact E|].
    vm_compute in P. injection P as <-. reflexivity.
Qed.

Lemma lowering_of_checked_dots_succeeds_witness :
  exists ld emitted,
    MatMul Examples.dense_analysis 32 true Examples.dot_100x70x50
           [PointerType F16Type; PointerType F16Type; PointerType F16Type]
           Examples.config_32 98304 []
    = (Ok ld, emitted)
    /\ block_counts ld = {| dim_x := 8; dim_y := 1; dim_z := 1 |}.
Proof.
  destruct (preamble Examples.dense_analysis
              (index_type Examples.dot_100x70x50 Examples.config_32)
              Examples.dot_100x70x50 Examples.config_32)
    as [p | |] eqn:P; [| vm_compute in P; discriminate P | vm_compute in P; discriminate P].
  assert (P' := P). vm_compute in P'. injection P' as <-.
  destruct (proj2 (lowering_of_checked_dots_succeeds Examples.dense_analysis 32 true)
              Examples.computation_100x70x50 Examples.config_32 98304 []
              Examples.dot_100x70x50 _ F16Type [PointerType F16Type; PointerType F16Type]
              eq_refl eq_refl P
              ltac:(vm_compute; discriminate) ltac:(vm_compute; discriminate)
              ltac:(vm_compute; split; [discriminate | reflexivity])
              ltac:(vm_compute; split; [discriminate | reflexivity]))
    as (emitted & H).
  eexists. exists emitted. split; [exact H | reflexivity].
Defined.

(** ** The kernel signature pass *)

Lemma LLVMType_eqb_eq (a b : LLVMType) : LLVMType_eqb a b = true <-> a = b.
Proof.
  revert b. induction a as [e IH s | n]; destruct b as [e' s' | n']; simpl;
    split; intros H; try discriminate.
  - apply andb_prop in H. destruct H as [H1 H2]. apply IH in H1. apply Z.eqb_eq in H2.
    now subst.
  - injection H as <- <-. rewrite Z.eqb_refl, andb_true_r. now apply IH.
  - apply String.eqb_eq in H. now subst.
  - injection H as <-. apply String.eqb_refl.
Qed.

Lemma generic_param_cases (t : LLVMType) :
  (generic_param t = t /\ forall e, t <> LLVMPointerType e kGlobalMemorySpace)
  \/ (exists e, t = LLVMPointerType e kGlobalMemorySpace
                /\ generic_param t = LLVMPointerType e 0).
Proof.
  destruct t as [e s | n]; simpl.
  - destruct (Z.eqb_spec s kGlobalMemorySpace) as [-> | N]; simpl.
    + right. now exists e.
    + left. split; [reflexivity|]. intros e' E. injection E as _ E. contradiction.
  - left. split; [reflexivity | discriminate].
Qed.

Lemma generic_param_not_global (t e : LLVMType) :
  generic_param t <> LLVMPointerType e kGlobalMemorySpace.
Proof.
  destruct (generic_param_cases t) as [[-> H] | (e' & _ & ->)]; [apply H|].
  unfold kGlobalMemorySpace. intros E. discriminate E.
Qed.

Lemma generic_param_idempotent (t : LLVMType) :
  generic_param (generic_param t) = generic_param t.
Proof.
  destruct (generic_param_cases (generic_param t)) as [[E _] | (e & E & _)];
    [exact E|]. exfalso. exact (generic_param_not_global _ _ E).
Qed.

Lemma generic_params_not_global (params : list LLVMType) :
  Forall (fun generic => forall e, generic <> LLVMPointerType e kGlobalMemorySpace)
         (map generic_param params).
Proof.
  apply Forall_forall. intros t H. apply in_map_iff in H. destruct H as (t0 & <- & _).
  intros e. apply generic_param_not_global.
Qed.

Section KernelSignatureProperties.

Variable names : AttrNames.

(** X17.  The signature of a kernel after [StripParameterAddressSpaces]: as many
    parameters as before, each one the original parameter unless that was a
    pointer to the global address space, which becomes the pointer to the same
    element type in the generic address space, so that no parameter is a
    global pointer any more; the result types, the name, the linkage, the
    calling convention, the argument attributes and the entry count are those
    of the original function; and stripping a second time changes no parameter. *)
Theorem stripped_signature_is_generic (func : LLVMFuncOp) :
  let generic_func := StripParameterAddressSpaces names func in
  Forall2 (fun type generic =>
             (generic = type /\ forall e, type <> LLVMPointerType e kGlobalMemorySpace)
             \/ exists e, type = LLVMPointerType e kGlobalMemorySpace
                          /\ generic = LLVMPointerType e 0)
          (FunctionType_params func) (FunctionType_params generic_func)
  /\ Forall (fun generic => forall e, generic <> LLVMPointerType e kGlobalMemorySpace)
            (FunctionType_params generic_func)
  /\ FunctionType_results generic_func = FunctionType_results func
  /\ SymName generic_func = SymName func
  /\ Linkage generic_func = Linkage func
  /\ DsoLocal generic_func = DsoLocal func
  /\ CConv generic_func = CConv func
  /\ ArgAttrs generic_func = ArgAttrs func
  /\ FunctionEntryCount generic_func = FunctionEntryCount func
  /\ FunctionType_params (StripParameterAddressSpaces names generic_func)
     = FunctionType_params generic_func.
Proof.
  cbv zeta. simpl. split; [| split].
  - induction (FunctionType_params func) as [| t l IH]; simpl; constructor;
      [apply generic_param_cases | exact IH].
  - apply generic_params_not_global.
  - repeat (split; [reflexivity|]). rewrite map_map. apply map_ext.
    apply generic_param_idempotent.
Qed.

Lemma converted_arg_type (arg : LLVMValue) (type : LLVMType) :
  LLVMValue_type (converted_arg arg type) = type.
Proof.
  unfold converted_arg.
  destruct (LLVMType_eqb (LLVMValue_type arg) type) eqn:E; simpl; [| reflexivity].
  now apply LLVMType_eqb_eq.
Qed.

Lemma converted_args_types (args : list LLVMValue) (params : list LLVMType) :
  List.length args = List.length params ->
  map LLVMValue_type (converted_args args params) = params.
Proof.
  unfold converted_args. revert params.
  induction args as [| a args IH]; destruct params as [| t params]; simpl; intros L;
    try discriminate; [reflexivity|].
  rewrite converted_arg_type. f_equal. apply IH. lia.
Qed.

Lemma getArguments_length (func : LLVMFuncOp) :
  List.length (getArguments func) = List.length (FunctionType_params func).
Proof.
  unfold getArguments. rewrite length_map, length_combine, length_seq. lia.
Qed.

Lemma getArguments_types (func : LLVMFuncOp) :
  map LLVMValue_type (getArguments func) = FunctionType_params func.
Proof.
  unfold getArguments. generalize 0%nat.
  induction (FunctionType_params func) as [| t l IH]; simpl; intros n;
    [reflexivity|]. f_equal. apply IH.
Qed.

(** The casts and the converted arguments for arguments of the generic types. *)
Lemma casts_of_generic_arguments (args : list LLVMValue) (params : list LLVMType) :
  map LLVMValue_type args = map generic_param params ->
  Forall2 (fun arg converted =>
             converted = arg
             \/ exists e, LLVMValue_type arg = LLVMPointerType e 0
                          /\ converted
                             = AddrSpaceCastOp (LLVMPointerType e kGlobalMemorySpace) arg)
          args (converted_args args params)
  /\ List.length (created_casts args params)
     = List.length (filter (fun type => negb (LLVMType_eqb (generic_param type) type))
                           params).
Proof.
  unfold converted_args, created_casts. revert params.
  induction args as [| a args IH]; destruct params as [| t params]; intros E;
    try discriminate.
  - split; [constructor | reflexivity].
  - cbn [map] in E. injection E as Ea E. destruct (IH params E) as (F & L).
    cbn [combine map flat_map filter]. unfold converted_arg at 1. rewrite Ea.
    destruct (LLVMType_eqb (generic_param t) t) eqn:Q; cbn [negb].
    + split; [constructor; [now left | exact F]|]. exact L.
    + split.
      * constructor; [| exact F]. right.
        destruct (generic_param_cases t) as [[G _] | (e & -> & G)].
        -- rewrite G in Q. rewrite (proj2 (LLVMType_eqb_eq t t) eq_refl) in Q. discriminate.
        -- exists e. split; [rewrite Ea; exact G | reflexivity].
      * rewrite length_app. cbn [List.length]. rewrite L. reflexivity.
Qed.

(** X18.  The body of a kernel after [StripParameterAddressSpaces] is the body
    of the original function, given values of the types of the original
    parameters: an argument of the entry block of the new function is passed
    on as it is when its parameter has not changed, and through a cast back to
    the global address space when it has; these casts, one per global pointer
    among the parameters, are the first operations of the entry block, and the
    operations of the original entry block follow. *)
Theorem stripped_body_keeps_its_types (func : LLVMFuncOp) :
  let generic_func := StripParameterAddressSpaces names func in
  let args := getArguments generic_func in
  let converted := converted_args args (FunctionType_params func) in
  map LLVMValue_type converted = FunctionType_params func
  /\ Forall2 (fun arg value =>
                value = arg
                \/ exists e, LLVMValue_type arg = LLVMPointerType e 0
                             /\ value = AddrSpaceCastOp
                                          (LLVMPointerType e kGlobalMemorySpace) arg)
             args converted
  /\ exists casts,
       List.length casts
       = List.length (filter (fun type => negb (LLVMType_eqb (generic_param type) type))
                             (FunctionType_params func))
       /\ Forall (fun op => exists type arg, op = LLVMDef (AddrSpaceCastOp type arg)
                                            /\ In arg args) casts
       /\ Body generic_func args
          = ((casts ++ fst (Body func converted))%list, snd (Body func converted)).
Proof.
  cbv zeta.
  set (g := StripParameterAddressSpaces names func).
  assert (Tg : map LLVMValue_type (getArguments g)
               = map generic_param (FunctionType_params func))
    by (rewrite getArguments_types; reflexivity).
  destruct (casts_of_generic_arguments _ _ Tg) as (F & L).
  split.
  { apply converted_args_types. rewrite getArguments_length. unfold g. simpl.
    apply length_map. }
  split; [exact F|].
  exists (created_casts (getArguments g) (FunctionType_params func)).
  split; [exact L|]. split.
  - unfold created_casts. apply Forall_forall. intros op H.
    apply in_flat_map in H. destruct H as ([a t] & Hin & H).
    destruct (negb (LLVMType_eqb (LLVMValue_type a) t)); [| contradiction].
    destruct H as [<- | []]. exists t, a. split; [reflexivity|].
    eapply in_combine_l. exact Hin.
  - unfold g at 1. simpl. fold g.
    destruct (Body func (converted_args (getArguments g) (FunctionType_params func)));
      reflexivity.
Qed.

End KernelSignatureProperties.

Section KernelSignaturePass.

Variable names : AttrNames.

Lemma contains_In (name : string) :
  In name (registered_attr_names names) -> contains (registered_attr_names names) name = true.
Proof.
  intros H. unfold contains. apply existsb_exists. exists name.
  split; [exact H | apply String.eqb_refl].
Qed.

Lemma GetExtraAttrs_filter (func : LLVMFuncOp) :
  GetExtraAttrs names func
  = filter (fun attr => negb (contains (registered_attr_names names) (fst attr))) (ExtraAttrs func).
Proof.
  unfold GetExtraAttrs, getAttrs.
  assert (H1 := contains_In (SymNameAttrName names) ltac:(simpl; tauto)).
  assert (H2 := contains_In (FunctionTypeAttrName names) ltac:(simpl; tauto)).
  assert (H3 := contains_In (LinkageAttrName names) ltac:(simpl; tauto)).
  assert (H4 := contains_In (DsoLocalAttrName names) ltac:(simpl; tauto)).
  assert (H5 := contains_In (CConvAttrName names) ltac:(simpl; tauto)).
  assert (H6 := contains_In (ArgAttrsAttrName names) ltac:(simpl; tauto)).
  assert (H7 := contains_In (FunctionEntryCountAttrName names) ltac:(simpl; tauto)).
  unfold contains in *.
  destruct (DsoLocal func); destruct (FunctionEntryCount func);
    cbn [filter fst app]; rewrite ?H1, ?H2, ?H3, ?H4, ?H5, ?H6, ?H7; reflexivity.
Qed.

(** X19.  [GetExtraAttrs] gives the attributes of the function whose name is not
    one of the seven that the builder sets from its arguments:
    none of its results has such a name, an attribute under another name is
    kept with its value, and the extra attributes of a function built from
    them are found again; so the new function is a kernel as the original
    one is, when the kernel attribute has a name of its own. *)
Theorem GetExtraAttrs_keeps_the_other_attributes (func : LLVMFuncOp) :
  Forall (fun attr => ~ In (fst attr) (registered_attr_names names))
         (GetExtraAttrs names func)
  /\ (forall attr, In attr (getAttrs names func) ->
                   ~ In (fst attr) (registered_attr_names names) ->
                   In attr (GetExtraAttrs names func))
  /\ (forall attr, In attr (GetExtraAttrs names func) -> In attr (ExtraAttrs func))
  /\ GetExtraAttrs names (StripParameterAddressSpaces names func)
     = GetExtraAttrs names func
  /\ (~ In (KernelFuncAttrName names) (registered_attr_names names) ->
      hasAttr names (StripParameterAddressSpaces names func) (KernelFuncAttrName names)
      = hasAttr names func (KernelFuncAttrName names)).
Proof.
  assert (N : forall n, contains (registered_attr_names names) n = false <-> ~ In n (registered_attr_names names)).
  { intros n. split.
    - intros H Hin. rewrite (contains_In n Hin) in H. discriminate.
    - intros H. unfold contains.
      destruct (existsb (String.eqb n) (registered_attr_names names)) eqn:E;
        [| reflexivity]. exfalso. apply H. apply existsb_exists in E.
      destruct E as (x & Hx & E). apply String.eqb_eq in E. now subst. }
  assert (Idem : GetExtraAttrs names (StripParameterAddressSpaces names func)
                 = GetExtraAttrs names func).
  { rewrite (GetExtraAttrs_filter (StripParameterAddressSpaces names func)).
    cbn [ExtraAttrs StripParameterAddressSpaces].
    rewrite GetExtraAttrs_filter.
    induction (ExtraAttrs func) as [| a l IH]; [reflexivity|]. cbn [filter].
    destruct (negb (contains (registered_attr_names names) (fst a))) eqn:E; cbn [filter]; [rewrite E, IH|];
      [reflexivity | exact IH]. }
  split; [| split; [| split; [| split]]].
  - apply Forall_forall. intros attr H. unfold GetExtraAttrs in H.
    apply filter_In in H. destruct H as [_ H]. apply N.
    apply negb_true_iff in H. exact H.
  - intros attr Hin Hn. unfold GetExtraAttrs. apply filter_In. split; [exact Hin|].
    apply negb_true_iff. apply N. exact Hn.
  - intros attr H. rewrite GetExtraAttrs_filter in H. apply filter_In in H. tauto.
  - exact Idem.
  - intros K.
    assert (H : forall f, hasAttr names f (KernelFuncAttrName names)
                          = existsb (fun attr => String.eqb (fst attr)
                                                            (KernelFuncAttrName names))
                                    (GetExtraAttrs names f)).
    { intros f. unfold hasAttr, GetExtraAttrs.
      induction (getAttrs names f) as [| a l IH]; [reflexivity|]. cbn [existsb filter].
      destruct (String.eqb_spec (fst a) (KernelFuncAttrName names)) as [E | E].
      - pose proof (proj2 (N (KernelFuncAttrName names)) K) as NK.
        rewrite E, NK. cbn [negb existsb fst].
        rewrite E, String.eqb_refl. reflexivity.
      - cbn [orb]. rewrite IH.
        destruct (negb (contains (registered_attr_names names) (fst a)));
          [| reflexivity]. cbn [existsb].
        rewrite (proj2 (String.eqb_neq _ _) E). reflexivity. }
    rewrite (H (StripParameterAddressSpaces names func)), (H func), Idem. reflexivity.
Qed.

(** X20.  The pass over a module: a function without the kernel attribute is
    left as it is; a kernel is replaced, at its place, by the function that
    [StripParameterAddressSpaces] builds, which has its name; afterwards no
    kernel with a name of its own for the kernel attribute has a pointer to
    the global address space among its parameters; and running the pass a
    second time changes no signature. *)
Theorem GeneralizeKernelSignaturePass_rewrites_the_kernels (module : list LLVMFuncOp) :
  let rewritten := runOnOperation names module in
  Forall2 (fun func func' =>
             (hasAttr names func (KernelFuncAttrName names) = false -> func' = func)
             /\ (hasAttr names func (KernelFuncAttrName names) = true ->
                 func' = StripParameterAddressSpaces names func)
             /\ SymName func' = SymName func
             /\ List.length (FunctionType_params func')
                = List.length (FunctionType_params func)
             /\ FunctionType_results func' = FunctionType_results func)
          module rewritten
  /\ (~ In (KernelFuncAttrName names) (registered_attr_names names) ->
      Forall (fun func' =>
                hasAttr names func' (KernelFuncAttrName names) = true ->
                Forall (fun type => forall e, type <> LLVMPointerType e kGlobalMemorySpace)
                       (FunctionType_params func'))
             rewritten)
  /\ map FunctionType_params (runOnOperation names rewritten)
     = map FunctionType_params rewritten.
Proof.
  cbv zeta. unfold runOnOperation. split; [| split].
  - induction module as [| f l IH]; simpl; constructor; [| exact IH].
    destruct (hasAttr names f (KernelFuncAttrName names)); simpl;
      repeat split; try reflexivity; try discriminate. apply length_map.
  - intros K. apply Forall_forall. intros f' H. apply in_map_iff in H.
    destruct H as (f & <- & _).
    destruct (hasAttr names f (KernelFuncAttrName names)) eqn:E; simpl.
    + intros _. apply generic_params_not_global.
    + rewrite E. discriminate.
  - rewrite !map_map. apply map_ext. intros f.
    destruct (hasAttr names f (KernelFuncAttrName names)) eqn:E; simpl.
    + destruct (hasAttr names (StripParameterAddressSpaces names f)
                        (KernelFuncAttrName names)); simpl; [| reflexivity].
      rewrite map_map. apply map_ext. apply generic_param_idempotent.
    + rewrite E. reflexivity.
Qed.

End KernelSignaturePass.

Lemma stripped_signature_is_generic_witness :
  FunctionType_params
    (StripParameterAddressSpaces SignatureExamples.nvvm_names
                                 SignatureExamples.kernel_example)
  = [LLVMPointerType SignatureExamples.f16 0; LLVMPointerType SignatureExamples.f16 3;
     LLVMOtherType "i32"]
  /\ Forall (fun generic => forall e, generic <> LLVMPointerType e kGlobalMemorySpace)
            (FunctionType_params
               (StripParameterAddressSpaces SignatureExamples.nvvm_names
                                            SignatureExamples.kernel_example)).
Proof.
  split; [reflexivity|].
  exact (proj1 (proj2 (stripped_signature_is_generic SignatureExamples.nvvm_names
                                                     SignatureExamples.kernel_example))).
Defined.

Lemma stripped_body_keeps_its_types_witness :
  let generic_func := StripParameterAddressSpaces SignatureExamples.nvvm_names
                                                  SignatureExamples.kernel_example in
  let arg0 := LLVMBlockArgument 0 (LLVMPointerType SignatureExamples.f16 0) in
  let arg1 := LLVMBlockArgument 1 (LLVMPointerType SignatureExamples.f16 3) in
  let arg2 := LLVMBlockArgument 2 (LLVMOtherType "i32") in
  let cast0 := AddrSpaceCastOp (LLVMPointerType SignatureExamples.f16 1) arg0 in
  getArguments generic_func = [arg0; arg1; arg2]
  /\ Body generic_func (getArguments generic_func)
     = ([LLVMDef cast0; LLVMOtherOp "llvm.store" [cast0; arg1; arg2];
         LLVMOtherOp "llvm.return" []], [])
  /\ exists casts,
       List.length casts = 1%nat
       /\ Body generic_func (getArguments generic_func)
          = ((casts ++ [LLVMOtherOp "llvm.store" [cast0; arg1; arg2];
                        LLVMOtherOp "llvm.return" []])%list, []).
Proof.
  cbv zeta. split; [reflexivity|]. split; [reflexivity|].
  destruct (stripped_body_keeps_its_types SignatureExamples.nvvm_names
                                          SignatureExamples.kernel_example)
    as (_ & _ & casts & L & _ & B).
  exists casts. split; [exact L | exact B].
Defined.

Lemma GetExtraAttrs_keeps_the_other_attributes_witness :
  GetExtraAttrs SignatureExamples.nvvm_names SignatureExamples.kernel_example
  = [("nvvm.kernel", IntegerAttr 1); ("nvvm.maxntid", IntegerAttr 128)]
  /\ hasAttr SignatureExamples.nvvm_names
             (StripParameterAddressSpaces SignatureExamples.nvvm_names
                                          SignatureExamples.kernel_example)
             "nvvm.kernel"
     = hasAttr SignatureExamples.nvvm_names SignatureExamples.kernel_example "nvvm.kernel".
Proof.
  split; [reflexivity|].
  apply (proj2 (proj2 (proj2 (proj2 (GetExtraAttrs_keeps_the_other_attributes
                                       SignatureExamples.nvvm_names
                                       SignatureExamples.kernel_example))))).
  simpl. intros [H | [H | [H | [H | [H | [H | [H | []]]]]]]]; discriminate H.
Defined.

Lemma GeneralizeKernelSignaturePass_rewrites_the_kernels_witness :
  map FunctionType_params
      (runOnOperation SignatureExamples.nvvm_names
                      [SignatureExamples.kernel_example; SignatureExamples.helper_example])
  = [[LLVMPointerType SignatureExamples.f16 0; LLVMPointerType SignatureExamples.f16 3;
      LLVMOtherType "i32"];
     [LLVMPointerType SignatureExamples.f16 1]]
  /\ map FunctionType_params
         (runOnOperation SignatureExamples.nvvm_names
            (runOnOperation SignatureExamples.nvvm_names
               [SignatureExamples.kernel_example; SignatureExamples.helper_example]))
     = map FunctionType_params
           (runOnOperation SignatureExamples.nvvm_names
              [SignatureExamples.kernel_example; SignatureExamples.helper_example]).
Proof.
  split; [reflexivity|].
  exact (proj2 (proj2 (GeneralizeKernelSignaturePass_rewrites_the_kernels
                         SignatureExamples.nvvm_names
                         [SignatureExamples.kernel_example;
                          SignatureExamples.helper_example]))).
Defined.

(** ** Index width of the addressing *)

Lemma emit_kernel_addressing T W tf fn config info strides tile root_ty ops ld ops' :
  emit_kernel T W tf fn config info strides tile root_ty ops = (Ok ld, ops') ->
  exists lhs_arg_ty rhs_arg_ty out_ty ids sw lhs_base rhs_base acc_init body casted
         before mid ops_sw ops_sw',
    ids = {| pid_batch := GetProgramIdOp (if large_batch info then ProgramIDDim_X
                                          else ProgramIDDim_Y);
             pid_nc := GetProgramIdOp (if large_batch info then ProgramIDDim_Y
                                       else ProgramIDDim_X);
             pid_k := GetProgramIdOp ProgramIDDim_Z |}
    /\ swizzle tile ids ops_sw = (Ok sw, ops_sw')
    /\ lhs_base
       = addptr_of
           (splat_of (addptr_of (FuncArgument (lhs_parameter_number info) lhs_arg_ty)
                                (batch_offset T ids (stride_batch_lhs info)))
                     (shape_m_k tile))
           (lhs_tile_offset T info tile sw)
    /\ rhs_base
       = addptr_of
           (splat_of (addptr_of (FuncArgument (rhs_parameter_number info) rhs_arg_ty)
                                (batch_offset T ids (stride_batch_rhs info)))
                     (shape_k_n tile))
           (rhs_tile_offset T info tile sw)
    /\ body_builder T tf config info tile (range_k sw) (BlockArgument 0 (IntegerType 32))
                    [BlockArgument 1 (getType lhs_base);
                     BlockArgument 2 (getType rhs_base);
                     BlockArgument 3 (getType acc_init)] [] = (Ok tt, body)
    /\ ops'
       = (ops ++ before
          ++ [ForOp (ConstantIntOp 0 32) (ConstantIntOp (k info) 32)
                    (ConstantIntOp (loop_step config tile) 32)
                    [lhs_base; rhs_base; acc_init] body]
          ++ mid
          ++ [StoreOp (store_pointers T strides tile
                         (FuncArgument (Z.of_nat (List.length fn) - 1) out_ty) ids sw)
                      casted (store_mask info tile sw)])%list.
Proof.
  unfold emit_kernel. intros H.
  bind_step_at H lhs ops1 El. apply getArgument_Ok in El.
  destruct El as (lhs_arg_ty & El & -> & ->).
  bind_step_at H rhs ops2 Er. apply getArgument_Ok in Er.
  destruct Er as (rhs_arg_ty & Er & -> & ->).
  bind_step_at H out ops3 Eo. apply getArgument_Ok in Eo.
  destruct Eo as (out_ty & Eo & -> & ->).
  bind_step_at H ids ops4 Ei.
  destruct (program_ids_emits info _ _ _ Ei) as (n1 & -> & _ & _).
  apply program_ids_Ok in Ei.
  bind_step_at H u ops5 Eg. apply lift_Ok in Eg. destruct Eg as [_ ->].
  bind_step_at H sw ops6 Es.
  pose proof Es as Es'.
  destruct (swizzle_emits tile ids ltac:(subst ids; reflexivity) _ _ _ Es) as (n2 & -> & _ & _).
  bind_step_at H lhs_base ops7 Elp.
  destruct (lhs_pointers_emits T info tile _ ids sw _ _ _ Elp) as (n3 & -> & _ & _).
  apply lhs_pointers_Ok in Elp.
  bind_step_at H rhs_base ops8 Erp.
  destruct (rhs_pointers_emits T info tile _ ids sw _ _ _ Erp) as (n4 & -> & _ & _).
  apply rhs_pointers_Ok in Erp.
  bind_step_at H acc_init ops9 Ea.
  apply CreateConstTensor_Ok in Ea. destruct Ea as [Ea ->].
  bind_step_at H acc_final ops10 Eloop.
  apply reduction_loop_Ok in Eloop. cbv zeta in Eloop.
  destruct Eloop as (body & Eb & -> & _).
  bind_step_at H u2 ops11 Est. destruct u2.
  apply output_store_Ok in Est. destruct Est as (casted & n5 & mid' & _ & ->).
  unfold BuilderMonad.ret in H. apply (f_equal snd) in H. cbn [snd] in H. subst ops'.
  exists lhs_arg_ty, rhs_arg_ty, out_ty, ids, sw, lhs_base, rhs_base, acc_init, body, casted.
  exists (n1 ++ n2 ++ n3 ++ n4 ++ [Def acc_init; Def (ConstantIntOp 0 32);
                                   Def (ConstantIntOp (k info) 32);
                                   Def (ConstantIntOp (loop_step config tile) 32)])%list.
  exists n5. eexists. eexists.
  split; [exact Ei|]. split; [exact Es'|]. split; [exact Elp|]. split; [exact Erp|].
  split; [exact Eb|].
  repeat rewrite <- app_assoc. reflexivity.
Qed.

Section IndexWidthAddressing.

Variable analyze : HloDotInstruction -> Z -> DotFusionAnalysis.
Variable W : Z.
Variable tf : bool.


End IndexWidthAddressing.

Section IndexWidthUniform.

Variable analyze : HloDotInstruction -> Z -> DotFusionAnalysis.
Variable W : Z.
Variable tf : bool.


End IndexWidthUniform.


(** ** Reduction lengths beyond 32 bits *)

(** C1.  For f16[16,2^31] x f16[2^31,16] with tiles of 16 x 16 x 16 and
    split_k = 1, the reduction length, contracting extent * split_k, is 2^31.
    The lowering, which selects 64-bit indices for these operands, holds the
    length in an [int] (line 396): the upper bound of the emitted loop is
    -2^31, so the loop, from 0 in steps of 16, does not run, and as -2^31 is a
    multiple of 16 the loads have no mask. *)
Theorem C1_reduction_length_wraps :
  exists p ld emitted c size inits body before after,
    index_type MoreExamples.dot_k_2e31 Examples.config_16 = int64_t
    /\ preamble Examples.dense_analysis int64_t MoreExamples.dot_k_2e31 Examples.config_16
       = Ok p
    /\ at_ (lhs_contracting_dimensions (dot_dimension_numbers MoreExamples.dot_k_2e31)) 0
           "lhs_contracting_dimensions(0)" = Ok c
    /\ at_ (dimensions (operand0 MoreExamples.dot_k_2e31)) c "lhs contracting size" = Ok size
    /\ size * split_k Examples.config_16 = 2147483648
    /\ k (p_info p) = -2147483648
    /\ loop_step Examples.config_16 (p_tile p) = 16
    /\ needs_mask Examples.config_16 (p_info p) (p_tile p) = false
    /\ MatMul Examples.dense_analysis 32 true MoreExamples.dot_k_2e31 Examples.fn_f16
              Examples.config_16 98304 [] = (Ok ld, emitted)
    /\ emitted
       = (before
          ++ [ForOp (ConstantIntOp 0 32) (ConstantIntOp (-2147483648) 32)
                    (ConstantIntOp 16 32) inits body]
          ++ after)%list.
Proof.
  destruct (MatMul Examples.dense_analysis 32 true MoreExamples.dot_k_2e31 Examples.fn_f16
                   Examples.config_16 98304 []) as [[ld | msg | msg] emitted] eqn:E;
    [| vm_compute in E; discriminate E | vm_compute in E; discriminate E].
  pose proof E as E'. rewrite MatMul_unfold in E'.
  change (index_type MoreExamples.dot_k_2e31 Examples.config_16) with int64_t in E'.
  unfold MatMulImpl in E'.
  bind_step_at E' p ops1 P. apply lift_Ok in P. destruct P as [P ->].
  bind_step_at E' u ops2 C. apply lift_Ok in C. destruct C as [_ ->].
  apply emit_kernel_addressing in E'.
  destruct E' as (lhs_arg_ty & rhs_arg_ty & out_ty & ids & sw & lhs_base & rhs_base
                  & acc_init & body & casted & before & mid & ops_sw & ops_sw'
                  & _ & _ & _ & _ & _ & Eo).
  pose proof P as P'. vm_compute in P'. injection P' as <-.
  eexists _, ld, emitted, 1, 2147483648, [lhs_base; rhs_base; acc_init], body, before, _.
  split; [reflexivity|]. split; [exact P|]. split; [reflexivity|]. split; [reflexivity|].
  split; [reflexivity|]. split; [reflexivity|]. split; [reflexivity|].
  split; [reflexivity|]. split; [reflexivity|].
  exact Eo.
Qed.
